(** * arsenal: position book, execution engines, publishers and rebalancing

    A shallow embedding of the parts of the backtesting runtime that carry
    sequencing and bookkeeping obligations:

    - [util/stock.py] and [strats/book.py]: the position book and the
      corporate-action adjustment;
    - [execution/order.py], [execution/refData.py],
      [execution/backtestEngine.py], [execution/stockBacktestEngine.py]:
      orders, reference data and the two back-test execution engines;
    - [datafeed/stockDataPublisher.py], [datafeed/backtestEngine.py]: the
      publishers, subscriber bookkeeping and the replay loop;
    - [util/calendar.py], [strats/stockStrategy.py]: the trading calendar
      and the rebalancing routine [adjustPosition].

    Conventions of the embedding.
    - Python [int] is [Z].  Python [float] is idealised as an exact rational
      [Q]: rounding of binary floating point is not modelled, the non-finite
      values [inf] and [nan] are modelled where the code tests for them or
      can create them (type [float64] below).
    - Python dictionaries and pandas frames indexed by a unique key are
      [gmap]s; Python sets are [gset]s.
    - A raised exception is the [Raise] outcome; [logging] output is the log
      carried by the [Ok] outcome.
    - A row obtained with [frame.ix[key]] is a view of the frame: attribute
      writes to it update the frame (this is what [addPosition] and
      [adjustPrice] of the book rely on). *)

From Stdlib Require Import ZArith QArith Qround String List Lia.
From stdpp Require Import gmap strings list fin_maps sorting.

#[local] Set Warnings "-clear-no-such-hyp".

Local Open Scope Z_scope.

(** ** Exceptions, logging and outcomes *)

(** The exceptions the modelled code raises, each with the data that
    appears in its message. *)
Inductive exn : Type :=
  | KeyError (key : string)
  | IndexError
  | ValueError
  | OverflowError
  | OrderDoesNotExist (oid : Z)
      (* Exception( 'Given order {oid:d} does not exist.' ) *)
  | RequestedSubscriberDoesNotExist
      (* Exception( 'Requested subscriber does not exist.' ) *)
  | SubscriberDoesNotExist (sid : Z)
      (* Exception( 'Subscriber with ID {sid:d} does not exist.' ) *)
  | NoRecordFound (secId : string)
      (* Exception( 'No record found for futures contract {fr:s}.' ) *)
  | DateTooEarly (date : string).
      (* Exception( 'Date {0:s} is too early to be backtested.' ) *)

(** Records written through [logging.warn]. *)
Inductive LogRecord : Type :=
  | WarnNotEnoughHoldings (secId : string) (vol : Z) (p : Q) (hvol : Z)
  | WarnNotInBook (secId : string).

Inductive outcome (A : Type) : Type :=
  | Ok (a : A) (log : list LogRecord)
  | Raise (e : exn).
Arguments Ok {A} a log.
Arguments Raise {A} e.

Definition ret {A} (a : A) : outcome A := Ok a [].

Definition bind {A B} (m : outcome A) (k : A -> outcome B) : outcome B :=
  match m with
  | Ok a l1 =>
      match k a with
      | Ok b l2 => Ok b (l1 ++ l2)
      | Raise e => Raise e
      end
  | Raise e => Raise e
  end.

Definition warn (r : LogRecord) : outcome unit := Ok tt [r].

Notation "'do' x <- m ; k" := (bind m (fun x => k))
  (at level 10, x name, m at level 100, k at level 200).

Definition raises {A} (m : outcome A) : Prop :=
  match m with Raise _ => True | Ok _ _ => False end.

Definition value {A} (m : outcome A) : option A :=
  match m with Ok a _ => Some a | Raise _ => None end.

(** ** Numbers *)

(** Strict comparison of rationals as a boolean: [a < b]. *)
Definition Qlt_bool (a b : Q) : bool := negb (Qle_bool b a).

(** Python's [int( x )] on a finite float: truncation toward zero. *)
Definition int (x : Q) : Z := Z.quot (Qnum x) (Zpos (Qden x)).

(** ** util/stock.py *)

Module stockUtil.

(** [adjustPrice( position, cash, dividend10, right10, rightIssue10,
    rightIssuePrice )].  The two leading [if ... : x = 1] statements have
    no effect.  The affordability test reads the parameter [cash], not
    [newCash]. *)
Definition adjustPrice (position : Z) (cash dividend10 right10
    rightIssue10 rightIssuePrice : Q) : Z * Q :=
  let unit := int (inject_Z position / 10) in
  let newCash := (cash + dividend10 * inject_Z unit)%Q in
  let newPosition := position + int (inject_Z unit * right10) in
  let rightIssueVolume := int (rightIssue10 * inject_Z unit) in
  if Qlt_bool (inject_Z rightIssueVolume * rightIssuePrice) cash then
    (newPosition + rightIssueVolume,
     (newCash - inject_Z rightIssueVolume * rightIssuePrice)%Q)
  else (newPosition, newCash).

(** [roundVolume( volume, lotSize=100 )]. *)
Definition roundVolume (volume : Q) (lotSize : Z) : Z :=
  int (volume / inject_Z lotSize) * lotSize.

End stockUtil.

(** ** strats/book.py *)

(** [Series.sum()] over the cells of a series. *)
Definition series_sum (s : gmap string Q) : Q :=
  map_fold (fun _ v acc => (acc + v)%Q) 0%Q s.

(** One row of the book frame: columns [Price] and [Volume]. *)
Record Position : Type := mkPosition { Price : Q; Volume : Z }.

Module PortfolioPosition.

(** The object state: the frame [self.book], indexed by [SecID], and
    [self.cash]. *)
Record t : Type := mk { book : gmap string Position; cash : Q }.

(** [__init__( totalAsset )]. *)
Definition init (totalAsset : Q) : t := {| book := ∅; cash := totalAsset |}.

Definition getPositions (self : t) : gmap string Position := book self.

(** [frame.ix[ secId ]] on a row label: [KeyError] when absent. *)
Definition ix (frame : gmap string Position) (secId : string)
    : outcome Position :=
  match frame !! secId with
  | Some row => ret row
  | None => Raise (KeyError secId)
  end.

Definition getPosition (self : t) (secId : string) : outcome Z :=
  do row <- ix (book self) secId; ret (Volume row).

Definition getStocksInBook (self : t) : gset string := dom (book self).

Definition isCashEnough (self : t) (price : Q) (volume : Z)
    (commision : Q) : bool :=
  Qlt_bool (price * inject_Z volume + commision) (cash self).

(** [addPosition( secId, price, volume, commision )].  The quotient of
    the new average price is meant for a non-zero divisor (a positive
    total volume); the properties below use it only there. *)
Definition addPosition (secId : string) (price : Q) (volume : Z)
    (commision : Q) (self : t) : outcome t :=
  let position := getPositions self in
  do position' <-
    (if decide (secId ∈ dom position) then
       do secPos <- ix position secId;
       let newPrice :=
         ((Price secPos * inject_Z (Volume secPos) + price * inject_Z volume)
          / inject_Z (Volume secPos + volume))%Q in
       let secPos := {| Price := newPrice; Volume := Volume secPos |} in
       let secPos :=
         {| Price := Price secPos; Volume := Volume secPos + volume |} in
       ret (<[secId := secPos]> position)
     else
       ret (<[secId := {| Price := price; Volume := volume |}]> position));
  ret {| book := position';
         cash := (cash self - (commision + price * inject_Z volume))%Q |}.

(** [deletePosition( secId, price, volume, commision )]. *)
Definition deletePosition (secId : string) (price : Q) (volume : Z)
    (commision : Q) (self : t) : outcome t :=
  let position := getPositions self in
  if decide (secId ∈ dom position) then
    do secPos <- ix position secId;
    let position := delete secId position in
    do availVol <-
      (if Z.ltb (Volume secPos) volume then
         do _ <- warn (WarnNotEnoughHoldings secId volume price
                         (Volume secPos));
         ret (Volume secPos)
       else ret volume);
    let secPos :=
      {| Price := Price secPos; Volume := Volume secPos - availVol |} in
    let cash' := (cash self + (inject_Z availVol * price - commision))%Q in
    if Z.ltb 0 (Volume secPos) then
      ret {| book := <[secId := secPos]> position; cash := cash' |}
    else ret {| book := position; cash := cash' |}
  else ret self.

(** [getTotalAsset( refPrices, excludeSuspended )].  [refPrices] is the
    column [S_DQ_CLOSE] of the frame keyed by [S_INFO_WINDCODE]; a held
    instrument without a price gives a [nan] product, which [sum] skips. *)
Definition getTotalAsset (refPrices : option (gmap string Q))
    (excludeSuspended : option (gset string)) (self : t)
    : Q :=
  let totalAsset := cash self in
  match refPrices with
  | None => totalAsset
  | Some refPrices =>
      let position := getPositions self in
      let monetaryVolumes : gmap string Q :=
        map_zip_with (fun pos p => (inject_Z (Volume pos) * p)%Q)
          position refPrices in
      match excludeSuspended with
      | None => (totalAsset + series_sum monetaryVolumes)%Q
      | Some excludeSuspended =>
          (totalAsset
           + series_sum (filter (fun kv => kv.1 ∉ excludeSuspended)
                           monetaryVolumes))%Q
      end
  end.

(** [adjustPrice( secId, dividend10, right10, rightIssue10,
    rightIssuePrice )]: the [KeyError] of the row lookup is caught and
    logged. *)
Definition adjustPrice (secId : string) (dividend10 right10 rightIssue10
    rightIssuePrice : Q) (self : t) : outcome t :=
  let positions := getPositions self in
  match ix positions secId with
  | Ok secPos _ =>
      let '(newVolume, newCash) :=
        stockUtil.adjustPrice (Volume secPos) (cash self) dividend10
          right10 rightIssue10 rightIssuePrice in
      ret {| book := <[secId := {| Price := Price secPos;
                                   Volume := newVolume |}]> positions;
             cash := newCash |}
  | Raise (KeyError _) => Ok self [WarnNotInBook secId]
  | Raise e => Raise e
  end.

End PortfolioPosition.

(** ** execution/order.py *)

Module Order.

(* order side *)
Definition BUY : Z := 1.
Definition SELL : Z := -1.
Definition UNKNOWN : Z := 0.

(* order type *)
Definition LIMIT_ORDER : Z := 0.
Definition MARKET_ORDER : Z := 1.

(** The fields set by [Order.__init__]; [SimpleOrder] adds
    [effectivePrice]. *)
Record t : Type := mk {
  secId : string;
  side : Z;
  volume : Z;
  price : Q;
  priceType : Z;
  offset : option Z;
  effectivePrice : option Q
}.

(** [Order( secId, side, volume, price )] with the default arguments. *)
Definition new (secId : string) (side volume : Z) (price : Q) : t :=
  {| secId := secId; side := side; volume := volume; price := price;
     priceType := LIMIT_ORDER; offset := None; effectivePrice := None |}.

End Order.

Module SimpleOrderStatus.

Definition SUBMITTED : Z := 0.
Definition CANCELLED : Z := 1.
Definition EXECUTED : Z := 2.

(** Every constructor argument defaults to [None]. *)
Record t : Type := mk {
  orderStatus : option Z;
  secId : option string;
  executedPrice : option Q;
  commision : option Q;
  orderDirection : option Z;
  orderSize : option Z
}.

(** [SimpleOrderStatus( orderStatus=s )]. *)
Definition only (s : Z) : t :=
  {| orderStatus := Some s; secId := None; executedPrice := None;
     commision := None; orderDirection := None; orderSize := None |}.

End SimpleOrderStatus.

(** ** execution/refData.py *)

(** The part of the reference-data interface the engines call. *)
Record RefData : Type := mkRefData {
  getTickSize : string -> outcome Q;
  getLotSize : string -> outcome Q
}.

(** The base class [RefData]: constant answers. *)
Definition baseRefData : RefData :=
  {| getTickSize := fun _ => ret (1 # 100);
     getLotSize := fun _ => ret 1%Q |}.

(** A row of [FuturesRefData.futuresInfo]. *)
Record FuturesRecord : Type := mkFuturesRecord {
  secID : string;
  minChgPriceNum : Q;
  contMultNum : Q
}.

(** [FuturesRefData._getRecord]: the first row whose [secID] matches, an
    exception when there is none. *)
Definition getRecord (futuresInfo : list FuturesRecord) (secId : string)
    : outcome FuturesRecord :=
  match filter (fun r => secID r = secId) futuresInfo with
  | [] => Raise (NoRecordFound secId)
  | record :: _ => ret record
  end.

Definition futuresRefData (futuresInfo : list FuturesRecord) : RefData :=
  {| getTickSize := fun secId =>
       do record <- getRecord futuresInfo secId; ret (minChgPriceNum record);
     getLotSize := fun secId =>
       do record <- getRecord futuresInfo secId; ret (contMultNum record) |}.

(** ** execution/backtestEngine.py *)

Module BacktestExecutionEngine.

Record t : Type := mk {
  commisionRate : Q;
  marketImpact : Z;
  refData : RefData;
  executedOrders : gmap Z Order.t;
  nextId : Z
}.

Definition init (commisionRate : Q) (marketImpact : Z) (refData : RefData)
    : t :=
  {| commisionRate := commisionRate; marketImpact := marketImpact;
     refData := refData; executedOrders := ∅; nextId := 1 |}.

(** [queryOrder( orderId )]; it does not change the engine. *)
Definition queryOrder (orderId : Z) (self : t)
    : outcome SimpleOrderStatus.t :=
  match executedOrders self !! orderId with
  | None => Raise (OrderDoesNotExist orderId)
  | Some orderObj =>
      let secId := Order.secId orderObj in
      let direction :=
        if decide (Order.side orderObj = Order.BUY) then 1 else -1 in
      let price := Order.price orderObj in
      let size := Order.volume orderObj in
      do tickSize <- getTickSize (refData self) (Order.secId orderObj);
      let effectivePrice :=
        (price + inject_Z direction * tickSize
                 * inject_Z (marketImpact self))%Q in
      do contractFactor <- getLotSize (refData self) (Order.secId orderObj);
      let commision :=
        (effectivePrice * inject_Z size * contractFactor
         * commisionRate self)%Q in
      ret {| SimpleOrderStatus.orderStatus :=
               Some SimpleOrderStatus.EXECUTED;
             SimpleOrderStatus.secId := Some secId;
             SimpleOrderStatus.executedPrice := Some effectivePrice;
             SimpleOrderStatus.commision := Some commision;
             SimpleOrderStatus.orderDirection := Some direction;
             SimpleOrderStatus.orderSize := Some size |}
  end.

(** [placeOrder( order, onOrderFilled )].  The engine is updated before
    the status is computed, so the new state is returned also when the
    reference data raises.  The callback [onOrderFilled] is represented
    by its argument: on success the outcome carries the order id and the
    status handed to the callback. *)
Definition placeOrder (order : Order.t) (self : t)
    : outcome (Z * SimpleOrderStatus.t) * t :=
  let orderId := nextId self in
  let self :=
    {| commisionRate := commisionRate self;
       marketImpact := marketImpact self; refData := refData self;
       executedOrders := <[orderId := order]> (executedOrders self);
       nextId := nextId self + 1 |} in
  (do orderStatus <- queryOrder orderId self; ret (orderId, orderStatus),
   self).

(** [cancelOrder( orderId )]: the argument is not inspected. *)
Definition cancelOrder (orderId : Z) (self : t)
    : outcome SimpleOrderStatus.t :=
  ret (SimpleOrderStatus.only SimpleOrderStatus.EXECUTED).

(** [updateOrder( orderId, order )]. *)
Definition updateOrder (orderId : Z) (order : Order.t) (self : t)
    : outcome Z :=
  ret (-1).

(** The calls a client can make on the engine. *)
Inductive call : Type :=
  | PlaceOrder (order : Order.t)
  | CancelOrder (orderId : Z)
  | UpdateOrder (orderId : Z) (order : Order.t)
  | QueryOrder (orderId : Z).

(** One call: the new engine state and the order id taken from
    [nextId], if the call was a [placeOrder]. *)
Definition step (c : call) (self : t) : t * list Z :=
  match c with
  | PlaceOrder order => (snd (placeOrder order self), [nextId self])
  | CancelOrder _ | UpdateOrder _ _ | QueryOrder _ => (self, [])
  end.

(** A sequence of calls: the final state and the ids of all orders
    placed, oldest first. *)
Fixpoint run (cs : list call) (self : t) : t * list Z :=
  match cs with
  | [] => (self, [])
  | c :: cs =>
      let '(self, ids) := step c self in
      let '(self, ids') := run cs self in
      (self, ids ++ ids')
  end.

End BacktestExecutionEngine.

(** ** execution/stockBacktestEngine.py *)

Module StockBacktestExecutionEngine.

Record t : Type := mk {
  commisionRate : Q;
  marketImpact : Z;
  nextId : Z;
  executedOrders : gmap Z Order.t
}.

Definition init (commisionRate : Q) (marketImpact : Z) : t :=
  {| commisionRate := commisionRate; marketImpact := marketImpact;
     nextId := 1; executedOrders := ∅ |}.

Definition queryOrder (orderId : Z) (self : t)
    : outcome SimpleOrderStatus.t :=
  match executedOrders self !! orderId with
  | None => Raise (OrderDoesNotExist orderId)
  | Some orderObj =>
      let secId := Order.secId orderObj in
      let direction :=
        if decide (Order.side orderObj = Order.BUY) then 1 else -1 in
      let price := Order.price orderObj in
      let size := Order.volume orderObj in
      let effectivePrice :=
        (price + inject_Z direction * (1 # 100)
                 * inject_Z (marketImpact self))%Q in
      let commision :=
        (effectivePrice * inject_Z size * commisionRate self)%Q in
      ret {| SimpleOrderStatus.orderStatus :=
               Some SimpleOrderStatus.EXECUTED;
             SimpleOrderStatus.secId := Some secId;
             SimpleOrderStatus.executedPrice := Some effectivePrice;
             SimpleOrderStatus.commision := Some commision;
             SimpleOrderStatus.orderDirection := Some direction;
             SimpleOrderStatus.orderSize := Some size |}
  end.

Definition placeOrder (order : Order.t) (self : t)
    : outcome (Z * SimpleOrderStatus.t) * t :=
  let orderId := nextId self in
  let self :=
    {| commisionRate := commisionRate self;
       marketImpact := marketImpact self;
       nextId := nextId self + 1;
       executedOrders := <[orderId := order]> (executedOrders self) |} in
  (do orderStatus <- queryOrder orderId self; ret (orderId, orderStatus),
   self).

Definition cancelOrder (orderId : Z) (self : t)
    : outcome SimpleOrderStatus.t :=
  ret (SimpleOrderStatus.only SimpleOrderStatus.EXECUTED).

End StockBacktestExecutionEngine.

(** ** Python's [sorted( l, key=... )] *)

Section Sorted.
Context {A K : Type} (R : relation K) `{!RelDecision R} (key : A -> K).

(** Stable insertion: [x] goes in front of the first element whose key
    is not smaller. *)
Fixpoint insert_by (x : A) (l : list A) : list A :=
  match l with
  | [] => [x]
  | y :: l' =>
      if decide (R (key x) (key y)) then x :: l else y :: insert_by x l'
  end.

Definition sorted (l : list A) : list A := foldr insert_by [] l.

End Sorted.

(** ** datafeed/subpub.py *)

(** A subscriber object: its identity and what its query methods return. *)
Record Subscriber : Type := mkSubscriber {
  ref : nat;
  getSubscribedTopics : list string;
  getSubscribedDataFields : option (list string)
}.

Global Instance Subscriber_eq_dec : EqDecision Subscriber.
Proof. solve_decision. Defined.

Global Instance Subscriber_countable : Countable Subscriber :=
  inj_countable'
    (fun s => (ref s, getSubscribedTopics s, getSubscribedDataFields s))
    (fun p => mkSubscriber p.1.1 p.1.2 p.2)
    (fun s => match s with mkSubscriber _ _ _ => eq_refl end).

(** ** datafeed/stockDataPublisher.py *)

Module StockDataPublisher.

Record t : Type := mk {
  subscribers : gmap Z Subscriber;
  topicsToSubscribers : gmap string (gset Subscriber);
  nextId : Z
}.

Definition init : t :=
  {| subscribers := ∅; topicsToSubscribers := ∅; nextId := 1 |}.

(** The loop [for topic in subscribedTopics] of [addSubscriber]. *)
Fixpoint addTopics (subscriber : Subscriber) (subscribedTopics : list string)
    (index : gmap string (gset Subscriber)) : gmap string (gset Subscriber) :=
  match subscribedTopics with
  | [] => index
  | topic :: rest =>
      let index :=
        if decide (topic ∈ dom index) then index else <[topic := ∅]> index in
      let index := <[topic := index !!! topic ∪ {[subscriber]}]> index in
      addTopics subscriber rest index
  end.

(** [addSubscriber( subscriber )]; [None] is Python's [None]. *)
Definition addSubscriber (subscriber : option Subscriber) (self : t)
    : option Z * t :=
  match subscriber with
  | Some s =>
      let subId := nextId self in
      (Some subId,
       {| subscribers := <[subId := s]> (subscribers self);
          topicsToSubscribers :=
            addTopics s (getSubscribedTopics s) (topicsToSubscribers self);
          nextId := nextId self + 1 |})
  | None => (None, self)
  end.

(** The loop [for topic in subscribedTopics] of [removeSubscriber]:
    [self.topicsToSubscribers[ topic ]] raises [KeyError] on a topic that
    is not indexed; the entries handled before stay updated. *)
Fixpoint removeTopics (subscriber : Subscriber)
    (subscribedTopics : list string) (index : gmap string (gset Subscriber))
    : outcome unit * gmap string (gset Subscriber) :=
  match subscribedTopics with
  | [] => (ret tt, index)
  | topic :: rest =>
      match index !! topic with
      | None => (Raise (KeyError topic), index)
      | Some subs =>
          removeTopics subscriber rest
            (<[topic := subs ∖ {[subscriber]}]> index)
      end
  end.

(** [removeSubscriber( subscriberId )]. *)
Definition removeSubscriber (subscriberId : Z) (self : t)
    : outcome unit * t :=
  match subscribers self !! subscriberId with
  | None => (Raise RequestedSubscriberDoesNotExist, self)
  | Some subscriber =>
      let '(r, index) :=
        removeTopics subscriber (getSubscribedTopics subscriber)
          (topicsToSubscribers self) in
      (r, {| subscribers := delete subscriberId (subscribers self);
             topicsToSubscribers := index;
             nextId := nextId self |})
  end.

(** [notify( subscriberId, data )]: on success, the subscriber whose
    [onData] is invoked with [data]. *)
Definition notify {Data : Type} (subscriberId : Z) (data : Data) (self : t)
    : outcome (Subscriber * Data) :=
  match subscribers self !! subscriberId with
  | Some s => ret (s, data)
  | None => Raise (SubscriberDoesNotExist subscriberId)
  end.

(** [notifyAll( data )]: the subscribers whose [onData] is invoked;
    [index] is [set( data.index )]. *)
Definition notifyAll {Data : Type} (index : Data -> gset string)
    (data : Data) (self : t) : list (Subscriber * Data) :=
  let subscribers : gset Subscriber :=
    foldr (fun secId acc =>
             acc ∪ default ∅ (topicsToSubscribers self !! secId))
          ∅ (elements (index data)) in
  (fun s => (s, data)) <$> elements subscribers.

(** Registration calls and the ids they return. *)
Inductive call : Type :=
  | AddSubscriber (subscriber : option Subscriber)
  | RemoveSubscriber (subscriberId : Z).

Definition step (c : call) (self : t) : t * list Z :=
  match c with
  | AddSubscriber s =>
      let '(subId, self) := addSubscriber s self in
      (self, match subId with Some i => [i] | None => [] end)
  | RemoveSubscriber i => (snd (removeSubscriber i self), [])
  end.

(** A sequence of calls: the final publisher and the ids returned by
    [addSubscriber], oldest first. *)
Fixpoint run (cs : list call) (self : t) : t * list Z :=
  match cs with
  | [] => (self, [])
  | c :: cs =>
      let '(self, ids) := step c self in
      let '(self, ids') := run cs self in
      (self, ids ++ ids')
  end.

End StockDataPublisher.

(** ** datafeed/backtestEngine.py *)

Module BacktestDataPublisher.
Section Replay.

(** The values of the columns [tradeDate] and [timestamp], with the
    orders [sorted] and [groupby] compare them by, and the remaining
    columns of a row. *)
Context {Date Time Payload : Type}.
Context `{!EqDecision Date, !EqDecision Time}.
Context (dle : relation Date) `{!RelDecision dle}.
Context (tle : relation Time) `{!RelDecision tle}.

Record Row : Type := mkRow {
  tradeDate : Date;
  timestamp : Time;
  payload : Payload
}.

Record t : Type := mk {
  subscribers : gmap Z Subscriber;
  nextId : Z
}.

Definition init : t := {| subscribers := ∅; nextId := 1 |}.

Definition addSubscriber (subscriber : Subscriber) (self : t) : Z * t :=
  let subId := nextId self in
  (subId, {| subscribers := <[subId := subscriber]> (subscribers self);
             nextId := nextId self + 1 |}).

(** What a subscriber method is called with. *)
Inductive Message : Type :=
  | OpenMarket (asOfDate : Date)
  | OnData (data : list Row).

(** One call of a method of the subscriber registered under [subId]. *)
Record Event : Type := mkEvent {
  subId : Z;
  subscriber : Subscriber;
  message : Message
}.

(** [openMarket( asOfDate )]. *)
Definition openMarket (asOfDate : Date) (self : t) : list Event :=
  (fun p => mkEvent p.1 p.2 (OpenMarket asOfDate))
    <$> map_to_list (subscribers self).

(** [notifyAll( data )]. *)
Definition notifyAll (data : list Row) (self : t) : list Event :=
  if decide (0 < size (subscribers self))%nat then
    (fun p => mkEvent p.1 p.2 (OnData data))
      <$> map_to_list (subscribers self)
  else [].

(** [frame.groupby( column )]: the distinct keys in ascending order
    ([groups.keys()] sorted, which is also the iteration order of a
    [groupby]) and the rows of one group, in frame order. *)
Definition group_keys {K} `{!EqDecision K} (R : relation K)
    `{!RelDecision R} (column : Row -> K) (frame : list Row) : list K :=
  sorted R id (remove_dups (column <$> frame)).

Definition get_group {K} `{!EqDecision K} (column : Row -> K) (k : K)
    (frame : list Row) : list Row :=
  filter (fun r => column r = k) frame.

(** The publisher's own method calls made by the loop of [connect]. *)
Inductive Call : Type :=
  | CallOpenMarket (asOfDate : Date)
  | CallNotifyAll (subdf : list Row).

Definition perform (self : t) (c : Call) : list Event :=
  match c with
  | CallOpenMarket asOfDate => openMarket asOfDate self
  | CallNotifyAll subdf => notifyAll subdf self
  end.

(** The replay loop of [connect] over the frame [data] returned by
    [self.datafeed]. *)
Definition replay (data : list Row) : list Call :=
  let dates := group_keys dle tradeDate data in
  asOfDate ← dates;
  let ddf := get_group tradeDate asOfDate data in
  CallOpenMarket asOfDate ::
    ((fun ts => CallNotifyAll (get_group timestamp ts ddf))
       <$> group_keys tle timestamp ddf).

(** The union of the subscribed topics ([topics] in [connect]). *)
Definition subscribedTopics (self : t) : gset string :=
  map_fold (fun _ s acc => acc ∪ list_to_set (getSubscribedTopics s))
    ∅ (subscribers self).

(** [connect( startDate, endDate )]: every subscriber call made, in
    order. *)
Definition connect (datafeed : gset string -> Date -> Date -> list Row)
    (startDate endDate : Date) (self : t) : list Event :=
  let data := datafeed (subscribedTopics self) startDate endDate in
  c ← replay data; perform self c.

End Replay.
End BacktestDataPublisher.

(** ** numpy [float64] values *)

(** A [float64] cell: a finite value or one of the non-finite ones. *)
Inductive float64 : Type :=
  | Finite (q : Q)
  | PosInf
  | NegInf
  | NaN.

(** [a * b] for a finite left operand. *)
Definition fmul (a : Q) (b : float64) : float64 :=
  match b with
  | Finite q => Finite (a * q)
  | PosInf =>
      if Qeq_bool a 0 then NaN else if Qlt_bool 0 a then PosInf else NegInf
  | NegInf =>
      if Qeq_bool a 0 then NaN else if Qlt_bool 0 a then NegInf else PosInf
  | NaN => NaN
  end.

(** [a / b] for a finite divisor; numpy does not raise on a zero
    divisor. *)
Definition fdiv (a : float64) (b : Q) : float64 :=
  match a with
  | Finite q =>
      if Qeq_bool b 0 then
        if Qeq_bool q 0 then NaN else if Qlt_bool 0 q then PosInf else NegInf
      else Finite (q / b)
  | PosInf => if Qlt_bool b 0 then NegInf else PosInf
  | NegInf => if Qlt_bool b 0 then PosInf else NegInf
  | NaN => NaN
  end.

(** [us.roundVolume( volume )] with the default lot size on a [float64]
    argument: [int] raises [OverflowError] on an infinity and [ValueError]
    on [nan]. *)
Definition roundVolume64 (volume : float64) : outcome Z :=
  match volume with
  | Finite q => ret (stockUtil.roundVolume q 100)
  | PosInf | NegInf => Raise OverflowError
  | NaN => Raise ValueError
  end.

(** ** util/calendar.py *)

Module AShareTradingCalendar.

(** [series.iloc[ n ]] with Python's negative positions. *)
Definition iloc {A} (l : list A) (n : Z) : outcome A :=
  let len := Z.of_nat (length l) in
  let i := if Z.ltb n 0 then len + n else n in
  if Z.ltb i 0 then Raise IndexError
  else match l !! Z.to_nat i with
       | Some x => ret x
       | None => Raise IndexError
       end.

Definition prevTradingDate (tradingDates : list string) (asOfDate : string)
    (n : Z) : outcome string :=
  let earlyDates := filter (fun d => String.ltb d asOfDate) tradingDates in
  if decide (0 < length earlyDates)%nat then iloc earlyDates (- n)
  else Raise (DateTooEarly asOfDate).

Definition nextTradingDate (tradingDates : list string) (sinceDate : string)
    (n : Z) : outcome string :=
  let laterDates := filter (fun d => String.leb sinceDate d) tradingDates in
  if decide (1 < length laterDates)%nat then iloc laterDates n
  else Raise (DateTooEarly sinceDate).

End AShareTradingCalendar.

(** ** strats/stockStrategy.py *)

(** A row of the end-of-day frame [refPrices], indexed by instrument. *)
Record DailyRow : Type := mkDailyRow {
  S_DQ_OPEN : Q;
  S_DQ_HIGH : Q;
  S_DQ_LOW : Q;
  S_DQ_CLOSE : Q;
  S_DQ_PCTCHANGE : Q;
  (** the cells of the other columns of the frame *)
  others : gmap string Q
}.

Record Frame : Type := mkFrame {
  (** the names of the columns besides the five above *)
  columns : gset string;
  rows : gmap string DailyRow
}.

Module StockStrategy.

(** The fields of the strategy that [adjustPosition] reads. *)
Record t : Type := mk {
  position : PortfolioPosition.t;
  freq : Z;
  (** [self.calendar.tradingDates] *)
  tradingDates : list string;
  (** [self.suspendingDates]: rows ( S_INFO_WINDCODE, S_DQ_SUSPENDDATE ) *)
  suspendingDates : list (string * string);
  (** [self.delistedStocks]: ( instrument, delisting date ) *)
  delistedStocks : list (string * string);
  (** [self.dataSource.getStockDailyData( startDate, endDate )], as the
      column [S_DQ_CLOSE] keyed by [S_INFO_WINDCODE] *)
  getStockDailyData : string -> string -> gmap string Q
}.

Definition prevTradingDate (self : t) (asOfDate : string) (n : Z) :=
  AShareTradingCalendar.prevTradingDate (tradingDates self) asOfDate n.

Definition nextTradingDate (self : t) (sinceDate : string) (n : Z) :=
  AShareTradingCalendar.nextTradingDate (tradingDates self) sinceDate n.

Definition getSuspendingStocks (self : t) (asOfDate : string)
    : gset string :=
  list_to_set
    (fst <$> filter (fun r => r.2 = asOfDate) (suspendingDates self)).

Definition atLimit (r : DailyRow) : bool :=
  Qeq_bool (S_DQ_HIGH r) (S_DQ_OPEN r)
  && Qeq_bool (S_DQ_OPEN r) (S_DQ_CLOSE r)
  && Qeq_bool (S_DQ_CLOSE r) (S_DQ_LOW r).

Definition getUpLimitStocks (refPrices : Frame) : gset string :=
  dom (filter (fun kv => atLimit kv.2 && Qlt_bool 0 (S_DQ_PCTCHANGE kv.2)
                         = true)
         (rows refPrices)).

Definition getDownLimitStocks (refPrices : Frame) : gset string :=
  dom (filter (fun kv => atLimit kv.2 && Qlt_bool (S_DQ_PCTCHANGE kv.2) 0
                         = true)
         (rows refPrices)).

(** [refPrices.S_DQ_CLOSE] when [column] is [None], [refPrices[ column ]]
    otherwise: the series of the column, [KeyError] for an unknown
    column. *)
Definition refColumn (refPrices : Frame) (column : option string)
    : outcome (gmap string Q) :=
  match column with
  | None => ret (S_DQ_CLOSE <$> rows refPrices)
  | Some c =>
      if decide (c = "S_DQ_OPEN"%string) then
        ret (S_DQ_OPEN <$> rows refPrices)
      else if decide (c = "S_DQ_HIGH"%string) then
        ret (S_DQ_HIGH <$> rows refPrices)
      else if decide (c = "S_DQ_LOW"%string) then
        ret (S_DQ_LOW <$> rows refPrices)
      else if decide (c = "S_DQ_CLOSE"%string) then
        ret (S_DQ_CLOSE <$> rows refPrices)
      else if decide (c = "S_DQ_PCTCHANGE"%string) then
        ret (S_DQ_PCTCHANGE <$> rows refPrices)
      else if decide (c ∈ columns refPrices) then
        ret (omap (fun r => others r !! c) (rows refPrices))
      else Raise (KeyError c)
  end.

(** [series.ix[ label ]]. *)
Definition ix {V} (series : gmap string V) (label : string) : outcome V :=
  match series !! label with
  | Some v => ret v
  | None => Raise (KeyError label)
  end.

(** [weights[ weights >= 0 ]] followed by
    [.replace( [ inf, -inf ], nan ).dropna()]. *)
Definition cleanWeights (weights : gmap string float64) : gmap string Q :=
  omap (fun w => match w with
                 | Finite q => if Qle_bool 0 q then Some q else None
                 | PosInf | NegInf | NaN => None
                 end) weights.

(** [weights / weights.sum()] when there are weights and normalisation
    is on. *)
Definition normalize (normalizeWeights : bool) (weights : gmap string Q)
    : gmap string float64 :=
  if decide (0 < size weights)%nat then
    if normalizeWeights then
      (fun w => fdiv (Finite w) (series_sum weights)) <$> weights
    else Finite <$> weights
  else Finite <$> weights.

(** The three buckets computed from the five sets. *)
Definition buckets (enableSab : bool) (stocksInBook stocksToHold
    suspendingStocks stocksToDelist stocksCannotBuy stocksCannotSell
    : gset string) : gset string * gset string * gset string :=
  let stocksForceSell := stocksInBook ∩ stocksToDelist in
  if enableSab then
    (stocksInBook ∖ suspendingStocks ∖ stocksCannotSell,
     stocksToHold ∖ suspendingStocks ∖ stocksToDelist ∖ stocksCannotBuy,
     ∅)
  else
    ((stocksInBook ∖ stocksToHold ∖ suspendingStocks ∖ stocksCannotSell)
       ∪ stocksForceSell,
     stocksToHold ∖ stocksInBook ∖ suspendingStocks ∖ stocksToDelist
       ∖ stocksCannotBuy,
     (stocksToHold ∩ stocksInBook) ∖ suspendingStocks ∖ stocksToDelist
       ∖ stocksCannotSell ∖ stocksCannotBuy).

(** The parameters of [adjustPosition] after [asOfDate], [weights] and
    [refPrices], with their defaults. *)
Record options : Type := mkOptions {
  positionRate : Q;
  useWeightCapital : bool;
  sellRefColumn : option string;
  buyRefColumn : option string;
  updateRefColumn : option string;
  normalizeWeights : bool;
  enableSab : bool
}.

Definition defaults : options :=
  {| positionRate := 98 # 100; useWeightCapital := false;
     sellRefColumn := None; buyRefColumn := None; updateRefColumn := None;
     normalizeWeights := true; enableSab := false |}.

(** What [adjustPosition] has computed when it reaches the order
    loops. *)
Record plan : Type := mkPlan {
  planWeights : gmap string float64;
  totalAsset : Q;
  stocksToSell : gset string;
  stocksToBuy : gset string;
  stocksToUpdate : gset string
}.

(** [adjustPosition], up to and including the classification of the
    instruments. *)
Definition classify (self : t) (asOfDate : string)
    (weights : gmap string float64) (refPrices : Frame) (o : options)
    : outcome plan :=
  let weights := cleanWeights weights in
  let weights' := normalize (normalizeWeights o) weights in
  do prevTradingDate <- prevTradingDate self asOfDate 1;
  do nextTradingDate <- nextTradingDate self asOfDate (freq self);
  let prevCloseInfo :=
    getStockDailyData self prevTradingDate prevTradingDate in
  let suspendingStocks := getSuspendingStocks self asOfDate in
  let totalAsset :=
    (positionRate o
     * PortfolioPosition.getTotalAsset (Some prevCloseInfo) (Some suspendingStocks)
         (position self))%Q in
  let stocksInBook := PortfolioPosition.getStocksInBook (position self) in
  let stocksToHold := dom weights' in
  let stocksToDelist : gset string :=
    list_to_set
      (fst <$> filter (fun r => String.leb r.2 nextTradingDate = true)
                 (delistedStocks self)) in
  let stocksCannotBuy := getUpLimitStocks refPrices in
  let stocksCannotSell := getDownLimitStocks refPrices in
  let '(toSell, toBuy, toUpdate) :=
    buckets (enableSab o) stocksInBook stocksToHold suspendingStocks
      stocksToDelist stocksCannotBuy stocksCannotSell in
  ret {| planWeights := weights'; totalAsset := totalAsset;
         stocksToSell := toSell; stocksToBuy := toBuy;
         stocksToUpdate := toUpdate |}.

(** A [for] loop whose body appends orders and may raise. *)
Fixpoint forEach (body : string -> outcome (list Order.t))
    (stocks : list string) : outcome (list Order.t) :=
  match stocks with
  | [] => ret []
  | stock :: rest =>
      do os <- body stock; do os' <- forEach body rest; ret (os ++ os')
  end.

Definition monetaryVolume (o : options) (p : plan) (stock : string)
    : outcome float64 :=
  do w <- ix (planWeights p) stock;
  ret (if useWeightCapital o then w else fmul (totalAsset p) w).

(** [adjustPosition( asOfDate, weights, refPrices, ... )]. *)
Definition adjustPosition (self : t) (asOfDate : string)
    (weights : gmap string float64) (refPrices : Frame) (o : options)
    : outcome (list Order.t) :=
  do p <- classify self asOfDate weights refPrices o;
  do sellRefPrices <- refColumn refPrices (sellRefColumn o);
  do buyRefPrices <- refColumn refPrices (buyRefColumn o);
  do updateRefPrices <- refColumn refPrices (updateRefColumn o);
  do sells <-
    forEach (fun stock =>
        do held <- PortfolioPosition.getPosition (position self) stock;
        do ref <- ix sellRefPrices stock;
        ret [Order.new stock Order.SELL held ref])
      (elements (stocksToSell p));
  do buys <-
    forEach (fun stock =>
        do mv <- monetaryVolume o p stock;
        do vwap <- ix buyRefPrices stock;
        do vol <- roundVolume64 (fdiv mv vwap);
        ret [Order.new stock Order.BUY vol vwap])
      (elements (stocksToBuy p));
  do updates <-
    forEach (fun stock =>
        do mv <- monetaryVolume o p stock;
        do vwap <- ix updateRefPrices stock;
        do targetVolume <- roundVolume64 (fdiv mv vwap);
        do held <- PortfolioPosition.getPosition (position self) stock;
        let diffVolume := targetVolume - held in
        if decide (diffVolume ≠ 0) then
          if decide (0 < diffVolume) then
            ret [Order.new stock Order.BUY diffVolume vwap]
          else ret [Order.new stock Order.SELL (- diffVolume) vwap]
        else ret [])
      (elements (stocksToUpdate p));
  ret (sorted Z.le Order.side (sells ++ buys ++ updates)).

End StockStrategy.

(** ** A concrete rebalancing scenario *)

Module Scenario.

(** End-of-day rows: A closed at 10, B at 20, neither at a limit. *)
Definition refPrices : Frame :=
  {| columns := ∅;
     rows := {[ "A"%string := mkDailyRow 10 (21 # 2) (19 # 2) 10 1 ∅;
                "B"%string := mkDailyRow 20 21 19 20 (-1) ∅ ]} |}.

(** A strategy holding 1000 shares of A and no cash. *)
Definition strategy : StockStrategy.t :=
  {| StockStrategy.position :=
       {| PortfolioPosition.book := {[ "A"%string := mkPosition 10 1000 ]};
          PortfolioPosition.cash := 0 |};
     StockStrategy.freq := 1;
     StockStrategy.tradingDates :=
       ["20170103"; "20170104"; "20170105"; "20170106"]%string;
     StockStrategy.suspendingDates := [];
     StockStrategy.delistedStocks := [];
     StockStrategy.getStockDailyData :=
       fun _ _ => {[ "A"%string := 10%Q; "B"%string := 20%Q ]} |}.

(** All the weight on B. *)
Definition weights : gmap string float64 := {[ "B"%string := Finite 1 ]}.

(** The same strategy with A suspended on the rebalancing date. *)
Definition suspended : StockStrategy.t :=
  {| StockStrategy.position := StockStrategy.position strategy;
     StockStrategy.freq := 1;
     StockStrategy.tradingDates := StockStrategy.tradingDates strategy;
     StockStrategy.suspendingDates := [("A", "20170104")]%string;
     StockStrategy.delistedStocks := [];
     StockStrategy.getStockDailyData :=
       StockStrategy.getStockDailyData strategy |}.

End Scenario.

(** ** The conditions of the rebalancing partition, stated on the inputs *)

Module Partition.

(** The instrument has a row in the book. *)
Definition held (self : StockStrategy.t) (s : string) : Prop :=
  is_Some (PortfolioPosition.book (StockStrategy.position self) !! s).

(** The instrument carries a finite, non-negative target weight. *)
Definition targeted (weights : gmap string float64) (s : string) : Prop :=
  exists q, weights !! s = Some (Finite q) /\ (0 <= q)%Q.

(** The instrument is suspended on the rebalancing date. *)
Definition suspended (self : StockStrategy.t) (asOfDate s : string)
    : Prop :=
  (s, asOfDate) ∈ StockStrategy.suspendingDates self.

(** The instrument leaves the market on or before the next trading
    date. *)
Definition delisting (self : StockStrategy.t) (nextDate s : string)
    : Prop :=
  exists d, (s, d) ∈ StockStrategy.delistedStocks self
            /\ String.leb d nextDate = true.

(** Open, high, low and close coincide. *)
Definition flat (r : DailyRow) : Prop :=
  (S_DQ_HIGH r == S_DQ_OPEN r)%Q /\ (S_DQ_OPEN r == S_DQ_CLOSE r)%Q
  /\ (S_DQ_CLOSE r == S_DQ_LOW r)%Q.

Definition atUpLimit (refPrices : Frame) (s : string) : Prop :=
  exists r, rows refPrices !! s = Some r /\ flat r
            /\ (0 < S_DQ_PCTCHANGE r)%Q.

Definition atDownLimit (refPrices : Frame) (s : string) : Prop :=
  exists r, rows refPrices !! s = Some r /\ flat r
            /\ (S_DQ_PCTCHANGE r < 0)%Q.

End Partition.

(** ** The order of a replay, stated on the calls *)

Module ReplayOrder.
Section ReplayOrder.
Import BacktestDataPublisher.
Context {Date Time Payload : Type}.
Context (dle : relation Date) (tle : relation Time).

Abbreviation Row := (@Row Date Time Payload).
Abbreviation Call := (@Call Date Time Payload).

(** [r1] is strictly earlier than [r2] in ( date, timestamp ) order. *)
Definition row_before (r1 r2 : Row) : Prop :=
  strict dle (tradeDate r1) (tradeDate r2)
  \/ (tradeDate r1 = tradeDate r2
      /\ strict tle (timestamp r1) (timestamp r2)).

(** [c1] has to come before [c2]: dates of [openMarket] calls ascend
    strictly, the [openMarket] of a date comes before any row of that or
    a later date, and the rows of an earlier batch are strictly earlier
    than those of a later one. *)
Definition precedes (c1 c2 : Call) : Prop :=
  match c1, c2 with
  | CallOpenMarket d1, CallOpenMarket d2 => strict dle d1 d2
  | CallOpenMarket d1, CallNotifyAll b2 =>
      forall r, r ∈ b2 -> dle d1 (tradeDate r)
  | CallNotifyAll b1, CallOpenMarket d2 =>
      forall r, r ∈ b1 -> strict dle (tradeDate r) d2
  | CallNotifyAll b1, CallNotifyAll b2 =>
      forall r1 r2, r1 ∈ b1 -> r2 ∈ b2 -> row_before r1 r2
  end.

(** What a subscriber receives for a publisher call. *)
Definition messageOf (c : Call) : @Message Date Time Payload :=
  match c with
  | CallOpenMarket d => OpenMarket d
  | CallNotifyAll b => OnData b
  end.

(** The rows of [data] with the date and the timestamp of [r]. *)
Definition rowsAt `{!EqDecision Date, !EqDecision Time} (r : Row)
    (data : list Row) : list Row :=
  filter (fun x => timestamp x = timestamp r /\ tradeDate x = tradeDate r)
    data.

(** The calls [connect] makes for one date. *)
Definition day `{!EqDecision Date, !EqDecision Time, !RelDecision tle}
    (data : list Row) (asOfDate : Date) : list Call :=
  CallOpenMarket asOfDate ::
    ((fun ts => CallNotifyAll
                  (get_group timestamp ts
                     (get_group tradeDate asOfDate data)))
       <$> group_keys tle timestamp (get_group tradeDate asOfDate data)).

End ReplayOrder.
End ReplayOrder.

(** Three rows of 3 January (two sharing the timestamp 0930) between two
    rows of 4 January, out of order. *)
Definition sampleRows : list (@BacktestDataPublisher.Row Z Z string) :=
  [ BacktestDataPublisher.mkRow 20170104 201701040931 "A";
    BacktestDataPublisher.mkRow 20170103 201701030931 "A";
    BacktestDataPublisher.mkRow 20170103 201701030930 "A";
    BacktestDataPublisher.mkRow 20170103 201701030930 "B";
    BacktestDataPublisher.mkRow 20170104 201701040930 "B" ]%string.

(** ** The fill model and the order sides, stated on a status and an order *)

(** The fill reported for [order] follows the price and commission model
    with the given tick size, lot size, market impact and commission
    rate. *)
Definition fill_model (status : SimpleOrderStatus.t) (order : Order.t)
    (tickSize lotSize : Q) (marketImpactTicks : Z) (commissionRate : Q)
    : Prop :=
  exists direction effectivePrice commission,
    SimpleOrderStatus.orderStatus status = Some SimpleOrderStatus.EXECUTED
    /\ SimpleOrderStatus.orderDirection status = Some direction
    /\ SimpleOrderStatus.executedPrice status = Some effectivePrice
    /\ SimpleOrderStatus.commision status = Some commission
    /\ SimpleOrderStatus.orderSize status = Some (Order.volume order)
    /\ (Order.side order = Order.BUY -> direction = 1)
    /\ (Order.side order = Order.SELL -> direction = -1)
    /\ (effectivePrice ==
          Order.price order
          + inject_Z direction * tickSize * inject_Z marketImpactTicks)%Q
    /\ (commission ==
          effectivePrice * inject_Z (Order.volume order) * lotSize
          * commissionRate)%Q.

(** The order is a sale or a purchase. *)
Definition is_sell_or_buy (o : Order.t) : Prop :=
  Order.side o = Order.SELL \/ Order.side o = Order.BUY.


(** ** Well-formed books *)

(** Every instrument in the book is held with a positive volume. *)
Definition positive_volumes (self : PortfolioPosition.t) : Prop :=
  forall (secId : string) (pos : Position),
    PortfolioPosition.book self !! secId = Some pos -> 0 < Volume pos.

(** The instrument is not in the set left out of a valuation. *)
Definition not_excluded (excludeSuspended : option (gset string))
    (secId : string) : Prop :=
  match excludeSuspended with
  | Some suspended => secId ∉ suspended
  | None => True
  end.

Global Instance not_excluded_dec (excludeSuspended : option (gset string))
    (secId : string) : Decision (not_excluded excludeSuspended secId).
Proof. destruct excludeSuspended; cbn; apply _. Defined.


(** ** execution/order.py: class methods of [Order] *)

Module OrderMethods.

(** Exception( 'Mal-formed side information.' ) *)
Inductive error : Type := MalformedSideInformation.

(* order action *)
Definition OPEN : Z := 0.
Definition CLOSE : Z := 1.
Definition CLOSE_TODAY : Z := 2.
Definition NO_ACTION : Z := -1.

(** [Order.negateSide( side )]. *)
Definition negateSide (side : Z) : error + Z :=
  if decide (side = Order.BUY) then inr Order.SELL
  else if decide (side = Order.SELL) then inr Order.BUY
  else if decide (side = Order.UNKNOWN) then inr Order.UNKNOWN
  else inl MalformedSideInformation.

(** [Order.isActionTaken( action )]. *)
Definition isActionTaken (action : Z) : bool :=
  negb (Z.eqb action NO_ACTION).

End OrderMethods.

(** ** The field-union loop of [connect] and [onRtnRspLogin] *)

(** One turn of the loop over the subscribers: [fields] is a set, or
    [None] once a subscriber has asked for all fields. *)
Definition updateFields (fields : option (gset string)) (s : Subscriber)
    : option (gset string) :=
  match getSubscribedDataFields s, fields with
  | Some f, Some fields => Some (fields ∪ list_to_set f)
  | _, _ => None
  end.

(** The value of [fields] after the loop, starting from [set()]. *)
Definition subscribedFields (subscribers : list Subscriber)
    : option (gset string) :=
  foldl updateFields (Some ∅) subscribers.

(** ** datafeed/backtestEngine.py: removing and notifying a subscriber *)

Module BacktestSubscribers.

(** [removeSubscriber( subscriberId )]: the removed subscriber. *)
Definition removeSubscriber (subscriberId : Z)
    (self : BacktestDataPublisher.t)
    : outcome Subscriber * BacktestDataPublisher.t :=
  match BacktestDataPublisher.subscribers self !! subscriberId with
  | None => (Raise RequestedSubscriberDoesNotExist, self)
  | Some subscriber =>
      (ret subscriber,
       {| BacktestDataPublisher.subscribers :=
            delete subscriberId (BacktestDataPublisher.subscribers self);
          BacktestDataPublisher.nextId :=
            BacktestDataPublisher.nextId self |})
  end.

(** [notify( subscriberId, data )]: the subscriber whose [onData] is
    invoked with [data]. *)
Definition notify {Data : Type} (subscriberId : Z) (data : Data)
    (self : BacktestDataPublisher.t) : outcome (Subscriber * Data) :=
  match BacktestDataPublisher.subscribers self !! subscriberId with
  | Some s => ret (s, data)
  | None => Raise (SubscriberDoesNotExist subscriberId)
  end.

End BacktestSubscribers.

(** ** strats/portfolio.py: strategies and topic routing *)

Module Portfolio.

(** The fields the routing methods use; a strategy is seen through its
    subscriber interface. *)
Record t : Type := mk {
  strategies : list Subscriber;
  topicsToSubscribers : gmap string (gset Subscriber)
}.

Definition init : t := {| strategies := []; topicsToSubscribers := ∅ |}.

(** [addStrategy( strategy )]; the loop over the topics is the one of
    [StockDataPublisher.addSubscriber]. *)
Definition addStrategy (strategy : Subscriber) (self : t) : t :=
  {| strategies := strategies self ++ [strategy];
     topicsToSubscribers :=
       StockDataPublisher.addTopics strategy (getSubscribedTopics strategy)
         (topicsToSubscribers self) |}.

(** [getSubscribersOnTopics( topics )]. *)
Definition getSubscribersOnTopics (topics : list string) (self : t)
    : gset Subscriber :=
  foldl (fun subscribers topic =>
           subscribers ∪ default ∅ (topicsToSubscribers self !! topic))
        ∅ topics.

(** [getSubscribedTopics()]: the keys of the topic index. *)
Definition getSubscribedTopics (self : t) : list string :=
  elements (dom (topicsToSubscribers self)).



End Portfolio.

(** ** Consistency of the publisher's two maps *)

(** The topic index and the id map of a publisher agree: the topics of a
    registered subscriber are keys of the index, a subscriber found in the
    set of a topic subscribes to that topic and is registered under some
    id, and the ids in use are below [nextId]. *)
Definition publisher_consistent (p : StockDataPublisher.t) : Prop :=
  (forall id s topic,
     StockDataPublisher.subscribers p !! id = Some s ->
     topic ∈ getSubscribedTopics s ->
     is_Some (StockDataPublisher.topicsToSubscribers p !! topic))
  /\ (forall topic subs s,
        StockDataPublisher.topicsToSubscribers p !! topic = Some subs ->
        s ∈ subs ->
        topic ∈ getSubscribedTopics s
        /\ exists id, StockDataPublisher.subscribers p !! id = Some s)
  /\ (forall id, is_Some (StockDataPublisher.subscribers p !! id) ->
        id < StockDataPublisher.nextId p).

(** The portfolio obtained by adding the strategies of a list, first to
    last, to the empty portfolio. *)
Definition portfolioOf (strategies : list Subscriber) : Portfolio.t :=
  foldl (fun p s => Portfolio.addStrategy s p) Portfolio.init strategies.

(** A calendar whose dates are listed in strictly increasing order, as
    [getBusinessDates] returns them. *)
Definition increasing (tradingDates : list string) : Prop :=
  StronglySorted (fun a b => String.ltb a b = true) tradingDates.

(** ** strats/stockStrategy.py: corporate actions and fills *)

(** A row of [getDividendInformation]. *)
Record DividendRecord : Type := mkDividendRecord {
  EX_DT : string;
  dividendCode : string; (* S_INFO_WINDCODE *)
  STK_DVD_PER_SH : Q;
  CASH_DVD_PER_SH_PRE_TAX : Q
}.

(** A row of [getRightIssueInformation]. *)
Record RightIssueRecord : Type := mkRightIssueRecord {
  S_RIGHTSISSUE_EXDIVIDENDDATE : string;
  rightIssueCode : string; (* S_INFO_WINDCODE *)
  S_RIGHTSISSUE_RATIO : Q;
  S_RIGHTSISSUE_PRICE : Q
}.

(** The warnings of the strategy, and those of its book. *)
Inductive Warning : Type :=
  | NoDividendsOn (asOfDate : string)
  | NoRightIssuesOn (asOfDate : string)
  | MultipleDividendRecords (secId : string)
  | MultipleRightIssueRecords (secId : string)
  | UnknownDirection (secId : string)
  | Book (r : LogRecord).

(** A strategy method returns with the warnings it logged, or raises. *)
Inductive result (A : Type) : Type :=
  | Returned (a : A) (log : list Warning)
  | Raised (e : exn).
Arguments Returned {A} a log.
Arguments Raised {A} e.

Definition lift {A} (m : outcome A) : result A :=
  match m with
  | Ok a log => Returned a (Book <$> log)
  | Raise e => Raised e
  end.

Module StockStrategyHooks.

(** [frame.groupby( column ).get_group( key )]: the rows of the group,
    [None] for the [KeyError] of a key without rows. *)
Definition get_group {R} (column : R -> string) (frame : list R)
    (key : string) : option (list R) :=
  match filter (fun r => column r = key) frame with
  | [] => None
  | group => Some group
  end.

(** [getDividend( dividendInfo, secId )]: ( dividend10, right10 ). *)
Definition getDividend (dividendInfo : option (list DividendRecord))
    (secId : string) : (Q * Q) * list Warning :=
  match dividendInfo with
  | None => ((0, 0)%Q, [])
  | Some dividendInfo =>
      match filter (fun r => dividendCode r = secId) dividendInfo with
      | [] => ((0, 0)%Q, [])
      | [record] =>
          ((CASH_DVD_PER_SH_PRE_TAX record * 10, STK_DVD_PER_SH record * 10)%Q,
           [])
      | _ => ((0, 0)%Q, [MultipleDividendRecords secId])
      end
  end.

(** [getRightIssue( rightIssueInfo, secId )]:
    ( rightIssueRate10, rightIssuePrice ). *)
Definition getRightIssue (rightIssueInfo : option (list RightIssueRecord))
    (secId : string) : (Q * Q) * list Warning :=
  match rightIssueInfo with
  | None => ((0, 0)%Q, [])
  | Some rightIssueInfo =>
      match filter (fun r => rightIssueCode r = secId) rightIssueInfo with
      | [] => ((0, 0)%Q, [])
      | [record] =>
          ((S_RIGHTSISSUE_RATIO record * 10, S_RIGHTSISSUE_PRICE record)%Q,
           [])
      | _ => ((0, 0)%Q, [MultipleRightIssueRecords secId])
      end
  end.

(** The loop of [openMarket] over the row labels of the book. *)
Fixpoint adjustAll (dividendInfo : option (list DividendRecord))
    (rightIssueInfo : option (list RightIssueRecord))
    (stocks : list string) (position : PortfolioPosition.t)
    (log : list Warning) : result PortfolioPosition.t :=
  match stocks with
  | [] => Returned position log
  | stock :: rest =>
      let '((dividend10, right10), l1) := getDividend dividendInfo stock in
      let '((rightIssue10, rightIssuePrice), l2) :=
        getRightIssue rightIssueInfo stock in
      match PortfolioPosition.adjustPrice stock dividend10 right10
              rightIssue10 rightIssuePrice position with
      | Ok position l3 =>
          adjustAll dividendInfo rightIssueInfo rest position
            (log ++ l1 ++ l2 ++ (Book <$> l3))
      | Raise e => Raised e
      end
  end.

(** [openMarket( asOfDate )] on the strategy's book.  [dividendInfo] and
    [rightIssueInfo] are the frames grouped in [__init__]; [index] is
    [stockPositions.index], the row labels of the book in the order of
    the frame. *)
Definition openMarket (dividendInfo : list DividendRecord)
    (rightIssueInfo : list RightIssueRecord) (index : list string)
    (asOfDate : string) (position : PortfolioPosition.t)
    : result PortfolioPosition.t :=
  let dividendInfo := get_group EX_DT dividendInfo asOfDate in
  let l1 := match dividendInfo with
            | Some _ => []
            | None => [NoDividendsOn asOfDate]
            end in
  let rightIssueInfo :=
    get_group S_RIGHTSISSUE_EXDIVIDENDDATE rightIssueInfo asOfDate in
  let l2 := match rightIssueInfo with
            | Some _ => []
            | None => [NoRightIssuesOn asOfDate]
            end in
  adjustAll dividendInfo rightIssueInfo index position (l1 ++ l2).

(** [onOrderFilled( orderStatus )] on the strategy's book, for a status
    with the five fields of a fill set; [None] is a status without one of
    them. *)
Definition onOrderFilled (orderStatus : SimpleOrderStatus.t)
    (position : PortfolioPosition.t)
    : option (result PortfolioPosition.t) :=
  match SimpleOrderStatus.secId orderStatus,
        SimpleOrderStatus.executedPrice orderStatus,
        SimpleOrderStatus.orderSize orderStatus,
        SimpleOrderStatus.commision orderStatus,
        SimpleOrderStatus.orderDirection orderStatus with
  | Some secId, Some price, Some volume, Some commision, Some direction =>
      Some (if decide (direction = 1) then
              lift (PortfolioPosition.addPosition secId price volume
                      commision position)
            else if decide (direction = -1) then
              lift (PortfolioPosition.deletePosition secId price volume
                      commision position)
            else Returned position [UnknownDirection secId])
  | _, _, _, _, _ => None
  end.

(** One turn of the order loop of [datafeed]: the order is placed with
    the stock engine, which reports the fill to [onOrderFilled]. *)
Definition placeAndFill (o : Order.t)
    (engine : StockBacktestExecutionEngine.t)
    (position : PortfolioPosition.t)
    : option (result (Z * PortfolioPosition.t))
      * StockBacktestExecutionEngine.t :=
  let '(placed, engine) :=
    StockBacktestExecutionEngine.placeOrder o engine in
  (match placed with
   | Ok (oid, orderStatus) l0 =>
       match onOrderFilled orderStatus position with
       | Some (Returned position log) =>
           Some (Returned (oid, position) ((Book <$> l0) ++ log))
       | Some (Raised e) => Some (Raised e)
       | None => None
       end
   | Raise e => Some (Raised e)
   end,
   engine).

End StockStrategyHooks.

(** ** The terms of a fill of the stock engine, stated on the order *)

Module Fill.

Definition direction (o : Order.t) : Z :=
  if decide (Order.side o = Order.BUY) then 1 else -1.

(** The limit price moved by the market impact, in ticks of 0.01. *)
Definition price (o : Order.t) (engine : StockBacktestExecutionEngine.t)
    : Q :=
  Order.price o
  + inject_Z (direction o) * (1 # 100)
    * inject_Z (StockBacktestExecutionEngine.marketImpact engine).

Definition commision (o : Order.t)
    (engine : StockBacktestExecutionEngine.t) : Q :=
  price o engine * inject_Z (Order.volume o)
  * StockBacktestExecutionEngine.commisionRate engine.

(** The number of records of an instrument in the group of a date. *)
Definition dividendRecords (dividendInfo : list DividendRecord)
    (asOfDate secId : string) : nat :=
  length (filter (fun r => dividendCode r = secId)
            (filter (fun r => EX_DT r = asOfDate) dividendInfo)).

Definition rightIssueRecords (rightIssueInfo : list RightIssueRecord)
    (asOfDate secId : string) : nat :=
  length (filter (fun r => rightIssueCode r = secId)
            (filter (fun r => S_RIGHTSISSUE_EXDIVIDENDDATE r = asOfDate)
               rightIssueInfo)).

End Fill.

(** A weight that [adjustPosition] drops: negative, infinite or [nan]. *)
Definition unusable (w : float64) : Prop :=
  match w with
  | Finite q => (q < 0)%Q
  | PosInf | NegInf | NaN => True
  end.

(** The default parameters with sell-all-before-buy switched on. *)
Definition sabOptions : StockStrategy.options :=
  {| StockStrategy.positionRate := 98 # 100;
     StockStrategy.useWeightCapital := false;
     StockStrategy.sellRefColumn := None;
     StockStrategy.buyRefColumn := None;
     StockStrategy.updateRefColumn := None;
     StockStrategy.normalizeWeights := true;
     StockStrategy.enableSab := true |}.

(** An infinity or [nan]. *)
Definition nonFinite (w : float64) : Prop :=
  match w with
  | Finite _ => False
  | PosInf | NegInf | NaN => True
  end.
(** * Properties *)

(** ** Numbers and outcomes *)

Lemma Qlt_bool_iff (a b : Q) : Qlt_bool a b = true <-> (a < b)%Q.
Proof.
  unfold Qlt_bool. rewrite negb_true_iff, <- not_true_iff_false, Qle_bool_iff.
  split; [apply Qnot_le_lt | apply Qlt_not_le].
Qed.

Lemma Qlt_bool_false (a b : Q) : Qlt_bool a b = false <-> (b <= a)%Q.
Proof.
  unfold Qlt_bool. rewrite negb_false_iff. apply Qle_bool_iff.
Qed.

(** On a non-negative argument [int] is the floor. *)
Lemma int_floor (x : Q) : (0 <= x)%Q -> int x = Qfloor x.
Proof.
  destruct x as [n d]. unfold Qle, int, Qfloor. simpl. intros H.
  apply Z.quot_div_nonneg; lia.
Qed.

Lemma int_inject_Z_div10 (v : Z) : 0 <= v -> int (inject_Z v / 10) = v / 10.
Proof.
  intros H. rewrite int_floor.
  - change 10%Q with (inject_Z 10). symmetry. apply Zdiv_Qdiv.
  - apply Qle_shift_div_l; [reflexivity|]. rewrite Qmult_0_l.
    change 0%Q with (inject_Z 0). now rewrite <- Zle_Qle.
Qed.

(** ** The position book *)

Lemma ix_Some (frame : gmap string Position) (secId : string) (row : Position) :
  frame !! secId = Some row -> PortfolioPosition.ix frame secId = Ok row [].
Proof. unfold PortfolioPosition.ix. now intros ->. Qed.

Lemma ix_None (frame : gmap string Position) (secId : string) :
  frame !! secId = None ->
  PortfolioPosition.ix frame secId = Raise (KeyError secId).
Proof. unfold PortfolioPosition.ix. now intros ->. Qed.

Lemma addPosition_held (self : PortfolioPosition.t) (secId : string)
    (price : Q) (volume : Z) (commision : Q) (oldAvg : Q) (oldVol : Z) :
  PortfolioPosition.book self !! secId = Some (mkPosition oldAvg oldVol) ->
  PortfolioPosition.addPosition secId price volume commision self =
    Ok {| PortfolioPosition.book :=
            <[secId := mkPosition
                ((oldAvg * inject_Z oldVol + price * inject_Z volume)
                 / inject_Z (oldVol + volume))
                (oldVol + volume)]> (PortfolioPosition.book self);
          PortfolioPosition.cash :=
            (PortfolioPosition.cash self
             - (commision + price * inject_Z volume))%Q |} [].
Proof.
  intros Hrow. unfold PortfolioPosition.addPosition,
    PortfolioPosition.getPositions.
  destruct (decide _) as [_|Hn].
  - now rewrite (ix_Some _ _ _ Hrow).
  - exfalso. apply Hn, elem_of_dom. eauto.
Qed.

Lemma addPosition_new (self : PortfolioPosition.t) (secId : string)
    (price : Q) (volume : Z) (commision : Q) :
  PortfolioPosition.book self !! secId = None ->
  PortfolioPosition.addPosition secId price volume commision self =
    Ok {| PortfolioPosition.book :=
            <[secId := mkPosition price volume]> (PortfolioPosition.book self);
          PortfolioPosition.cash :=
            (PortfolioPosition.cash self
             - (commision + price * inject_Z volume))%Q |} [].
Proof.
  intros Hrow. unfold PortfolioPosition.addPosition,
    PortfolioPosition.getPositions.
  destruct (decide _) as [Hin|_]; [|reflexivity].
  apply elem_of_dom in Hin. rewrite Hrow in Hin. now destruct Hin.
Qed.

(** C4.  [addPosition] debits the cash by [price*volume + commision]
    whatever the balance is, and never refuses a purchase for lack of cash:
    an instrument held with [(oldAvg, oldVol)] gets the entry
    [((oldAvg*oldVol + price*volume)/(oldVol+volume), oldVol+volume)] (the
    quotient being taken for a non-zero total volume), an instrument not
    held gets the entry [(price, volume)].  Starting from cash 100000 and
    an empty book, buying 100 shares of X at 50 with commission 10 gives
    the book [{X: (50, 100)}] and cash 94990. *)
Theorem addPosition_spec :
  (forall (self : PortfolioPosition.t) (secId : string) (price : Q)
          (volume : Z) (commision : Q),
     (forall oldAvg oldVol,
        PortfolioPosition.book self !! secId
          = Some (mkPosition oldAvg oldVol) ->
        oldVol + volume <> 0 ->
        exists self',
          PortfolioPosition.addPosition secId price volume commision self
            = Ok self' []
          /\ PortfolioPosition.book self' =
               <[secId := mkPosition
                   ((oldAvg * inject_Z oldVol + price * inject_Z volume)
                    / inject_Z (oldVol + volume))
                   (oldVol + volume)]> (PortfolioPosition.book self)
          /\ (PortfolioPosition.cash self' ==
                PortfolioPosition.cash self
                - (price * inject_Z volume + commision))%Q)
     /\ (PortfolioPosition.book self !! secId = None ->
         exists self',
           PortfolioPosition.addPosition secId price volume commision self
             = Ok self' []
           /\ PortfolioPosition.book self' =
                <[secId := mkPosition price volume]>
                  (PortfolioPosition.book self)
           /\ (PortfolioPosition.cash self' ==
                 PortfolioPosition.cash self
                 - (price * inject_Z volume + commision))%Q))
  /\ exists self',
       PortfolioPosition.addPosition "X" 50 100 10
         (PortfolioPosition.init 100000) = Ok self' []
       /\ PortfolioPosition.book self' = {[ "X"%string := mkPosition 50 100 ]}
       /\ (PortfolioPosition.cash self' == 94990)%Q.
Proof.
  split.
  - intros self secId price volume commision. split.
    + intros oldAvg oldVol Hrow _. eexists.
      split; [apply (addPosition_held _ _ _ _ _ _ _ Hrow)|].
      cbn. split; [reflexivity|ring].
    + intros Hrow. eexists.
      split; [apply (addPosition_new _ _ _ _ _ Hrow)|].
      cbn. split; [reflexivity|ring].
  - eexists. split.
    + apply addPosition_new. apply lookup_empty.
    + simpl. split; [apply insert_empty | reflexivity].
Qed.

(** The averaging case of C4 on a concrete book: 100 shares at 50, then
    100 more at 60. *)
Lemma addPosition_spec_witness :
  exists self',
    PortfolioPosition.addPosition "X" 60 100 10
      {| PortfolioPosition.book := {[ "X"%string := mkPosition 50 100 ]};
         PortfolioPosition.cash := 94990 |} = Ok self' []
    /\ PortfolioPosition.book self' !! "X"%string
         = Some (mkPosition ((50 * inject_Z 100 + 60 * inject_Z 100)
                             / inject_Z (100 + 100)) (100 + 100))
    /\ (PortfolioPosition.cash self' == 88980)%Q.
Proof.
  destruct (proj1 (proj1 addPosition_spec
              {| PortfolioPosition.book := {[ "X"%string := mkPosition 50 100 ]};
                 PortfolioPosition.cash := 94990 |} "X"%string 60%Q 100 10%Q)
              50%Q 100 (lookup_singleton_eq _ _) ltac:(lia))
    as (self' & Hrun & Hbook & Hcash).
  exists self'. split; [exact Hrun|]. split.
  - rewrite Hbook. apply lookup_insert_eq.
  - rewrite Hcash. reflexivity.
Defined.

(** What [deletePosition] does to an instrument held with volume [h]. *)
Lemma deletePosition_held (self : PortfolioPosition.t) (secId : string)
    (price : Q) (volume : Z) (commision : Q) (avg : Q) (h : Z) :
  PortfolioPosition.book self !! secId = Some (mkPosition avg h) ->
  PortfolioPosition.deletePosition secId price volume commision self =
    Ok {| PortfolioPosition.book :=
            if Z.ltb 0 (h - Z.min volume h) then
              <[secId := mkPosition avg (h - Z.min volume h)]>
                (PortfolioPosition.book self)
            else delete secId (PortfolioPosition.book self);
          PortfolioPosition.cash :=
            (PortfolioPosition.cash self
             + (inject_Z (Z.min volume h) * price - commision))%Q |}
       (if Z.ltb h volume then [WarnNotEnoughHoldings secId volume price h]
        else []).
Proof.
  intros Hrow. unfold PortfolioPosition.deletePosition,
    PortfolioPosition.getPositions.
  destruct (decide _) as [_|Hn].
  2: { exfalso. apply Hn, elem_of_dom. eauto. }
  rewrite (ix_Some _ _ _ Hrow). cbn [bind Volume Price].
  destruct (Z.ltb_spec h volume) as [Hlt|Hge]; cbn.
  - rewrite (Z.min_r volume h) by lia.
    destruct (Z.ltb_spec 0 (h - h)); cbn; [lia|reflexivity].
  - rewrite (Z.min_l volume h) by lia.
    destruct (Z.ltb_spec 0 (h - volume)); cbn; [|reflexivity].
    now rewrite insert_delete_eq.
Qed.

Lemma deletePosition_absent (self : PortfolioPosition.t) (secId : string)
    (price : Q) (volume : Z) (commision : Q) :
  PortfolioPosition.book self !! secId = None ->
  PortfolioPosition.deletePosition secId price volume commision self
    = Ok self [].
Proof.
  intros Hrow. unfold PortfolioPosition.deletePosition,
    PortfolioPosition.getPositions.
  destruct (decide _) as [Hin|_]; [|reflexivity].
  apply elem_of_dom in Hin. rewrite Hrow in Hin. now destruct Hin.
Qed.

(** C5.  [deletePosition] never raises.  It leaves the book unchanged when
    the instrument is not held.  When the instrument is held with volume
    [h], the amount sold is [min volume h], a warning is logged exactly
    when [volume > h], the cash grows by [price * min volume h - commision],
    the held volume drops by the amount sold and the entry disappears when
    nothing is left.  After the purchase of the scenario, selling 100 X at
    55 with commission 10 empties the book and leaves cash 100480. *)
Theorem deletePosition_spec :
  (forall (self : PortfolioPosition.t) (secId : string) (price : Q)
          (volume : Z) (commision : Q),
     exists self' log,
       PortfolioPosition.deletePosition secId price volume commision self
         = Ok self' log
       /\ (PortfolioPosition.book self !! secId = None ->
             self' = self /\ log = [])
       /\ (forall avg h,
             PortfolioPosition.book self !! secId = Some (mkPosition avg h) ->
             let sold := Z.min volume h in
             (PortfolioPosition.cash self' ==
                PortfolioPosition.cash self
                + (price * inject_Z sold - commision))%Q
             /\ (volume > h ->
                   log = [WarnNotEnoughHoldings secId volume price h])
             /\ (volume <= h -> log = [])
             /\ (0 < h - sold ->
                   PortfolioPosition.book self' =
                     <[secId := mkPosition avg (h - sold)]>
                       (PortfolioPosition.book self))
             /\ (h - sold = 0 ->
                   PortfolioPosition.book self' =
                     delete secId (PortfolioPosition.book self))))
  /\ exists self',
       PortfolioPosition.deletePosition "X" 55 100 10
         {| PortfolioPosition.book := {[ "X"%string := mkPosition 50 100 ]};
            PortfolioPosition.cash := 94990 |} = Ok self' []
       /\ PortfolioPosition.book self' = ∅
       /\ (PortfolioPosition.cash self' == 100480)%Q.
Proof.
  split.
  - intros self secId price volume commision.
    destruct (PortfolioPosition.book self !! secId) as [[avg h]|] eqn:Hrow.
    + eexists _, _. split; [apply (deletePosition_held _ _ _ _ _ _ _ Hrow)|].
      split; [discriminate|]. intros ? ? [= <- <-]. cbn.
      split; [ring|].
      split; [intros Hv; destruct (Z.ltb_spec h volume); [reflexivity|lia]|].
      split; [intros Hv; destruct (Z.ltb_spec h volume); [lia|reflexivity]|].
      split; intros Hv;
        destruct (Z.ltb_spec 0 (h - Z.min volume h)); (reflexivity || lia).
    + eexists _, _. split; [apply (deletePosition_absent _ _ _ _ _ Hrow)|].
      split; [auto|discriminate].
  - eexists. split.
    + rewrite (deletePosition_held _ _ _ _ _ 50%Q 100
                 (lookup_singleton_eq _ _)).
      reflexivity.
    + cbn. split; [apply delete_singleton_eq | reflexivity].
Qed.

(** C5 on a concrete book: asking to sell 150 of the 100 shares held. *)
Lemma deletePosition_spec_witness :
  exists self',
    PortfolioPosition.deletePosition "X" 55 150 10
      {| PortfolioPosition.book := {[ "X"%string := mkPosition 50 100 ]};
         PortfolioPosition.cash := 94990 |}
      = Ok self' [WarnNotEnoughHoldings "X" 150 55 100]
    /\ PortfolioPosition.book self' = ∅
    /\ (PortfolioPosition.cash self' == 100480)%Q.
Proof.
  destruct (proj1 deletePosition_spec
              {| PortfolioPosition.book := {[ "X"%string := mkPosition 50 100 ]};
                 PortfolioPosition.cash := 94990 |} "X"%string 55%Q 150 10%Q)
    as (self' & log & Hrun & _ & Hheld).
  destruct (Hheld 50%Q 100 (lookup_singleton_eq _ _))
    as (Hcash & Hwarn & _ & _ & Hgone).
  exists self'. rewrite Hrun, (Hwarn ltac:(lia)).
  split; [reflexivity|]. split.
  - rewrite (Hgone ltac:(reflexivity)). apply delete_singleton_eq.
  - rewrite Hcash. reflexivity.
Defined.

(** ** Corporate actions *)

(** [stockUtil.adjustPrice] by cases on the affordability test. *)
Lemma adjustPrice_cases (position : Z) (cash dividend10 right10 rightIssue10
    rightIssuePrice : Q) :
  let unit := int (inject_Z position / 10) in
  let bonus := int (inject_Z unit * right10) in
  let allotment := int (rightIssue10 * inject_Z unit) in
  let cost := (inject_Z allotment * rightIssuePrice)%Q in
  ((cost < cash)%Q ->
     stockUtil.adjustPrice position cash dividend10 right10 rightIssue10
       rightIssuePrice
     = (position + bonus + allotment,
        (cash + dividend10 * inject_Z unit - cost)%Q))
  /\ ((cash <= cost)%Q ->
        stockUtil.adjustPrice position cash dividend10 right10 rightIssue10
          rightIssuePrice
        = (position + bonus, (cash + dividend10 * inject_Z unit)%Q)).
Proof.
  cbv zeta. unfold stockUtil.adjustPrice. split; intros H.
  - apply Qlt_bool_iff in H. now rewrite H.
  - apply Qlt_bool_false in H. now rewrite H.
Qed.





(** ** Execution engines *)

Lemma run_executedOrders (cs : list BacktestExecutionEngine.call)
    (self : BacktestExecutionEngine.t) :
  dom (BacktestExecutionEngine.executedOrders
         (BacktestExecutionEngine.run cs self).1)
  = dom (BacktestExecutionEngine.executedOrders self)
    ∪ list_to_set (BacktestExecutionEngine.run cs self).2.
Proof.
  revert self. induction cs as [|c cs IH]; intros self; cbn.
  - set_solver.
  - destruct c as [order|?|? ?|?]; cbn;
      match goal with
      | |- context [BacktestExecutionEngine.run cs ?e] =>
          specialize (IH e);
          destruct (BacktestExecutionEngine.run cs e) as [self' ids]
      end; cbn in *; rewrite IH; [|set_solver..].
    rewrite dom_insert_L. set_solver.
Qed.

(** The claim as the specification states it fails for [cancelOrder]: on a
    fresh engine, where order 7 was never placed, [queryOrder 7] raises but
    [cancelOrder 7] returns a status. *)
Lemma cancelOrder_unknown_id_returns :
  (BacktestExecutionEngine.run []
     (BacktestExecutionEngine.init (3 # 10000) 2 baseRefData)).2 = []
  /\ raises (BacktestExecutionEngine.queryOrder 7
               (BacktestExecutionEngine.init (3 # 10000) 2 baseRefData))
  /\ ~ raises (BacktestExecutionEngine.cancelOrder 7
                 (BacktestExecutionEngine.init (3 # 10000) 2 baseRefData))
  /\ BacktestExecutionEngine.cancelOrder 7
       (BacktestExecutionEngine.init (3 # 10000) 2 baseRefData)
     = Ok (SimpleOrderStatus.only SimpleOrderStatus.EXECUTED) [].
Proof.
  split; [reflexivity|]. split; [exact I|].
  split; [intros []|reflexivity].
Qed.

(** C2 (amended).  After any sequence of calls on a fresh engine, for an
    order id that no [placeOrder] of the sequence has taken, [queryOrder]
    raises the unknown-order exception, while [cancelOrder] does not look
    at the id and returns an [EXECUTED] status and [updateOrder] returns
    -1. *)
Theorem unknown_order_id (commisionRate : Q) (marketImpact : Z)
    (refData : RefData) (cs : list BacktestExecutionEngine.call)
    (orderId : Z) (order : Order.t) :
  orderId ∉ (BacktestExecutionEngine.run cs
               (BacktestExecutionEngine.init commisionRate marketImpact
                  refData)).2 ->
  BacktestExecutionEngine.queryOrder orderId
    (BacktestExecutionEngine.run cs
       (BacktestExecutionEngine.init commisionRate marketImpact refData)).1
    = Raise (OrderDoesNotExist orderId)
  /\ BacktestExecutionEngine.cancelOrder orderId
       (BacktestExecutionEngine.run cs
          (BacktestExecutionEngine.init commisionRate marketImpact refData)).1
     = Ok (SimpleOrderStatus.only SimpleOrderStatus.EXECUTED) []
  /\ BacktestExecutionEngine.updateOrder orderId order
       (BacktestExecutionEngine.run cs
          (BacktestExecutionEngine.init commisionRate marketImpact refData)).1
     = Ok (-1) [].
Proof.
  intros Hid. split; [|split; reflexivity].
  unfold BacktestExecutionEngine.queryOrder.
  destruct (BacktestExecutionEngine.executedOrders _ !! orderId) eqn:Hl;
    [|reflexivity].
  exfalso. apply Hid.
  assert (Hin : orderId ∈ dom (BacktestExecutionEngine.executedOrders
                  (BacktestExecutionEngine.run cs
                     (BacktestExecutionEngine.init commisionRate marketImpact
                        refData)).1))
    by (apply elem_of_dom; eauto).
  rewrite run_executedOrders in Hin. cbn in Hin. set_solver.
Qed.

(** C2 on a concrete run: two orders placed, order 3 asked for. *)
Lemma unknown_order_id_witness :
  BacktestExecutionEngine.queryOrder 3
    (BacktestExecutionEngine.run
       [BacktestExecutionEngine.PlaceOrder (Order.new "X" Order.BUY 100 10);
        BacktestExecutionEngine.CancelOrder 1;
        BacktestExecutionEngine.PlaceOrder (Order.new "X" Order.BUY 100 10)]
       (BacktestExecutionEngine.init (3 # 10000) 2 baseRefData)).1
  = Raise (OrderDoesNotExist 3).
Proof.
  apply (unknown_order_id (3 # 10000) 2 baseRefData
           [BacktestExecutionEngine.PlaceOrder (Order.new "X" Order.BUY 100 10);
            BacktestExecutionEngine.CancelOrder 1;
            BacktestExecutionEngine.PlaceOrder (Order.new "X" Order.BUY 100 10)]
           3 (Order.new "X" Order.BUY 100 10)).
  cbn. intros Hin. repeat (apply elem_of_cons in Hin as [Hin|Hin]; [lia|]).
  now apply elem_of_nil in Hin.
Defined.

Lemma queryOrder_placed (self : BacktestExecutionEngine.t) (orderId : Z)
    (order : Order.t) (tickSize lotSize : Q) (l1 l2 : list LogRecord) :
  BacktestExecutionEngine.executedOrders self !! orderId = Some order ->
  getTickSize (BacktestExecutionEngine.refData self) (Order.secId order)
    = Ok tickSize l1 ->
  getLotSize (BacktestExecutionEngine.refData self) (Order.secId order)
    = Ok lotSize l2 ->
  exists status log,
    BacktestExecutionEngine.queryOrder orderId self = Ok status log
    /\ fill_model status order tickSize lotSize
         (BacktestExecutionEngine.marketImpact self)
         (BacktestExecutionEngine.commisionRate self).
Proof.
  intros Ho Ht Hl. unfold BacktestExecutionEngine.queryOrder.
  rewrite Ho, Ht. cbn. rewrite Hl. cbn. eexists _, _. split; [reflexivity|].
  eexists _, _, _. cbn. repeat (split; [reflexivity|]).
  split; [|split; [|split; reflexivity]].
  - intros Hs. now destruct (decide _).
  - intros Hs. destruct (decide _) as [Hb|]; [|reflexivity].
    rewrite Hs in Hb. discriminate.
Qed.

Lemma stock_queryOrder_placed (self : StockBacktestExecutionEngine.t)
    (orderId : Z) (order : Order.t) :
  StockBacktestExecutionEngine.executedOrders self !! orderId = Some order ->
  exists status,
    StockBacktestExecutionEngine.queryOrder orderId self = Ok status []
    /\ fill_model status order (1 # 100) 1
         (StockBacktestExecutionEngine.marketImpact self)
         (StockBacktestExecutionEngine.commisionRate self).
Proof.
  intros Ho. unfold StockBacktestExecutionEngine.queryOrder.
  rewrite Ho. cbn. eexists. split; [reflexivity|].
  eexists _, _, _. cbn. repeat (split; [reflexivity|]).
  split; [|split; [|split; [reflexivity|ring]]].
  - intros Hs. now destruct (decide _).
  - intros Hs. destruct (decide _) as [Hb|]; [|reflexivity].
    rewrite Hs in Hb. discriminate.
Qed.

(** C6.  The status a placed order is filled with has
    [effectivePrice = limitPrice + direction * tickSize * marketImpact],
    direction +1 for BUY and -1 for SELL, and
    [commission = effectivePrice * volume * lotSize * commissionRate]:
    in the general engine for the tick and lot size the reference data
    gives for the instrument, in the stock engine always, with tick size
    0.01 and lot size 1; a later [queryOrder] of the id reports a status of
    the same model.  With market impact 2 and price 10.00 the stock engine
    fills a BUY at 10.02 and a SELL at 9.98. *)
Theorem fill_price_and_commission :
  (forall (self : BacktestExecutionEngine.t) (order : Order.t)
          (tickSize lotSize : Q) (l1 l2 : list LogRecord),
     getTickSize (BacktestExecutionEngine.refData self) (Order.secId order)
       = Ok tickSize l1 ->
     getLotSize (BacktestExecutionEngine.refData self) (Order.secId order)
       = Ok lotSize l2 ->
     exists status log status' log',
       (BacktestExecutionEngine.placeOrder order self).1
         = Ok (BacktestExecutionEngine.nextId self, status) log
       /\ fill_model status order tickSize lotSize
            (BacktestExecutionEngine.marketImpact self)
            (BacktestExecutionEngine.commisionRate self)
       /\ BacktestExecutionEngine.queryOrder
            (BacktestExecutionEngine.nextId self)
            (BacktestExecutionEngine.placeOrder order self).2
          = Ok status' log'
       /\ fill_model status' order tickSize lotSize
            (BacktestExecutionEngine.marketImpact self)
            (BacktestExecutionEngine.commisionRate self))
  /\ (forall (self : StockBacktestExecutionEngine.t) (order : Order.t),
        exists status status',
          (StockBacktestExecutionEngine.placeOrder order self).1
            = Ok (StockBacktestExecutionEngine.nextId self, status) []
          /\ fill_model status order (1 # 100) 1
               (StockBacktestExecutionEngine.marketImpact self)
               (StockBacktestExecutionEngine.commisionRate self)
          /\ StockBacktestExecutionEngine.queryOrder
               (StockBacktestExecutionEngine.nextId self)
               (StockBacktestExecutionEngine.placeOrder order self).2
             = Ok status' []
          /\ fill_model status' order (1 # 100) 1
               (StockBacktestExecutionEngine.marketImpact self)
               (StockBacktestExecutionEngine.commisionRate self))
  /\ (forall (commisionRate : Q) (secId : string) (volume : Z),
        exists buy sell pb ps,
          (StockBacktestExecutionEngine.placeOrder
             (Order.new secId Order.BUY volume 10)
             (StockBacktestExecutionEngine.init commisionRate 2)).1
            = Ok (1, buy) []
          /\ SimpleOrderStatus.executedPrice buy = Some pb
          /\ (pb == 1002 # 100)%Q
          /\ (StockBacktestExecutionEngine.placeOrder
                (Order.new secId Order.SELL volume 10)
                (StockBacktestExecutionEngine.init commisionRate 2)).1
             = Ok (1, sell) []
          /\ SimpleOrderStatus.executedPrice sell = Some ps
          /\ (ps == 998 # 100)%Q).
Proof.
  split; [|split].
  - intros self order tickSize lotSize l1 l2 Ht Hl.
    pose proof (queryOrder_placed
                  (BacktestExecutionEngine.placeOrder order self).2
                  (BacktestExecutionEngine.nextId self) order tickSize lotSize
                  l1 l2 (lookup_insert_eq _ _ _) Ht Hl)
      as (status & log & Hq & Hm).
    exists status, (log ++ []), status, log.
    unfold BacktestExecutionEngine.placeOrder in *. cbn [fst snd] in *.
    rewrite Hq. cbn. auto.
  - intros self order.
    pose proof (stock_queryOrder_placed
                  (StockBacktestExecutionEngine.placeOrder order self).2
                  (StockBacktestExecutionEngine.nextId self) order
                  (lookup_insert_eq _ _ _)) as (status & Hq & Hm).
    exists status, status.
    unfold StockBacktestExecutionEngine.placeOrder in *. cbn [fst snd] in *.
    rewrite Hq. cbn. auto.
  - intros commisionRate secId volume.
    unfold StockBacktestExecutionEngine.placeOrder,
      StockBacktestExecutionEngine.queryOrder. cbn.
    rewrite !lookup_insert_eq. cbn.
    eexists _, _, _, _. cbn.
    split; [reflexivity|]. split; [reflexivity|]. split; [reflexivity|].
    split; [reflexivity|]. split; reflexivity.
Qed.

(** C6 on a concrete order through the general engine with the base
    reference data. *)
Lemma fill_price_and_commission_witness :
  exists status log,
    (BacktestExecutionEngine.placeOrder (Order.new "X" Order.SELL 100 10)
       (BacktestExecutionEngine.init (3 # 10000) 2 baseRefData)).1
    = Ok (1, status) log
    /\ fill_model status (Order.new "X" Order.SELL 100 10) (1 # 100) 1 2
         (3 # 10000).
Proof.
  destruct (proj1 fill_price_and_commission
              (BacktestExecutionEngine.init (3 # 10000) 2 baseRefData)
              (Order.new "X" Order.SELL 100 10) (1 # 100)%Q 1%Q [] []
              eq_refl eq_refl)
    as (status & log & _ & _ & Hp & Hm & _).
  exists status, log. split; [exact Hp|exact Hm].
Defined.

(** ** Subscriber registration *)

(** One registration call: [nextId] does not decrease, the id returned (if
    any) is the old [nextId], and a key of the new map is an old key or
    that id. *)
Lemma publisher_step (c : StockDataPublisher.call)
    (self : StockDataPublisher.t) :
  StockDataPublisher.nextId self
    <= StockDataPublisher.nextId (StockDataPublisher.step c self).1
  /\ Forall (fun i => StockDataPublisher.nextId self <= i
                      < StockDataPublisher.nextId
                          (StockDataPublisher.step c self).1)
       (StockDataPublisher.step c self).2
  /\ (length (StockDataPublisher.step c self).2 <= 1)%nat
  /\ forall k,
       k ∈ dom (StockDataPublisher.subscribers
                  (StockDataPublisher.step c self).1) ->
       k ∈ dom (StockDataPublisher.subscribers self)
       \/ StockDataPublisher.nextId self <= k
          < StockDataPublisher.nextId (StockDataPublisher.step c self).1.
Proof.
  destruct c as [[s|]|i]; cbn.
  - split; [lia|]. split; [repeat constructor; lia|]. split; [lia|].
    intros k. rewrite dom_insert_L, elem_of_union, elem_of_singleton.
    intros [->|Hk]; [right; lia|now left].
  - split; [lia|]. split; [constructor|]. split; [lia|]. now left.
  - unfold StockDataPublisher.removeSubscriber.
    destruct (StockDataPublisher.subscribers self !! i) as [s|]; cbn.
    + destruct (StockDataPublisher.removeTopics _ _ _) as [r index]. cbn.
      split; [lia|]. split; [constructor|]. split; [lia|].
      intros k. rewrite dom_delete_L, elem_of_difference. intros [Hk _].
      now left.
    + split; [lia|]. split; [constructor|]. split; [lia|]. now left.
Qed.

Lemma publisher_run (cs : list StockDataPublisher.call)
    (self : StockDataPublisher.t) :
  StockDataPublisher.nextId self
    <= StockDataPublisher.nextId (StockDataPublisher.run cs self).1
  /\ Forall (fun i => StockDataPublisher.nextId self <= i
                      < StockDataPublisher.nextId
                          (StockDataPublisher.run cs self).1)
       (StockDataPublisher.run cs self).2
  /\ StronglySorted Z.lt (StockDataPublisher.run cs self).2
  /\ forall k,
       k ∈ dom (StockDataPublisher.subscribers
                  (StockDataPublisher.run cs self).1) ->
       k ∈ dom (StockDataPublisher.subscribers self)
       \/ StockDataPublisher.nextId self <= k
          < StockDataPublisher.nextId (StockDataPublisher.run cs self).1.
Proof.
  revert self. induction cs as [|c cs IH]; intros self; cbn.
  - split; [lia|]. split; [constructor|]. split; [constructor|]. now left.
  - pose proof (publisher_step c self) as (Hn & Hids & Hlen & Hdom).
    destruct (StockDataPublisher.step c self) as [self1 ids1]. cbn in *.
    specialize (IH self1). destruct IH as (Hn' & Hids' & Hsorted & Hdom').
    destruct (StockDataPublisher.run cs self1) as [self2 ids2]. cbn in *.
    split; [lia|]. split; [|split].
    + apply Forall_app. split.
      * eapply Forall_impl; [exact Hids|]. cbn. lia.
      * eapply Forall_impl; [exact Hids'|]. cbn. lia.
    + destruct ids1 as [|i [|? ?]]; cbn in *; [exact Hsorted| |lia].
      constructor; [exact Hsorted|].
      apply Forall_cons in Hids as [Hi _].
      eapply Forall_impl; [exact Hids'|]. cbn. lia.
    + intros k Hk. destruct (Hdom' k Hk) as [Hk1|Hk1]; [|right; lia].
      destruct (Hdom k Hk1) as [Hk0|Hk0]; [now left|right; lia].
Qed.

(** Every key of the id map of a publisher reached from the initial one is
    below [nextId]. *)
Lemma publisher_keys_below_nextId (cs : list StockDataPublisher.call) (k : Z) :
  k ∈ dom (StockDataPublisher.subscribers
             (StockDataPublisher.run cs StockDataPublisher.init).1) ->
  k < StockDataPublisher.nextId
        (StockDataPublisher.run cs StockDataPublisher.init).1.
Proof.
  intros Hk.
  destruct (publisher_run cs StockDataPublisher.init) as (_ & _ & _ & Hdom).
  destruct (Hdom k Hk) as [Hk0|Hk0]; [|lia].
  cbn in Hk0. rewrite dom_empty_L in Hk0. now apply elem_of_empty in Hk0.
Qed.

(** C8.  Over any sequence of [addSubscriber] and [removeSubscriber] calls
    on a fresh publisher the ids returned for non-null subscribers are
    strictly increasing, hence never repeated; and once
    [removeSubscriber( id )] has succeeded, [notify( id, data )] raises the
    unknown-subscriber exception, also after any further registration
    calls. *)
Theorem subscriber_ids_increase_and_removed_id_unknown :
  (forall cs : list StockDataPublisher.call,
     StronglySorted Z.lt
       (StockDataPublisher.run cs StockDataPublisher.init).2
     /\ NoDup (StockDataPublisher.run cs StockDataPublisher.init).2)
  /\ (forall (Data : Type) (cs1 cs2 : list StockDataPublisher.call)
             (subscriberId : Z) (log : list LogRecord)
             (self : StockDataPublisher.t) (data : Data),
        StockDataPublisher.removeSubscriber subscriberId
          (StockDataPublisher.run cs1 StockDataPublisher.init).1
          = (Ok tt log, self) ->
        StockDataPublisher.notify subscriberId data
          (StockDataPublisher.run cs2 self).1
          = Raise (SubscriberDoesNotExist subscriberId)).
Proof.
  split.
  - intros cs.
    destruct (publisher_run cs StockDataPublisher.init) as (_ & _ & Hs & _).
    split; [exact Hs|].
    induction Hs as [|i ids _ IH Hi]; constructor; [|exact IH].
    intros Hin. rewrite Forall_forall in Hi. specialize (Hi i Hin). lia.
  - intros Data cs1 cs2 subscriberId log self data Hrm.
    pose proof (publisher_keys_below_nextId cs1 subscriberId) as Hbelow.
    unfold StockDataPublisher.removeSubscriber in Hrm.
    destruct (StockDataPublisher.subscribers _ !! subscriberId) as [s|] eqn:Hs;
      [|discriminate].
    destruct (StockDataPublisher.removeTopics _ _ _) as [r index].
    injection Hrm as -> <-.
    specialize (Hbelow ltac:(apply elem_of_dom; eauto)).
    unfold StockDataPublisher.notify.
    match goal with
    | |- context [StockDataPublisher.run cs2 ?p] =>
        destruct (publisher_run cs2 p) as (_ & _ & _ & Hdom);
        destruct (StockDataPublisher.subscribers
                    (StockDataPublisher.run cs2 p).1 !! subscriberId) eqn:Hl;
        [|reflexivity]
    end.
    exfalso.
    destruct (Hdom subscriberId ltac:(apply elem_of_dom; eauto)) as [Hk|Hk];
      cbn in Hk.
    + rewrite dom_delete_L in Hk. set_solver.
    + lia.
Qed.

(** C8 on a concrete run: two subscribers, the first removed, a third
    added; the removed id 1 stays unknown. *)
Lemma subscriber_ids_increase_and_removed_id_unknown_witness :
  StockDataPublisher.notify 1 tt
    (StockDataPublisher.run
       [StockDataPublisher.AddSubscriber
          (Some (mkSubscriber 2 ["600000"%string] None))]
       (StockDataPublisher.removeSubscriber 1
          (StockDataPublisher.run
             [StockDataPublisher.AddSubscriber
                (Some (mkSubscriber 0 ["600000"%string] None));
              StockDataPublisher.AddSubscriber
                (Some (mkSubscriber 1 ["000001"%string] None))]
             StockDataPublisher.init).1).2).1
  = Raise (SubscriberDoesNotExist 1).
Proof.
  apply (proj2 subscriber_ids_increase_and_removed_id_unknown unit
           [StockDataPublisher.AddSubscriber
              (Some (mkSubscriber 0 ["600000"%string] None));
            StockDataPublisher.AddSubscriber
              (Some (mkSubscriber 1 ["000001"%string] None))]
           [StockDataPublisher.AddSubscriber
              (Some (mkSubscriber 2 ["600000"%string] None))]
           1 []).
  vm_compute. reflexivity.
Defined.

(** ** [sorted] *)

Section SortedFacts.
Context {A K : Type} (R : relation K) `{!RelDecision R} (key : A -> K).
Context `{!Total R}.

Lemma HdRel_insert_by (a x : A) (l : list A) :
  R (key a) (key x) -> HdRel (fun u v => R (key u) (key v)) a l ->
  HdRel (fun u v => R (key u) (key v)) a (insert_by R key x l).
Proof.
  intros Hax Hal. destruct l as [|y l]; cbn.
  - now constructor.
  - destruct (decide _); constructor; [assumption|].
    now inversion Hal.
Qed.

Lemma Sorted_insert_by (x : A) (l : list A) :
  Sorted (fun u v => R (key u) (key v)) l ->
  Sorted (fun u v => R (key u) (key v)) (insert_by R key x l).
Proof.
  induction 1 as [|y l Hl IH Hy]; cbn.
  - repeat constructor.
  - destruct (decide (R (key x) (key y))) as [Hxy|Hxy].
    + constructor; [now constructor|now constructor].
    + constructor; [exact IH|].
      apply HdRel_insert_by; [|exact Hy].
      destruct (total R (key x) (key y)); [contradiction|assumption].
Qed.

Lemma Sorted_sorted (l : list A) :
  Sorted (fun u v => R (key u) (key v)) (sorted R key l).
Proof.
  induction l as [|x l IH]; cbn; [constructor|].
  now apply Sorted_insert_by.
Qed.

Lemma insert_by_Permutation (x : A) (l : list A) :
  insert_by R key x l ≡ₚ x :: l.
Proof.
  induction l as [|y l IH]; cbn; [reflexivity|].
  destruct (decide _); [reflexivity|].
  rewrite IH. apply Permutation_swap.
Qed.

Lemma sorted_Permutation (l : list A) : sorted R key l ≡ₚ l.
Proof.
  induction l as [|x l IH]; cbn; [reflexivity|].
  now rewrite insert_by_Permutation, IH.
Qed.

Lemma StronglySorted_sorted `{!Transitive R} (l : list A) :
  StronglySorted (fun u v => R (key u) (key v)) (sorted R key l).
Proof.
  apply Sorted_StronglySorted; [|apply Sorted_sorted].
  intros u v w Huv Hvw. now transitivity (key v).
Qed.

End SortedFacts.

(** In a strongly sorted list the element at a smaller position is related
    to the one at a larger position. *)
Lemma StronglySorted_lookup_lt {A} (R : relation A) (l : list A) (i j : nat)
    (a b : A) :
  StronglySorted R l -> l !! i = Some a -> l !! j = Some b -> (i < j)%nat ->
  R a b.
Proof.
  intros Hs. revert i j. induction Hs as [|x l Hs IH Hx]; intros i j Hi Hj Hij.
  - discriminate.
  - destruct j as [|j]; [lia|]. cbn in Hj. destruct i as [|i]; cbn in Hi.
    + injection Hi as <-. rewrite Forall_forall in Hx. apply Hx.
      eapply list_elem_of_lookup_2; eassumption.
    + apply (IH i j); [assumption..|lia].
Qed.

(** ** Rebalancing: order of the emitted list *)

Lemma bind_Ok {A B} (m : outcome A) (k : A -> outcome B) (b : B)
    (l : list LogRecord) :
  bind m k = Ok b l ->
  exists a l1 l2, m = Ok a l1 /\ k a = Ok b l2 /\ l = l1 ++ l2.
Proof.
  unfold bind. destruct m as [a l1|e]; [|discriminate].
  destruct (k a) as [b' l2|e] eqn:Hk; [|discriminate].
  intros [= <- <-]. now exists a, l1, l2.
Qed.

Tactic Notation "bind_inv" hyp(H) "as" ident(a) ident(Ha) :=
  apply bind_Ok in H as (a & ? & ? & Ha & H & ?).

Lemma forEach_Forall (P : Order.t -> Prop)
    (body : string -> outcome (list Order.t)) (stocks : list string)
    (os : list Order.t) (l : list LogRecord) :
  (forall stock os l, body stock = Ok os l -> Forall P os) ->
  StockStrategy.forEach body stocks = Ok os l -> Forall P os.
Proof.
  intros Hbody. revert os l.
  induction stocks as [|stock rest IH]; cbn; intros os l H.
  - injection H as <- <-. constructor.
  - bind_inv H as os1 H1. bind_inv H as os2 H2. injection H as <- _.
    apply Forall_app. split; [eapply Hbody|eapply IH]; eassumption.
Qed.

(** C7.  Whenever [adjustPosition] returns, its list holds only SELL
    (side -1) and BUY (side +1) orders, it is ascending in the side value,
    and every SELL order stands before every BUY order.  When the weights
    move from the held instrument A entirely to the new instrument B, the
    list is the sale of A followed by the purchase of B. *)
Theorem adjustPosition_sells_before_buys :
  (forall (self : StockStrategy.t) (asOfDate : string)
          (weights : gmap string float64) (refPrices : Frame)
          (o : StockStrategy.options) (orders : list Order.t)
          (log : list LogRecord),
     StockStrategy.adjustPosition self asOfDate weights refPrices o
       = Ok orders log ->
     Forall is_sell_or_buy orders
     /\ StronglySorted (fun a b => Order.side a <= Order.side b) orders
     /\ forall (i j : nat) (a b : Order.t),
          orders !! i = Some a -> orders !! j = Some b ->
          Order.side a = Order.SELL -> Order.side b = Order.BUY ->
          (i < j)%nat)
  /\ StockStrategy.adjustPosition Scenario.strategy "20170104"
       Scenario.weights Scenario.refPrices StockStrategy.defaults
     = Ok [Order.new "A" Order.SELL 1000 10; Order.new "B" Order.BUY 400 20]
          [].
Proof.
  split; [|vm_compute; reflexivity].
  intros self asOfDate weights refPrices o orders log H.
  unfold StockStrategy.adjustPosition in H.
  bind_inv H as p Hp. bind_inv H as sellRef Hsr. bind_inv H as buyRef Hbr.
  bind_inv H as updateRef Hur. bind_inv H as sells Hsells.
  bind_inv H as buys Hbuys. bind_inv H as updates Hupdates.
  injection H as <- _.
  assert (Hs : StronglySorted (fun a b => Order.side a <= Order.side b)
                 (sorted Z.le Order.side (sells ++ buys ++ updates))).
  { apply (StronglySorted_sorted Z.le Order.side). }
  split; [|split; [exact Hs|]].
  - rewrite (sorted_Permutation Z.le Order.side).
    rewrite !Forall_app. repeat split.
    + eapply forEach_Forall; [|exact Hsells]. cbn. intros stock os' l' H.
      bind_inv H as held Hheld. bind_inv H as ref Href.
      injection H as <- _. constructor; [now left|constructor].
    + eapply forEach_Forall; [|exact Hbuys]. cbn. intros stock os' l' H.
      bind_inv H as mv Hmv. bind_inv H as vwap Hvwap. bind_inv H as vol Hvol.
      injection H as <- _. constructor; [now right|constructor].
    + eapply forEach_Forall; [|exact Hupdates]. cbn. intros stock os' l' H.
      bind_inv H as mv Hmv. bind_inv H as vwap Hvwap.
      bind_inv H as target Htarget. bind_inv H as held Hheld.
      destruct (decide _); [destruct (decide _)|]; injection H as <- _.
      * constructor; [now right|constructor].
      * constructor; [now left|constructor].
      * constructor.
  - intros i j a b Hi Hj Ha Hb.
    destruct (Nat.lt_trichotomy i j) as [Hlt|[->|Hgt]]; [exact Hlt|..].
    + rewrite Hi in Hj. injection Hj as ->. rewrite Ha in Hb. discriminate.
    + pose proof (StronglySorted_lookup_lt _ _ _ _ _ _ Hs Hj Hi Hgt) as Hle.
      cbn in Hle. rewrite Ha, Hb in Hle. unfold Order.SELL, Order.BUY in Hle.
      lia.
Qed.

(** C7 on the scenario. *)
Lemma adjustPosition_sells_before_buys_witness :
  StronglySorted (fun a b => Order.side a <= Order.side b)
    [Order.new "A" Order.SELL 1000 10; Order.new "B" Order.BUY 400 20].
Proof.
  apply (proj1 adjustPosition_sells_before_buys Scenario.strategy
           "20170104"%string Scenario.weights Scenario.refPrices
           StockStrategy.defaults _ []).
  vm_compute. reflexivity.
Defined.

(** ** Rebalancing: the partition of the instruments *)

Lemma elem_of_stocksToHold (normalizeWeights : bool)
    (weights : gmap string float64) (s : string) :
  s ∈ dom (StockStrategy.normalize normalizeWeights
             (StockStrategy.cleanWeights weights))
  <-> Partition.targeted weights s.
Proof.
  unfold StockStrategy.normalize, Partition.targeted.
  assert (Hclean : s ∈ dom (StockStrategy.cleanWeights weights)
                   <-> exists q, weights !! s = Some (Finite q) /\ (0 <= q)%Q).
  { rewrite elem_of_dom. unfold StockStrategy.cleanWeights, is_Some.
    setoid_rewrite lookup_omap.
    destruct (weights !! s) as [[q| | |]|]; cbn.
    - destruct (Qle_bool 0 q) eqn:Hq.
      + apply Qle_bool_iff in Hq. split; eauto.
      + split; [intros [? [=]]|].
        intros (q' & [= <-] & Hq'). apply Qle_bool_iff in Hq'. congruence.
    - split; [intros [? [=]]|intros (? & [=] & _)].
    - split; [intros [? [=]]|intros (? & [=] & _)].
    - split; [intros [? [=]]|intros (? & [=] & _)].
    - split; [intros [? [=]]|intros (? & [=] & _)]. }
  destruct (decide _); [destruct normalizeWeights|];
    rewrite dom_fmap_L; exact Hclean.
Qed.

Lemma elem_of_getSuspendingStocks (self : StockStrategy.t)
    (asOfDate s : string) :
  s ∈ StockStrategy.getSuspendingStocks self asOfDate
  <-> Partition.suspended self asOfDate s.
Proof.
  unfold StockStrategy.getSuspendingStocks, Partition.suspended.
  rewrite elem_of_list_to_set, list_elem_of_fmap. split.
  - intros ([s' d] & -> & Hin). apply list_elem_of_filter in Hin as [Hd Hin].
    cbn in Hd. now subst d.
  - intros Hin. exists (s, asOfDate). split; [reflexivity|].
    apply list_elem_of_filter. now split.
Qed.

Lemma elem_of_stocksToDelist (delisted : list (string * string))
    (nextDate s : string) :
  s ∈ (list_to_set
         (fst <$> filter (fun r => String.leb r.2 nextDate = true) delisted)
       : gset string)
  <-> exists d, (s, d) ∈ delisted /\ String.leb d nextDate = true.
Proof.
  rewrite elem_of_list_to_set, list_elem_of_fmap. split.
  - intros ([s' d] & -> & Hin). apply list_elem_of_filter in Hin as [Hd Hin].
    eauto.
  - intros (d & Hin & Hd). exists (s, d). split; [reflexivity|].
    apply list_elem_of_filter. now split.
Qed.

Lemma atLimit_flat (r : DailyRow) :
  StockStrategy.atLimit r = true <-> Partition.flat r.
Proof.
  unfold StockStrategy.atLimit, Partition.flat.
  rewrite !andb_true_iff, !Qeq_bool_iff. tauto.
Qed.

Lemma elem_of_getUpLimitStocks (refPrices : Frame) (s : string) :
  s ∈ StockStrategy.getUpLimitStocks refPrices
  <-> Partition.atUpLimit refPrices s.
Proof.
  unfold StockStrategy.getUpLimitStocks, Partition.atUpLimit.
  rewrite elem_of_dom. unfold is_Some.
  setoid_rewrite map_lookup_filter_Some. cbn.
  setoid_rewrite andb_true_iff. setoid_rewrite atLimit_flat.
  setoid_rewrite Qlt_bool_iff. naive_solver.
Qed.

Lemma elem_of_getDownLimitStocks (refPrices : Frame) (s : string) :
  s ∈ StockStrategy.getDownLimitStocks refPrices
  <-> Partition.atDownLimit refPrices s.
Proof.
  unfold StockStrategy.getDownLimitStocks, Partition.atDownLimit.
  rewrite elem_of_dom. unfold is_Some.
  setoid_rewrite map_lookup_filter_Some. cbn.
  setoid_rewrite andb_true_iff. setoid_rewrite atLimit_flat.
  setoid_rewrite Qlt_bool_iff. naive_solver.
Qed.

(** The partition as the specification states it fails on the sell bucket:
    in the scenario with A suspended on the rebalancing date, A is held,
    not targeted and suspended, and the sell bucket is empty. *)
Lemma suspended_holding_is_not_sold :
  Partition.held Scenario.suspended "A"
  /\ ~ Partition.targeted Scenario.weights "A"
  /\ Partition.suspended Scenario.suspended "20170104" "A"
  /\ StockStrategy.stocksToSell
       <$> value (StockStrategy.classify Scenario.suspended "20170104"
                    Scenario.weights Scenario.refPrices
                    StockStrategy.defaults)
     = Some ∅.
Proof.
  split; [now eexists|]. split; [|split].
  - intros (q & Hq & _). vm_compute in Hq. discriminate.
  - apply list_elem_of_here.
  - vm_compute. reflexivity.
Qed.

(** C1 (amended).  In the ordinary mode, whenever the classification of
    [adjustPosition] is reached, with [nextDate] the next trading date it
    looked up: the sell bucket holds the held instruments that are either
    leaving the market by [nextDate], or not targeted, not suspended and
    not at the down limit; the buy bucket holds the targeted instruments
    that are not held, not suspended, not at the up limit and not leaving
    the market; the update bucket holds the targeted and held instruments
    that are not suspended, not leaving the market and at neither limit. *)
Theorem adjustPosition_partition (self : StockStrategy.t) (asOfDate : string)
    (weights : gmap string float64) (refPrices : Frame)
    (o : StockStrategy.options) (p : StockStrategy.plan)
    (log : list LogRecord) :
  StockStrategy.enableSab o = false ->
  StockStrategy.classify self asOfDate weights refPrices o = Ok p log ->
  exists nextDate l,
    StockStrategy.nextTradingDate self asOfDate (StockStrategy.freq self)
      = Ok nextDate l
    /\ forall s : string,
         (s ∈ StockStrategy.stocksToSell p <->
            Partition.held self s
            /\ ((~ Partition.targeted weights s
                 /\ ~ Partition.suspended self asOfDate s
                 /\ ~ Partition.atDownLimit refPrices s)
                \/ Partition.delisting self nextDate s))
         /\ (s ∈ StockStrategy.stocksToBuy p <->
               Partition.targeted weights s
               /\ ~ Partition.held self s
               /\ ~ Partition.suspended self asOfDate s
               /\ ~ Partition.atUpLimit refPrices s
               /\ ~ Partition.delisting self nextDate s)
         /\ (s ∈ StockStrategy.stocksToUpdate p <->
               Partition.targeted weights s
               /\ Partition.held self s
               /\ ~ Partition.suspended self asOfDate s
               /\ ~ Partition.delisting self nextDate s
               /\ ~ Partition.atDownLimit refPrices s
               /\ ~ Partition.atUpLimit refPrices s).
Proof.
  intros Hsab H. unfold StockStrategy.classify in H.
  bind_inv H as prevDate Hprev. bind_inv H as nextDate Hnext.
  rewrite Hsab in H. cbn in H. injection H as <- _.
  exists nextDate. eexists. split; [exact Hnext|].
  intros s. cbn.
  pose proof (elem_of_stocksToHold (StockStrategy.normalizeWeights o)
                weights s) as Hhold.
  pose proof (elem_of_getSuspendingStocks self asOfDate s) as Hsusp.
  pose proof (elem_of_stocksToDelist (StockStrategy.delistedStocks self)
                nextDate s) as Hdel.
  pose proof (elem_of_getUpLimitStocks refPrices s) as Hup.
  pose proof (elem_of_getDownLimitStocks refPrices s) as Hdown.
  assert (Hheld : s ∈ PortfolioPosition.getStocksInBook
                        (StockStrategy.position self)
                  <-> Partition.held self s)
    by apply elem_of_dom.
  fold (Partition.delisting self nextDate s) in Hdel.
  rewrite !elem_of_union, !elem_of_difference, !elem_of_intersection.
  rewrite Hhold, Hsusp, Hdel, Hup, Hdown, Hheld.
  tauto.
Qed.

(** C1 on the scenario: A is sold, B is bought, nothing is updated. *)
Lemma adjustPosition_partition_witness :
  exists p,
    StockStrategy.classify Scenario.strategy "20170104" Scenario.weights
      Scenario.refPrices StockStrategy.defaults = Ok p []
    /\ "B"%string ∈ StockStrategy.stocksToBuy p.
Proof.
  eexists. split; [vm_compute; reflexivity|].
  destruct (adjustPosition_partition Scenario.strategy "20170104"%string
              Scenario.weights Scenario.refPrices StockStrategy.defaults _ []
              eq_refl ltac:(vm_compute; reflexivity))
    as (nextDate & l & Hnext & Hparts).
  apply (Hparts "B"%string).
  vm_compute in Hnext. injection Hnext as <- _.
  split; [exists 1%Q; split; [reflexivity|discriminate]|].
  split; [intros [x Hx]; vm_compute in Hx; discriminate|].
  split; [intros Hx; apply elem_of_nil in Hx; exact Hx|].
  split.
  - intros (r & Hr & _ & Hpct). vm_compute in Hr. injection Hr as <-.
    vm_compute in Hpct. discriminate.
  - intros (d & Hd & _). apply elem_of_nil in Hd. exact Hd.
Defined.

(** ** Replay *)

Lemma StronglySorted_strict {A} (R : relation A) `{!AntiSymm (=) R}
    (l : list A) :
  StronglySorted R l -> NoDup l -> StronglySorted (strict R) l.
Proof.
  induction 1 as [|x l Hs IH Hx]; intros Hnd; [constructor|].
  apply NoDup_cons in Hnd as [Hx' Hnd]. constructor; [now apply IH|].
  rewrite Forall_forall in *. intros y Hy.
  apply strict_spec_alt. split; [now apply Hx|]. now intros ->.
Qed.

Lemma StronglySorted_bind {A B} (R1 : relation A) (R2 : relation B)
    (f : A -> list B) (l : list A) :
  StronglySorted R1 l ->
  (forall x, x ∈ l -> StronglySorted R2 (f x)) ->
  (forall x y a b, R1 x y -> x ∈ l -> y ∈ l -> a ∈ f x -> b ∈ f y -> R2 a b) ->
  StronglySorted R2 (l ≫= f).
Proof.
  induction 1 as [|x l Hs IH Hx]; intros Hf Hcross; cbn; [constructor|].
  apply StronglySorted_app_2.
  - intros a b Ha Hb. apply list_elem_of_bind in Hb as (y & Hb & Hy).
    rewrite Forall_forall in Hx.
    apply (Hcross x y); [now apply Hx|left|now right|assumption..].
  - apply Hf. left.
  - apply IH.
    + intros y Hy. apply Hf. now right.
    + intros y z a b Hyz Hy Hz. apply Hcross; [assumption|now right..].
Qed.

Lemma StronglySorted_irrefl_NoDup {A} (R : relation A) (l : list A) :
  StronglySorted R l -> (forall x, x ∈ l -> ~ R x x) -> NoDup l.
Proof.
  induction 1 as [|x l Hs IH Hx]; intros Hirr; constructor.
  - intros Hin. rewrite Forall_forall in Hx.
    apply (Hirr x); [left|now apply Hx].
  - apply IH. intros y Hy. apply Hirr. now right.
Qed.

Section ReplayFacts.
Import BacktestDataPublisher ReplayOrder.
Context {Date Time Payload : Type}.
Context `{!EqDecision Date, !EqDecision Time}.
Context (dle : relation Date) `{!RelDecision dle}.
Context (tle : relation Time) `{!RelDecision tle}.

Abbreviation Row := (@Row Date Time Payload).
Abbreviation Call := (@Call Date Time Payload).
Abbreviation Message := (@Message Date Time Payload).

Lemma elem_of_group_keys {K} `{!EqDecision K} (R : relation K)
    `{!RelDecision R} (column : Row -> K) (frame : list Row) (k : K) :
  k ∈ group_keys R column frame <-> exists r, r ∈ frame /\ column r = k.
Proof.
  unfold group_keys.
  rewrite (sorted_Permutation R id), elem_of_remove_dups, list_elem_of_fmap.
  naive_solver.
Qed.

Lemma group_keys_sorted {K} `{!EqDecision K} (R : relation K)
    `{!RelDecision R, !PartialOrder R, !Total R} (column : Row -> K)
    (frame : list Row) :
  StronglySorted (strict R) (group_keys R column frame).
Proof.
  unfold group_keys. apply StronglySorted_strict; [apply _|..].
  - apply (StronglySorted_sorted R id).
  - rewrite (sorted_Permutation R id). apply NoDup_remove_dups.
Qed.

Lemma elem_of_get_group {K} `{!EqDecision K} (column : Row -> K) (k : K)
    (frame : list Row) (r : Row) :
  r ∈ get_group column k frame <-> column r = k /\ r ∈ frame.
Proof. unfold get_group. now rewrite list_elem_of_filter. Qed.

Lemma replay_days (data : list Row) :
  replay dle tle data = group_keys dle tradeDate data ≫= day tle data.
Proof. reflexivity. Qed.

(** A call of the day [d] is the [openMarket] of [d] or delivers a
    non-empty batch of rows of [d] sharing a timestamp. *)
Lemma elem_of_day (data : list Row) (d : Date) (c : Call) :
  c ∈ day tle data d <->
  c = CallOpenMarket d
  \/ exists r, r ∈ data /\ tradeDate r = d
               /\ c = CallNotifyAll (rowsAt r data).
Proof.
  unfold day. rewrite elem_of_cons, list_elem_of_fmap.
  setoid_rewrite elem_of_group_keys. setoid_rewrite elem_of_get_group.
  unfold get_group, rowsAt. split.
  - intros [->|(ts & -> & r & [Hd Hr] & <-)]; [now left|right].
    exists r. rewrite list_filter_filter, Hd. auto.
  - intros [->|(r & Hr & <- & ->)]; [now left|right].
    exists (timestamp r). rewrite list_filter_filter. eauto.
Qed.

Lemma elem_of_rowsAt (r x : Row) (data : list Row) :
  x ∈ rowsAt r data <->
  (timestamp x = timestamp r /\ tradeDate x = tradeDate r) /\ x ∈ data.
Proof. unfold rowsAt. now rewrite list_elem_of_filter. Qed.

Context `{!PartialOrder dle, !Total dle, !PartialOrder tle, !Total tle}.

Lemma day_sorted (data : list Row) (d : Date) :
  StronglySorted (precedes dle tle) (day tle data d).
Proof.
  unfold day. constructor.
  - apply StronglySorted_fmap with (R1 := strict tle);
      [|apply group_keys_sorted; apply _].
    intros t1 t2 Ht r1 r2 Hr1 Hr2. right.
    apply elem_of_get_group in Hr1 as [<- Hr1], Hr2 as [<- Hr2].
    apply elem_of_get_group in Hr1 as [-> _], Hr2 as [-> _].
    split; [reflexivity|exact Ht].
  - apply Forall_fmap, Forall_forall. intros ts _ r Hr. cbn.
    apply elem_of_get_group in Hr as [_ Hr].
    apply elem_of_get_group in Hr as [-> _]. reflexivity.
Qed.

Lemma days_precede (data : list Row) (d1 d2 : Date) (c1 c2 : Call) :
  strict dle d1 d2 -> c1 ∈ day tle data d1 -> c2 ∈ day tle data d2 ->
  precedes dle tle c1 c2.
Proof.
  intros Hd H1 H2.
  apply elem_of_day in H1 as [->|(r1 & _ & <- & ->)];
    apply elem_of_day in H2 as [->|(r2 & _ & <- & ->)]; cbn.
  - exact Hd.
  - intros r Hr. apply elem_of_rowsAt in Hr as [[_ ->] _].
    now apply strict_include.
  - intros r Hr. apply elem_of_rowsAt in Hr as [[_ ->] _]. exact Hd.
  - intros x1 x2 Hx1 Hx2. left.
    apply elem_of_rowsAt in Hx1 as [[_ ->] _].
    apply elem_of_rowsAt in Hx2 as [[_ ->] _]. exact Hd.
Qed.

Lemma replay_sorted (data : list Row) :
  StronglySorted (precedes dle tle) (replay dle tle data).
Proof.
  rewrite replay_days.
  eapply (StronglySorted_bind (strict dle)).
  - apply group_keys_sorted; apply _.
  - intros d _. apply day_sorted.
  - intros d1 d2 c1 c2 Hd _ _. now apply days_precede.
Qed.

Lemma elem_of_replay (data : list Row) (c : Call) :
  c ∈ replay dle tle data <->
  (exists r, r ∈ data /\ c = CallOpenMarket (tradeDate r))
  \/ (exists r, r ∈ data /\ c = CallNotifyAll (rowsAt r data)).
Proof.
  rewrite replay_days, list_elem_of_bind.
  setoid_rewrite elem_of_day. setoid_rewrite elem_of_group_keys. split.
  - intros (d & [->|(r & Hr & <- & ->)] & r' & Hr' & Hd); [left|right].
    + exists r'. now rewrite Hd.
    + now exists r.
  - intros [(r & Hr & ->)|(r & Hr & ->)]; exists (tradeDate r).
    + split; [now left|now exists r].
    + split; [right; now exists r|now exists r].
Qed.

Lemma replay_NoDup (data : list Row) : NoDup (replay dle tle data).
Proof.
  eapply StronglySorted_irrefl_NoDup; [apply replay_sorted|].
  intros c Hc Hcc.
  apply elem_of_replay in Hc as [(r & Hr & ->)|(r & Hr & ->)]; cbn in Hcc.
  - now apply (irreflexivity (strict dle)) in Hcc.
  - assert (Hin : r ∈ rowsAt r data) by (apply elem_of_rowsAt; auto).
    destruct (Hcc r r Hin Hin) as [H|[_ H]].
    + now apply (irreflexivity (strict dle)) in H.
    + now apply (irreflexivity (strict tle)) in H.
Qed.

Lemma filter_deliveries_absent (l : list (Z * Subscriber)) (sid : Z)
    (m : Message) :
  sid ∉ l.*1 ->
  filter (fun e => subId e = sid) ((fun p => mkEvent p.1 p.2 m) <$> l) = [].
Proof.
  induction l as [|[k a] l IH]; intros Hk; [reflexivity|].
  rewrite fmap_cons in Hk. apply not_elem_of_cons in Hk as [Hne Hk].
  rewrite fmap_cons, filter_cons_False; [now apply IH|].
  cbn. intros Heq. apply Hne. now rewrite <- Heq.
Qed.

(** Among the events of one publisher call, those of a registered
    subscriber are the single delivery of the call's message. *)
Lemma filter_deliveries (l : list (Z * Subscriber)) (sid : Z)
    (s : Subscriber) (m : Message) :
  NoDup l.*1 -> (sid, s) ∈ l ->
  filter (fun e => subId e = sid) ((fun p => mkEvent p.1 p.2 m) <$> l)
  = [mkEvent sid s m].
Proof.
  induction l as [|[k a] l IH]; intros Hnd Hin.
  - now apply elem_of_nil in Hin.
  - rewrite fmap_cons in Hnd. apply NoDup_cons in Hnd as [Hk Hnd].
    rewrite fmap_cons. apply elem_of_cons in Hin as [[= <- <-]|Hin].
    + rewrite filter_cons_True by reflexivity.
      now rewrite filter_deliveries_absent.
    + rewrite filter_cons_False; [now apply IH|].
      cbn. intros ->. apply Hk. apply list_elem_of_fmap. now exists (sid, s).
Qed.

Lemma perform_filter (self : t) (sid : Z) (s : Subscriber) (c : Call) :
  subscribers self !! sid = Some s ->
  filter (fun e => subId e = sid) (perform self c)
  = [mkEvent sid s (messageOf c)].
Proof.
  intros Hs.
  assert (Hin : (sid, s) ∈ map_to_list (subscribers self))
    by now apply elem_of_map_to_list.
  pose proof (NoDup_fst_map_to_list (subscribers self)) as Hnd.
  destruct c as [d|b]; cbn.
  - now apply filter_deliveries.
  - unfold notifyAll. destruct (decide _) as [_|Hsize].
    + now apply filter_deliveries.
    + exfalso. apply Hsize.
      destruct (decide (size (subscribers self) = 0%nat)) as [Hz|Hz]; [|lia].
      apply map_size_empty_iff in Hz. rewrite Hz in Hs. discriminate.
Qed.

Lemma deliveries_of_calls (self : t) (sid : Z) (s : Subscriber)
    (calls : list Call) :
  subscribers self !! sid = Some s ->
  filter (fun e => subId e = sid) (calls ≫= perform self)
  = (fun c => mkEvent sid s (messageOf c)) <$> calls.
Proof.
  intros Hs. induction calls as [|c calls IH]; cbn; [reflexivity|].
  now rewrite filter_app, IH, (perform_filter _ _ _ _ Hs).
Qed.

End ReplayFacts.

(** C9.  The replay of any frame makes its publisher calls in
    ( date, timestamp ) order: the [openMarket] calls run through the dates
    of the frame in strictly ascending order, the [openMarket] of a date
    comes before every batch of that date, later batches hold strictly
    later rows, no call is made twice, the [notifyAll] calls are exactly
    the batches of all rows sharing a date and a timestamp, and every
    registered subscriber receives exactly these calls, in this order. *)
Theorem replay_in_order {Date Time Payload : Type}
    `{!EqDecision Date, !EqDecision Time}
    (dle : relation Date) `{!RelDecision dle, !PartialOrder dle, !Total dle}
    (tle : relation Time) `{!RelDecision tle, !PartialOrder tle, !Total tle}
    (datafeed : gset string -> Date -> Date
                -> list (@BacktestDataPublisher.Row Date Time Payload))
    (startDate endDate : Date) (self : BacktestDataPublisher.t) :
  let data :=
    datafeed (BacktestDataPublisher.subscribedTopics self) startDate endDate in
  let calls := BacktestDataPublisher.replay dle tle data in
  StronglySorted (ReplayOrder.precedes dle tle) calls
  /\ NoDup calls
  /\ (forall d, BacktestDataPublisher.CallOpenMarket d ∈ calls <->
                exists r, r ∈ data /\ BacktestDataPublisher.tradeDate r = d)
  /\ (forall b, BacktestDataPublisher.CallNotifyAll b ∈ calls <->
                exists r, r ∈ data /\ b = ReplayOrder.rowsAt r data)
  /\ (forall sid s,
        BacktestDataPublisher.subscribers self !! sid = Some s ->
        filter (fun e => BacktestDataPublisher.subId e = sid)
          (BacktestDataPublisher.connect dle tle datafeed startDate endDate
             self)
        = (fun c => BacktestDataPublisher.mkEvent sid s
                      (ReplayOrder.messageOf c)) <$> calls).
Proof.
  cbv zeta. split; [apply replay_sorted; apply _|].
  split; [apply replay_NoDup; apply _|]. split; [|split].
  - intros d. rewrite elem_of_replay. split.
    + intros [(r & Hr & [= ->])|(r & _ & [=])]. now exists r.
    + intros (r & Hr & <-). left. now exists r.
  - intros b. rewrite elem_of_replay. split.
    + intros [(r & _ & [=])|(r & Hr & [= ->])]. now exists r.
    + intros (r & Hr & ->). right. now exists r.
  - intros sid s Hs. now apply deliveries_of_calls.
Qed.

(** C9 on the sample rows: the calls, and what one subscriber receives. *)
Lemma replay_in_order_witness :
  BacktestDataPublisher.replay Z.le Z.le sampleRows
  = [ BacktestDataPublisher.CallOpenMarket 20170103;
      BacktestDataPublisher.CallNotifyAll
        [ BacktestDataPublisher.mkRow 20170103 201701030930 "A"%string;
          BacktestDataPublisher.mkRow 20170103 201701030930 "B"%string ];
      BacktestDataPublisher.CallNotifyAll
        [ BacktestDataPublisher.mkRow 20170103 201701030931 "A"%string ];
      BacktestDataPublisher.CallOpenMarket 20170104;
      BacktestDataPublisher.CallNotifyAll
        [ BacktestDataPublisher.mkRow 20170104 201701040930 "B"%string ];
      BacktestDataPublisher.CallNotifyAll
        [ BacktestDataPublisher.mkRow 20170104 201701040931 "A"%string ] ]
  /\ StronglySorted (ReplayOrder.precedes Z.le Z.le)
       (BacktestDataPublisher.replay Z.le Z.le sampleRows).
Proof.
  split; [vm_compute; reflexivity|].
  exact (proj1 (replay_in_order Z.le Z.le (fun _ _ _ => sampleRows) 0 0
                  BacktestDataPublisher.init)).
Defined.

(** * Further properties of the code *)

(** ** The position book: round trip, invariant, affordability *)



Lemma int_nonneg (x : Q) : (0 <= x)%Q -> 0 <= int x.
Proof.
  intros H. rewrite (int_floor _ H). change 0 with (Qfloor 0).
  now apply Qfloor_resp_le.
Qed.

Lemma inject_Z_nonneg (z : Z) : 0 <= z -> (0 <= inject_Z z)%Q.
Proof. intros H. change 0%Q with (inject_Z 0). now rewrite <- Zle_Qle. Qed.

(** The volume [stockUtil.adjustPrice] returns is at least the volume
    passed in, for a non-negative volume and non-negative ratios. *)
Lemma adjustPrice_volume_grows (position : Z) (cash dividend10 right10
    rightIssue10 rightIssuePrice : Q) :
  0 <= position -> (0 <= right10)%Q -> (0 <= rightIssue10)%Q ->
  position <= (stockUtil.adjustPrice position cash dividend10 right10
                 rightIssue10 rightIssuePrice).1.
Proof.
  intros Hp Hr Hri. unfold stockUtil.adjustPrice.
  assert (Hunit : (0 <= inject_Z (int (inject_Z position / 10)))%Q).
  { apply inject_Z_nonneg. rewrite int_inject_Z_div10 by lia.
    apply Z.div_pos; lia. }
  pose proof (int_nonneg _ (Qmult_le_0_compat _ _ Hunit Hr)) as Hbonus.
  pose proof (int_nonneg _ (Qmult_le_0_compat _ _ Hri Hunit)) as Hallot.
  destruct (Qlt_bool _ _); cbn; lia.
Qed.

Lemma positive_volumes_init (totalAsset : Q) :
  positive_volumes (PortfolioPosition.init totalAsset).
Proof. intros secId pos H. cbn in H. now rewrite lookup_empty in H. Qed.

(** X2.  The book keeps its volumes positive: the fresh book has none, and
    a purchase of a positive volume, any sale, and a corporate action with
    non-negative bonus and rights ratios lead from a book with positive
    volumes to a book with positive volumes. *)
Theorem book_keeps_positive_volumes :
  (forall totalAsset, positive_volumes (PortfolioPosition.init totalAsset))
  /\ (forall self secId price volume commision self' log,
        positive_volumes self -> 0 < volume ->
        PortfolioPosition.addPosition secId price volume commision self
          = Ok self' log ->
        positive_volumes self')
  /\ (forall self secId price volume commision self' log,
        positive_volumes self ->
        PortfolioPosition.deletePosition secId price volume commision self
          = Ok self' log ->
        positive_volumes self')
  /\ (forall self secId dividend10 right10 rightIssue10 rightIssuePrice
             self' log,
        positive_volumes self -> (0 <= right10)%Q -> (0 <= rightIssue10)%Q ->
        PortfolioPosition.adjustPrice secId dividend10 right10 rightIssue10
          rightIssuePrice self = Ok self' log ->
        positive_volumes self').
Proof.
  split; [|split; [|split]].
  - apply positive_volumes_init.
  - intros self secId price volume commision self' log Hpos Hv Hadd s pos Hs.
    destruct (PortfolioPosition.book self !! secId) as [[avg h]|] eqn:Hrow.
    + rewrite (addPosition_held _ _ _ _ _ _ _ Hrow) in Hadd.
      injection Hadd as <- _. cbn in Hs.
      destruct (decide (secId = s)) as [->|Hne].
      * rewrite lookup_insert_eq in Hs. injection Hs as <-. cbn.
        pose proof (Hpos _ _ Hrow) as Hh. cbn in Hh. lia.
      * rewrite lookup_insert_ne in Hs by assumption. eauto.
    + rewrite (addPosition_new _ _ _ _ _ Hrow) in Hadd.
      injection Hadd as <- _. cbn in Hs.
      destruct (decide (secId = s)) as [->|Hne].
      * rewrite lookup_insert_eq in Hs. now injection Hs as <-.
      * rewrite lookup_insert_ne in Hs by assumption. eauto.
  - intros self secId price volume commision self' log Hpos Hdel s pos Hs.
    destruct (PortfolioPosition.book self !! secId) as [[avg h]|] eqn:Hrow.
    + rewrite (deletePosition_held _ _ _ _ _ _ _ Hrow) in Hdel.
      injection Hdel as <- _. cbn in Hs.
      destruct (Z.ltb_spec 0 (h - Z.min volume h)).
      * destruct (decide (secId = s)) as [->|Hne].
        -- rewrite lookup_insert_eq in Hs. now injection Hs as <-.
        -- rewrite lookup_insert_ne in Hs by assumption. eauto.
      * apply lookup_delete_Some in Hs as [_ Hs]. eauto.
    + rewrite (deletePosition_absent _ _ _ _ _ Hrow) in Hdel.
      injection Hdel as <- _. eauto.
  - intros self secId dividend10 right10 rightIssue10 rightIssuePrice self' log
      Hpos Hr Hri Hadj s pos Hs.
    unfold PortfolioPosition.adjustPrice, PortfolioPosition.getPositions
      in Hadj.
    destruct (PortfolioPosition.book self !! secId) as [[avg h]|] eqn:Hrow.
    + rewrite (ix_Some _ _ _ Hrow) in Hadj. cbn [Volume Price] in Hadj.
      pose proof (adjustPrice_volume_grows h (PortfolioPosition.cash self)
                    dividend10 right10 rightIssue10 rightIssuePrice) as Hgrow.
      destruct (stockUtil.adjustPrice _ _ _ _ _ _) as [newVolume newCash].
      injection Hadj as <- _. cbn in Hs, Hgrow.
      pose proof (Hpos _ _ Hrow) as Hh. cbn in Hh.
      destruct (decide (secId = s)) as [->|Hne].
      * rewrite lookup_insert_eq in Hs. injection Hs as <-. cbn.
        specialize (Hgrow ltac:(lia) Hr Hri). lia.
      * rewrite lookup_insert_ne in Hs by assumption. eauto.
    + rewrite (ix_None _ _ Hrow) in Hadj. injection Hadj as <- _. eauto.
Qed.

Lemma book_keeps_positive_volumes_witness :
  positive_volumes
    {| PortfolioPosition.book := {[ "X"%string := mkPosition 50 100 ]};
       PortfolioPosition.cash := 94990 |}.
Proof.
  apply (proj1 (proj2 book_keeps_positive_volumes)
           (PortfolioPosition.init 100000) "X"%string 50%Q 100 10%Q _ []).
  - apply positive_volumes_init.
  - lia.
  - rewrite addPosition_new by apply lookup_empty.
    cbn. now rewrite insert_empty.
Defined.

(** ** The position book: valuation *)

Lemma series_sum_insert_fresh (m : gmap string Q) (k : string) (x : Q) :
  m !! k = None -> (series_sum (<[k := x]> m) == x + series_sum m)%Q.
Proof.
  intros Hk. unfold series_sum.
  rewrite (map_fold_insert Qeq (fun _ v acc => (acc + v)%Q) 0%Q k x m);
    [ring| |  |exact Hk].
  - intros _ z a b Hab. now rewrite Hab.
  - intros. ring.
Qed.

Lemma series_sum_insert (m : gmap string Q) (k : string) (x : Q) :
  (series_sum (<[k := x]> m) == x + series_sum (delete k m))%Q.
Proof.
  rewrite <- insert_delete_eq. apply series_sum_insert_fresh, lookup_delete_eq.
Qed.

Lemma series_sum_lookup (m : gmap string Q) (k : string) (x : Q) :
  m !! k = Some x -> (series_sum m == x + series_sum (delete k m))%Q.
Proof.
  intros Hk. rewrite <- (insert_id m k x Hk) at 1. apply series_sum_insert.
Qed.






(** X4.  [isCashEnough] answers whether the purchase leaves money: on a
    book with positive volumes and for a positive volume, it is true
    exactly when the cash after [addPosition] of the same price, volume and
    commission is strictly positive. *)
Theorem isCashEnough_iff_cash_left (self : PortfolioPosition.t)
    (secId : string) (price : Q) (volume : Z) (commision : Q) :
  positive_volumes self -> 0 < volume ->
  exists self',
    PortfolioPosition.addPosition secId price volume commision self
      = Ok self' []
    /\ (PortfolioPosition.isCashEnough self price volume commision = true
        <-> (0 < PortfolioPosition.cash self')%Q).
Proof.
  intros Hpos Hv.
  assert (Hcash : forall self',
            (PortfolioPosition.cash self' ==
               PortfolioPosition.cash self
               - (price * inject_Z volume + commision))%Q ->
            PortfolioPosition.isCashEnough self price volume commision = true
            <-> (0 < PortfolioPosition.cash self')%Q).
  { intros self' ->. unfold PortfolioPosition.isCashEnough.
    rewrite Qlt_bool_iff. rewrite <- (Qlt_minus_iff
      (price * inject_Z volume + commision) (PortfolioPosition.cash self)).
    unfold Qminus. reflexivity. }
  destruct (PortfolioPosition.book self !! secId) as [[avg h]|] eqn:Hrow.
  - eexists. split; [apply (addPosition_held _ _ _ _ _ _ _ Hrow)|].
    apply Hcash. cbn. ring.
  - eexists. split; [apply (addPosition_new _ _ _ _ _ Hrow)|].
    apply Hcash. cbn. ring.
Qed.

Lemma isCashEnough_iff_cash_left_witness :
  exists self',
    PortfolioPosition.addPosition "X" 50 100 10
      (PortfolioPosition.init 5010) = Ok self' []
    /\ ~ (0 < PortfolioPosition.cash self')%Q.
Proof.
  destruct (isCashEnough_iff_cash_left (PortfolioPosition.init 5010)
              "X"%string 50%Q 100 10%Q
              (positive_volumes_init 5010%Q) ltac:(lia))
    as (self' & Hadd & Hiff).
  exists self'. split; [exact Hadd|].
  intros Hleft. apply Hiff in Hleft. vm_compute in Hleft. discriminate.
Defined.

(** ** util/stock.py: rounding to lots and corporate actions *)

(** X5.  [roundVolume] returns a whole number of lots, and for a
    non-negative volume and a positive lot size the largest one that does
    not exceed the volume. *)
Theorem roundVolume_lots (volume : Q) (lotSize : Z) :
  0 < lotSize ->
  (lotSize | stockUtil.roundVolume volume lotSize)
  /\ ((0 <= volume)%Q ->
      0 <= stockUtil.roundVolume volume lotSize
      /\ (inject_Z (stockUtil.roundVolume volume lotSize) <= volume)%Q
      /\ (volume < inject_Z (stockUtil.roundVolume volume lotSize + lotSize))%Q).
Proof.
  intros Hlot. unfold stockUtil.roundVolume.
  split; [apply Z.divide_factor_r|]. intros Hv.
  assert (HlotQ : (0 < inject_Z lotSize)%Q).
  { change 0%Q with (inject_Z 0). now rewrite <- Zlt_Qlt. }
  assert (Hq : (0 <= volume / inject_Z lotSize)%Q).
  { apply Qle_shift_div_l; [exact HlotQ|]. now rewrite Qmult_0_l. }
  assert (Hback : (volume / inject_Z lotSize * inject_Z lotSize == volume)%Q).
  { field. intros H0. rewrite H0 in HlotQ. now apply Qlt_irrefl in HlotQ. }
  rewrite (int_floor _ Hq).
  pose proof (Qfloor_le (volume / inject_Z lotSize)) as Hlow.
  pose proof (Qlt_floor (volume / inject_Z lotSize)) as Hhigh.
  split; [|split].
  - apply Z.mul_nonneg_nonneg; [|lia]. change 0 with (Qfloor 0).
    now apply Qfloor_resp_le.
  - rewrite inject_Z_mult.
    apply Qle_trans with (volume / inject_Z lotSize * inject_Z lotSize)%Q;
      [|rewrite Hback; apply Qle_refl].
    apply Qmult_le_compat_r; [exact Hlow|now apply Qlt_le_weak].
  - replace (Qfloor (volume / inject_Z lotSize) * lotSize + lotSize)
      with ((Qfloor (volume / inject_Z lotSize) + 1) * lotSize) by ring.
    rewrite inject_Z_mult.
    apply Qle_lt_trans with (volume / inject_Z lotSize * inject_Z lotSize)%Q;
      [rewrite Hback; apply Qle_refl|].
    now apply Qmult_lt_compat_r.
Qed.

Lemma roundVolume_lots_witness :
  (100 | stockUtil.roundVolume 490 100)
  /\ stockUtil.roundVolume 490 100 = 400.
Proof.
  split; [|reflexivity].
  exact (proj1 (roundVolume_lots 490 100 ltac:(lia))).
Defined.

(** X6.  A corporate action never overdraws and never shrinks a holding:
    with non-negative cash, dividend and volume, the cash returned by
    [adjustPrice] is non-negative, whatever the rights ratio and price
    are, and with non-negative bonus and rights ratios the volume returned
    is at least the volume held. *)
Theorem adjustPrice_never_overdraws (position : Z)
    (cash dividend10 right10 rightIssue10 rightIssuePrice : Q) :
  0 <= position -> (0 <= cash)%Q -> (0 <= dividend10)%Q ->
  (0 <= (stockUtil.adjustPrice position cash dividend10 right10 rightIssue10
           rightIssuePrice).2)%Q
  /\ ((0 <= right10)%Q -> (0 <= rightIssue10)%Q ->
      position <= (stockUtil.adjustPrice position cash dividend10 right10
                     rightIssue10 rightIssuePrice).1).
Proof.
  intros Hp Hc Hd. split.
  - assert (Hdiv : (0 <= dividend10
                         * inject_Z (int (inject_Z position / 10)))%Q).
    { apply Qmult_le_0_compat; [exact Hd|]. apply inject_Z_nonneg.
      rewrite int_inject_Z_div10 by lia. apply Z.div_pos; lia. }
    destruct (adjustPrice_cases position cash dividend10 right10 rightIssue10
                rightIssuePrice) as [Hbuy Hskip].
    cbv zeta in Hbuy, Hskip.
    destruct (Qlt_le_dec
                (inject_Z (int (rightIssue10
                                * inject_Z (int (inject_Z position / 10))))
                 * rightIssuePrice) cash) as [Hlt|Hle].
    + rewrite (Hbuy Hlt). cbn [snd].
      apply Qlt_le_weak in Hlt. apply -> Qle_minus_iff in Hlt.
      set (d := (dividend10 * inject_Z (int (inject_Z position / 10)))%Q) in *.
      set (c := (inject_Z (int (rightIssue10
                      * inject_Z (int (inject_Z position / 10))))
                 * rightIssuePrice)%Q) in *.
      assert (E : (cash + d - c == d + (cash + - c))%Q) by ring.
      rewrite E. change 0%Q with (0 + 0)%Q. now apply Qplus_le_compat.
    + rewrite (Hskip Hle). cbn [snd].
      change 0%Q with (0 + 0)%Q. now apply Qplus_le_compat.
  - intros Hr Hri. now apply adjustPrice_volume_grows.
Qed.

Lemma adjustPrice_never_overdraws_witness :
  (0 <= (stockUtil.adjustPrice 1005 1000 3 2 (3 # 2) 4).2)%Q
  /\ stockUtil.adjustPrice 1005 1000 3 2 (3 # 2) 4 = (1355, (1000 + 3 * 100 - 150 * 4)%Q).
Proof.
  split; [|reflexivity].
  exact (proj1 (adjustPrice_never_overdraws 1005 1000 3 2 (3 # 2) 4
                  ltac:(lia) ltac:(discriminate) ltac:(discriminate))).
Defined.

(** ** Execution engine: order ids and the order store *)

Lemma engine_run (cs : list BacktestExecutionEngine.call)
    (self : BacktestExecutionEngine.t) :
  (BacktestExecutionEngine.run cs self).2
  = seqZ (BacktestExecutionEngine.nextId self)
      (Z.of_nat (length (BacktestExecutionEngine.run cs self).2))
  /\ BacktestExecutionEngine.nextId (BacktestExecutionEngine.run cs self).1
     = BacktestExecutionEngine.nextId self
       + Z.of_nat (length (BacktestExecutionEngine.run cs self).2)
  /\ (forall k, k < BacktestExecutionEngine.nextId self ->
        BacktestExecutionEngine.executedOrders
          (BacktestExecutionEngine.run cs self).1 !! k
        = BacktestExecutionEngine.executedOrders self !! k)
  /\ BacktestExecutionEngine.refData (BacktestExecutionEngine.run cs self).1
     = BacktestExecutionEngine.refData self
  /\ BacktestExecutionEngine.marketImpact
       (BacktestExecutionEngine.run cs self).1
     = BacktestExecutionEngine.marketImpact self
  /\ BacktestExecutionEngine.commisionRate
       (BacktestExecutionEngine.run cs self).1
     = BacktestExecutionEngine.commisionRate self.
Proof.
  revert self. induction cs as [|c cs IH]; intros self; cbn.
  - rewrite Z.add_0_r. repeat split; reflexivity.
  - destruct c as [order|?|? ?|?]; cbn;
      match goal with
      | |- context [BacktestExecutionEngine.run cs ?e] =>
          specialize (IH e);
          destruct (BacktestExecutionEngine.run cs e) as [self' ids]
      end; cbn in *; try exact IH.
    destruct IH as (Hids & Hnext & Hkeep & Href & Himp & Hrate).
    split; [|split; [|split; [|auto]]].
    + rewrite Nat2Z.inj_succ, seqZ_cons by lia.
      rewrite Z.pred_succ. f_equal. exact Hids.
    + lia.
    + intros k Hk. rewrite Hkeep by lia. now rewrite lookup_insert_ne by lia.
Qed.

(** X7.  Order ids count up from 1: over any sequence of calls on a fresh
    engine, the ids taken by the [placeOrder] calls are 1, 2, ..., n in
    this order, and the next id is n + 1, also when the reference data
    lookup of a placement fails. *)
Theorem order_ids_count_from_one (commisionRate : Q) (marketImpact : Z)
    (refData : RefData) (cs : list BacktestExecutionEngine.call) :
  (BacktestExecutionEngine.run cs
     (BacktestExecutionEngine.init commisionRate marketImpact refData)).2
  = seqZ 1 (Z.of_nat (length
      (BacktestExecutionEngine.run cs
         (BacktestExecutionEngine.init commisionRate marketImpact refData)).2))
  /\ BacktestExecutionEngine.nextId
       (BacktestExecutionEngine.run cs
          (BacktestExecutionEngine.init commisionRate marketImpact refData)).1
     = 1 + Z.of_nat (length
         (BacktestExecutionEngine.run cs
            (BacktestExecutionEngine.init commisionRate marketImpact
               refData)).2).
Proof.
  destruct (engine_run cs
              (BacktestExecutionEngine.init commisionRate marketImpact
                 refData)) as (Hids & Hnext & _).
  split; [exact Hids|exact Hnext].
Qed.

(** X8.  The engine never forgets or changes an order: the order stored
    under an id taken by a [placeOrder] call is still stored under it after
    any further calls, and [queryOrder] answers for the id in the same
    way. *)
Theorem placed_order_stays_queryable (commisionRate : Q) (marketImpact : Z)
    (refData : RefData) (cs1 cs2 : list BacktestExecutionEngine.call)
    (orderId : Z) :
  orderId ∈ (BacktestExecutionEngine.run cs1
               (BacktestExecutionEngine.init commisionRate marketImpact
                  refData)).2 ->
  BacktestExecutionEngine.queryOrder orderId
    (BacktestExecutionEngine.run cs2
       (BacktestExecutionEngine.run cs1
          (BacktestExecutionEngine.init commisionRate marketImpact
             refData)).1).1
  = BacktestExecutionEngine.queryOrder orderId
      (BacktestExecutionEngine.run cs1
         (BacktestExecutionEngine.init commisionRate marketImpact refData)).1
  /\ exists order,
       BacktestExecutionEngine.executedOrders
         (BacktestExecutionEngine.run cs1
            (BacktestExecutionEngine.init commisionRate marketImpact
               refData)).1 !! orderId = Some order
       /\ BacktestExecutionEngine.executedOrders
            (BacktestExecutionEngine.run cs2
               (BacktestExecutionEngine.run cs1
                  (BacktestExecutionEngine.init commisionRate marketImpact
                     refData)).1).1 !! orderId = Some order.
Proof.
  intros Hin.
  destruct (engine_run cs1
              (BacktestExecutionEngine.init commisionRate marketImpact
                 refData)) as (Hids & Hnext & _).
  rewrite Hids in Hin. apply elem_of_seqZ in Hin. cbn in Hin.
  set (e1 := (BacktestExecutionEngine.run cs1
                (BacktestExecutionEngine.init commisionRate marketImpact
                   refData)).1) in *.
  destruct (engine_run cs2 e1) as (_ & _ & Hkeep & Href & Himp & Hrate).
  split.
  - unfold BacktestExecutionEngine.queryOrder.
    rewrite Hkeep, Href, Himp, Hrate by (cbn in Hnext; lia). reflexivity.
  - assert (Hdom : orderId ∈ dom (BacktestExecutionEngine.executedOrders e1)).
    { subst e1. rewrite run_executedOrders. cbn. rewrite dom_empty_L.
      rewrite Hids. apply elem_of_union_r, elem_of_list_to_set.
      apply elem_of_seqZ. exact Hin. }
    apply elem_of_dom in Hdom as [order Horder].
    exists order. split; [exact Horder|].
    rewrite Hkeep by (cbn in Hnext; lia). exact Horder.
Qed.

Lemma placed_order_stays_queryable_witness :
  BacktestExecutionEngine.queryOrder 1
    (BacktestExecutionEngine.run
       [BacktestExecutionEngine.PlaceOrder (Order.new "Y" Order.SELL 5 20)]
       (BacktestExecutionEngine.run
          [BacktestExecutionEngine.PlaceOrder (Order.new "X" Order.BUY 100 10)]
          (BacktestExecutionEngine.init (3 # 10000) 2 baseRefData)).1).1
  = BacktestExecutionEngine.queryOrder 1
      (BacktestExecutionEngine.run
         [BacktestExecutionEngine.PlaceOrder (Order.new "X" Order.BUY 100 10)]
         (BacktestExecutionEngine.init (3 # 10000) 2 baseRefData)).1.
Proof.
  apply (proj1 (placed_order_stays_queryable (3 # 10000) 2 baseRefData
           [BacktestExecutionEngine.PlaceOrder (Order.new "X" Order.BUY 100 10)]
           [BacktestExecutionEngine.PlaceOrder (Order.new "Y" Order.SELL 5 20)]
           1 ltac:(cbn; apply list_elem_of_here))).
Defined.

(** X9.  A placement whose reference data lookup fails still takes an id:
    when [getTickSize] raises for the instrument of the order, [placeOrder]
    raises the same exception, the order is stored under the id taken,
    the next id is one more, and a later [queryOrder] of that id raises the
    same exception again rather than the unknown-order one. *)
Theorem failed_placement_takes_an_id (self : BacktestExecutionEngine.t)
    (order : Order.t) (e : exn) :
  getTickSize (BacktestExecutionEngine.refData self) (Order.secId order)
    = Raise e ->
  (BacktestExecutionEngine.placeOrder order self).1 = Raise e
  /\ BacktestExecutionEngine.executedOrders
       (BacktestExecutionEngine.placeOrder order self).2
       !! BacktestExecutionEngine.nextId self = Some order
  /\ BacktestExecutionEngine.nextId
       (BacktestExecutionEngine.placeOrder order self).2
     = BacktestExecutionEngine.nextId self + 1
  /\ BacktestExecutionEngine.queryOrder (BacktestExecutionEngine.nextId self)
       (BacktestExecutionEngine.placeOrder order self).2 = Raise e.
Proof.
  intros Htick.
  assert (Hq : BacktestExecutionEngine.queryOrder
                 (BacktestExecutionEngine.nextId self)
                 (BacktestExecutionEngine.placeOrder order self).2 = Raise e).
  { unfold BacktestExecutionEngine.queryOrder,
      BacktestExecutionEngine.placeOrder. cbn.
    now rewrite lookup_insert_eq, Htick. }
  split; [|split; [|split]].
  - unfold BacktestExecutionEngine.placeOrder in *. cbn in *. now rewrite Hq.
  - cbn. apply lookup_insert_eq.
  - reflexivity.
  - exact Hq.
Qed.

Lemma failed_placement_takes_an_id_witness :
  (BacktestExecutionEngine.placeOrder (Order.new "IF1706" Order.BUY 1 3500)
     (BacktestExecutionEngine.init (3 # 10000) 2
        (futuresRefData [mkFuturesRecord "IC1706" (1 # 5) 200]))).1
  = Raise (NoRecordFound "IF1706").
Proof.
  apply (failed_placement_takes_an_id
           (BacktestExecutionEngine.init (3 # 10000) 2
              (futuresRefData [mkFuturesRecord "IC1706" (1 # 5) 200]))
           (Order.new "IF1706" Order.BUY 1 3500) (NoRecordFound "IF1706")).
  reflexivity.
Defined.

(** ** execution/order.py: negating a side *)

(** X10.  [negateSide] is its own inverse where it is defined: it maps
    BUY to SELL, SELL to BUY and UNKNOWN to itself, so the result is the
    opposite number and negating it gives the side back; any other value
    raises. *)
Theorem negateSide_involution (side : Z) :
  (forall side', OrderMethods.negateSide side = inr side' ->
     side' = - side /\ OrderMethods.negateSide side' = inr side)
  /\ (OrderMethods.negateSide side = inl OrderMethods.MalformedSideInformation
      <-> side <> Order.BUY /\ side <> Order.SELL /\ side <> Order.UNKNOWN).
Proof.
  unfold OrderMethods.negateSide, Order.BUY, Order.SELL, Order.UNKNOWN.
  split.
  - intros side' H.
    destruct (decide (side = 1)) as [->|];
      [|destruct (decide (side = -1)) as [->|];
        [|destruct (decide (side = 0)) as [->|]; [|discriminate]]];
      injection H as <-; split; reflexivity.
  - repeat destruct (decide _); split; try discriminate; try lia;
      try reflexivity; intros (? & ? & ?); contradiction.
Qed.

Lemma negateSide_involution_witness :
  OrderMethods.negateSide Order.SELL = inr Order.BUY
  /\ OrderMethods.negateSide 2
     = inl OrderMethods.MalformedSideInformation.
Proof.
  split.
  - exact (proj2 (proj1 (negateSide_involution Order.BUY) Order.SELL
                    eq_refl)).
  - apply (proj2 (negateSide_involution 2)). repeat split; discriminate.
Defined.

(** ** datafeed/stockDataPublisher.py: the topic index *)

Lemma lookup_addTopics (s : Subscriber) (topics : list string)
    (index : gmap string (gset Subscriber)) (topic : string) :
  StockDataPublisher.addTopics s topics index !! topic
  = if decide (topic ∈ topics)
    then Some (default ∅ (index !! topic) ∪ {[s]})
    else index !! topic.
Proof.
  revert index. induction topics as [|t rest IH]; intros index; cbn.
  - rewrite decide_False; [reflexivity|apply not_elem_of_nil].
  - rewrite IH. clear IH.
    set (index1 := if decide (t ∈ dom index) then index
                   else <[t := ∅]> index).
    assert (H1 : forall k, default ∅ (index1 !! k) = default ∅ (index !! k)).
    { intros k. subst index1. destruct (decide (t ∈ dom index)) as [|Hn];
        [reflexivity|].
      destruct (decide (t = k)) as [<-|Hne].
      - rewrite lookup_insert_eq. apply not_elem_of_dom in Hn. now rewrite Hn.
      - now rewrite lookup_insert_ne. }
    assert (H1' : forall k, k <> t -> index1 !! k = index !! k).
    { intros k Hk. subst index1. destruct (decide (t ∈ dom index));
        [reflexivity|]. now rewrite lookup_insert_ne. }
    rewrite lookup_total_alt.
    destruct (decide (topic = t)) as [->|Hne].
    + rewrite lookup_insert_eq. rewrite (decide_True (P := t ∈ t :: rest))
        by apply list_elem_of_here.
      change inhabitant with (∅ : gset Subscriber). rewrite H1.
      destruct (decide (t ∈ rest)); cbn; f_equal. set_solver.
    + rewrite lookup_insert_ne by congruence. rewrite H1' by assumption.
      destruct (decide (topic ∈ rest)) as [Hin|Hnin].
      * rewrite decide_True by now right. reflexivity.
      * rewrite decide_False; [reflexivity|].
        intros Hin. apply elem_of_cons in Hin as [?|?]; contradiction.
Qed.

Lemma removeTopics_indexed (s : Subscriber) (topics : list string)
    (index : gmap string (gset Subscriber)) :
  (forall topic, topic ∈ topics -> is_Some (index !! topic)) ->
  exists index',
    StockDataPublisher.removeTopics s topics index = (Ok tt [], index')
    /\ forall topic,
         index' !! topic
         = if decide (topic ∈ topics)
           then (fun subs => subs ∖ {[s]}) <$> index !! topic
           else index !! topic.
Proof.
  revert index. induction topics as [|t rest IH]; intros index Hall; cbn.
  - exists index. split; [reflexivity|]. intros topic.
    rewrite decide_False; [reflexivity|apply not_elem_of_nil].
  - destruct (Hall t (list_elem_of_here _ _)) as [subs Hsubs]. rewrite Hsubs.
    destruct (IH (<[t := subs ∖ {[s]}]> index)) as (index' & Hrun & Hlook).
    { intros topic Hin. destruct (decide (t = topic)) as [<-|Hne].
      - rewrite lookup_insert_eq. eauto.
      - rewrite lookup_insert_ne by assumption. apply Hall. now right. }
    exists index'. split; [exact Hrun|]. intros topic. rewrite Hlook.
    destruct (decide (topic = t)) as [->|Hne].
    + rewrite lookup_insert_eq, Hsubs.
      rewrite (decide_True (P := t ∈ t :: rest)) by apply list_elem_of_here.
      destruct (decide (t ∈ rest)); cbn; f_equal. set_solver.
    + rewrite lookup_insert_ne by congruence.
      destruct (decide (topic ∈ rest)) as [Hin|Hnin].
      * rewrite decide_True by now right. reflexivity.
      * rewrite decide_False; [reflexivity|].
        intros Hin. apply elem_of_cons in Hin as [?|?]; contradiction.
Qed.

Lemma publisher_consistent_init : publisher_consistent StockDataPublisher.init.
Proof.
  split; [|split]; cbn.
  - intros id s topic H. now rewrite lookup_empty in H.
  - intros topic subs s H. now rewrite lookup_empty in H.
  - intros id [s H]. now rewrite lookup_empty in H.
Qed.

Lemma publisher_consistent_add (s : option Subscriber)
    (p : StockDataPublisher.t) :
  publisher_consistent p ->
  publisher_consistent (StockDataPublisher.addSubscriber s p).2.
Proof.
  intros (Hkeys & Hsets & Hids). destruct s as [s|]; cbn; [|now split].
  split; [|split]; cbn.
  - intros id s' topic Hs' Htopic. rewrite lookup_addTopics.
    destruct (decide (topic ∈ getSubscribedTopics s)); [eauto|].
    destruct (decide (StockDataPublisher.nextId p = id)) as [<-|Hne].
    + rewrite lookup_insert_eq in Hs'. injection Hs' as <-. contradiction.
    + rewrite lookup_insert_ne in Hs' by assumption. eauto.
  - intros topic subs s' Hsubs Hs'. rewrite lookup_addTopics in Hsubs.
    assert (Hold : forall subs0,
              StockDataPublisher.topicsToSubscribers p !! topic = Some subs0 ->
              s' ∈ subs0 ->
              topic ∈ getSubscribedTopics s'
              /\ exists id,
                   <[StockDataPublisher.nextId p := s]>
                     (StockDataPublisher.subscribers p) !! id = Some s').
    { intros subs0 H0 Hin. destruct (Hsets _ _ _ H0 Hin) as [Ht [id Hid]].
      split; [exact Ht|]. exists id. rewrite lookup_insert_ne; [exact Hid|].
      intros <-. specialize (Hids _ (ex_intro _ _ Hid)). lia. }
    destruct (decide (topic ∈ getSubscribedTopics s)) as [Hin|Hnin].
    + injection Hsubs as <-. apply elem_of_union in Hs' as [Hs'|Hs'].
      * destruct (StockDataPublisher.topicsToSubscribers p !! topic)
          as [subs0|] eqn:H0; cbn in Hs'; [now apply (Hold subs0)|].
        now apply elem_of_empty in Hs'.
      * apply elem_of_singleton in Hs' as ->. split; [exact Hin|].
        exists (StockDataPublisher.nextId p). apply lookup_insert_eq.
    + now apply (Hold subs).
  - intros id [s' Hs'].
    destruct (decide (StockDataPublisher.nextId p = id)) as [<-|Hne]; [lia|].
    rewrite lookup_insert_ne in Hs' by assumption.
    specialize (Hids _ (ex_intro _ _ Hs')). lia.
Qed.

(** Removing a registered id from a consistent publisher succeeds and
    keeps it consistent. *)
Lemma publisher_consistent_remove (id : Z) (p : StockDataPublisher.t) :
  publisher_consistent p ->
  publisher_consistent (StockDataPublisher.removeSubscriber id p).2
  /\ forall s,
       StockDataPublisher.subscribers p !! id = Some s ->
       exists index',
         StockDataPublisher.removeSubscriber id p
         = (Ok tt [],
            {| StockDataPublisher.subscribers :=
                 delete id (StockDataPublisher.subscribers p);
               StockDataPublisher.topicsToSubscribers := index';
               StockDataPublisher.nextId := StockDataPublisher.nextId p |})
         /\ forall topic,
              index' !! topic
              = if decide (topic ∈ getSubscribedTopics s)
                then (fun subs => subs ∖ {[s]})
                       <$> StockDataPublisher.topicsToSubscribers p !! topic
                else StockDataPublisher.topicsToSubscribers p !! topic.
Proof.
  intros Hcons. pose proof Hcons as (Hkeys & Hsets & Hids).
  unfold StockDataPublisher.removeSubscriber.
  destruct (StockDataPublisher.subscribers p !! id) as [s|] eqn:Hs;
    [|split; [exact Hcons|discriminate]].
  destruct (removeTopics_indexed s (getSubscribedTopics s)
              (StockDataPublisher.topicsToSubscribers p))
    as (index' & Hrun & Hlook).
  { intros topic Hin. eapply Hkeys; eassumption. }
  rewrite Hrun. split.
  - split; [|split]; cbn.
    + intros id' s' topic Hs' Htopic.
      apply lookup_delete_Some in Hs' as [Hne Hs'].
      rewrite Hlook. destruct (Hkeys _ _ _ Hs' Htopic) as [subs Hsubs].
      rewrite Hsubs. destruct (decide _); cbn; eauto.
    + intros topic subs s' Hsubs Hs'. rewrite Hlook in Hsubs.
      destruct (decide (topic ∈ getSubscribedTopics s)) as [Hin|Hnin].
      * destruct (StockDataPublisher.topicsToSubscribers p !! topic)
          as [subs0|] eqn:H0; [|discriminate].
        injection Hsubs as <-.
        apply elem_of_difference in Hs' as [Hs' Hne].
        destruct (Hsets _ _ _ H0 Hs') as [Ht [id' Hid']].
        split; [exact Ht|]. exists id'. rewrite lookup_delete_ne; [exact Hid'|].
        intros <-. rewrite Hs in Hid'. injection Hid' as <-.
        apply Hne. now apply elem_of_singleton.
      * destruct (Hsets _ _ _ Hsubs Hs') as [Ht [id' Hid']].
        split; [exact Ht|]. exists id'. rewrite lookup_delete_ne; [exact Hid'|].
        intros <-. rewrite Hs in Hid'. injection Hid' as <-. contradiction.
    + intros id' [s' Hs']. apply lookup_delete_Some in Hs' as [_ Hs'].
      apply Hids. eauto.
  - intros s0 [= <-]. exists index'. split; [reflexivity|exact Hlook].
Qed.

Lemma publisher_consistent_run (cs : list StockDataPublisher.call)
    (p : StockDataPublisher.t) :
  publisher_consistent p ->
  publisher_consistent (StockDataPublisher.run cs p).1.
Proof.
  revert p. induction cs as [|c cs IH]; intros p Hp; [exact Hp|].
  cbn. destruct c as [s|id]; cbn.
  - pose proof (publisher_consistent_add s p Hp) as Hadd.
    destruct (StockDataPublisher.addSubscriber s p) as [subId p1]. cbn in Hadd.
    specialize (IH p1 Hadd).
    destruct (StockDataPublisher.run cs p1) as [p2 ids]. exact IH.
  - pose proof (proj1 (publisher_consistent_remove id p Hp)) as Hrm.
    specialize (IH _ Hrm).
    destruct (StockDataPublisher.run cs _) as [p2 ids]. exact IH.
Qed.

(** X11.  The publisher keeps its two maps consistent over any sequence of
    registration calls from the fresh state: every topic of a registered
    subscriber is a key of the topic index, and every subscriber found
    under a topic subscribes to that topic and is registered under some
    id. *)
Theorem publisher_maps_stay_consistent (cs : list StockDataPublisher.call) :
  publisher_consistent
    (StockDataPublisher.run cs StockDataPublisher.init).1.
Proof. apply publisher_consistent_run, publisher_consistent_init. Qed.

(** X12.  [removeSubscriber] never fails on a registered id: after any
    sequence of registration calls, removing an id that is in the id map
    returns normally (the topic lookups of its loop find their keys) and
    deletes exactly that id; an id that is not in the map raises, and the
    publisher is unchanged. *)
Theorem removeSubscriber_registered_succeeds
    (cs : list StockDataPublisher.call) (subscriberId : Z) :
  (is_Some (StockDataPublisher.subscribers
              (StockDataPublisher.run cs StockDataPublisher.init).1
              !! subscriberId) ->
   exists self',
     StockDataPublisher.removeSubscriber subscriberId
       (StockDataPublisher.run cs StockDataPublisher.init).1
     = (Ok tt [], self')
     /\ StockDataPublisher.subscribers self'
        = delete subscriberId
            (StockDataPublisher.subscribers
               (StockDataPublisher.run cs StockDataPublisher.init).1))
  /\ (StockDataPublisher.subscribers
        (StockDataPublisher.run cs StockDataPublisher.init).1
        !! subscriberId = None ->
      StockDataPublisher.removeSubscriber subscriberId
        (StockDataPublisher.run cs StockDataPublisher.init).1
      = (Raise RequestedSubscriberDoesNotExist,
         (StockDataPublisher.run cs StockDataPublisher.init).1)).
Proof.
  split.
  - intros [s Hs].
    destruct (proj2 (publisher_consistent_remove subscriberId _
                       (publisher_consistent_run cs _
                          publisher_consistent_init)) s Hs)
      as (index' & Hrun & _).
    eexists. split; [exact Hrun|reflexivity].
  - intros Hs. unfold StockDataPublisher.removeSubscriber. now rewrite Hs.
Qed.

Lemma removeSubscriber_registered_succeeds_witness :
  exists self',
    StockDataPublisher.removeSubscriber 1
      (StockDataPublisher.run
         [StockDataPublisher.AddSubscriber
            (Some (mkSubscriber 0 ["600000"; "000001"]%string None))]
         StockDataPublisher.init).1
    = (Ok tt [], self')
    /\ StockDataPublisher.subscribers self' = ∅.
Proof.
  destruct (proj1 (removeSubscriber_registered_succeeds
              [StockDataPublisher.AddSubscriber
                 (Some (mkSubscriber 0 ["600000"; "000001"]%string None))] 1)
              ltac:(vm_compute; eauto))
    as (self' & Hrun & Hsubs).
  exists self'. split; [exact Hrun|]. rewrite Hsubs. vm_compute. reflexivity.
Defined.

(** ** datafeed/stockDataPublisher.py: [notifyAll] *)

Lemma elem_of_topic_union (index : gmap string (gset Subscriber))
    (secIds : list string) (s : Subscriber) :
  s ∈ foldr (fun secId acc => acc ∪ default ∅ (index !! secId)) ∅ secIds
  <-> exists secId subs,
        secId ∈ secIds /\ index !! secId = Some subs /\ s ∈ subs.
Proof.
  induction secIds as [|k rest IH]; cbn.
  - split; [intros H; now apply elem_of_empty in H|].
    intros (? & ? & H & _). now apply elem_of_nil in H.
  - rewrite elem_of_union, IH. split.
    + intros [(secId & subs & Hin & Hl & Hs)|Hs].
      * exists secId, subs. split; [now right|auto].
      * destruct (index !! k) as [subs|] eqn:Hk; cbn in Hs;
          [|now apply elem_of_empty in Hs].
        exists k, subs. split; [left|auto].
    + intros (secId & subs & Hin & Hl & Hs).
      apply elem_of_cons in Hin as [->|Hin].
      * right. now rewrite Hl.
      * left. eauto.
Qed.

Lemma elem_of_notifyAll {Data : Type} (index : Data -> gset string)
    (data d : Data) (p : StockDataPublisher.t) (s : Subscriber) :
  (s, d) ∈ StockDataPublisher.notifyAll index data p
  <-> d = data
      /\ exists topic subs,
           topic ∈ index data
           /\ StockDataPublisher.topicsToSubscribers p !! topic = Some subs
           /\ s ∈ subs.
Proof.
  unfold StockDataPublisher.notifyAll. rewrite list_elem_of_fmap.
  setoid_rewrite elem_of_elements. setoid_rewrite elem_of_topic_union.
  setoid_rewrite elem_of_elements. split.
  - intros (s' & [= -> ->] & H). auto.
  - intros [-> H]. eauto.
Qed.

(** X13.  After any sequence of registration calls, [notifyAll] hands the
    data to no subscriber twice, and only to subscribers that are
    registered under some id and subscribe to an instrument of the data;
    it reaches every subscriber found in the index under an instrument of
    the data. *)
Theorem notifyAll_reaches_subscribed {Data : Type}
    (cs : list StockDataPublisher.call) (index : Data -> gset string)
    (data : Data) :
  NoDup (StockDataPublisher.notifyAll index data
           (StockDataPublisher.run cs StockDataPublisher.init).1).*1
  /\ (forall s d,
        (s, d) ∈ StockDataPublisher.notifyAll index data
                   (StockDataPublisher.run cs StockDataPublisher.init).1 ->
        d = data
        /\ (exists id,
              StockDataPublisher.subscribers
                (StockDataPublisher.run cs StockDataPublisher.init).1 !! id
              = Some s)
        /\ exists topic, topic ∈ index data /\ topic ∈ getSubscribedTopics s)
  /\ (forall topic subs s,
        topic ∈ index data ->
        StockDataPublisher.topicsToSubscribers
          (StockDataPublisher.run cs StockDataPublisher.init).1 !! topic
        = Some subs ->
        s ∈ subs ->
        (s, data) ∈ StockDataPublisher.notifyAll index data
                      (StockDataPublisher.run cs StockDataPublisher.init).1).
Proof.
  pose proof (publisher_consistent_run cs _ publisher_consistent_init)
    as (_ & Hsets & _).
  split; [|split].
  - unfold StockDataPublisher.notifyAll.
    assert (Hfst : forall l : list Subscriber,
              ((fun s => (s, data)) <$> l).*1 = l).
    { induction l as [|x l IH]; [reflexivity|]. csimpl. now rewrite IH. }
    rewrite Hfst. apply NoDup_elements.
  - intros s d Hin. apply elem_of_notifyAll in Hin
      as (-> & topic & subs & Ht & Hsubs & Hs).
    destruct (Hsets _ _ _ Hsubs Hs) as [Htopic Hid].
    split; [reflexivity|]. split; [exact Hid|].
    exists topic. split; assumption.
  - intros topic subs s Ht Hsubs Hs. apply elem_of_notifyAll.
    split; [reflexivity|]. exists topic, subs. auto.
Qed.

Lemma notifyAll_reaches_subscribed_witness :
  (mkSubscriber 0 ["600000"%string] None, tt)
  ∈ StockDataPublisher.notifyAll (fun _ : unit => {[ "600000"%string ]}) tt
      (StockDataPublisher.run
         [StockDataPublisher.AddSubscriber
            (Some (mkSubscriber 0 ["600000"%string] None))]
         StockDataPublisher.init).1.
Proof.
  apply (proj2 (proj2 (notifyAll_reaches_subscribed
                  [StockDataPublisher.AddSubscriber
                     (Some (mkSubscriber 0 ["600000"%string] None))]
                  (fun _ : unit => {[ "600000"%string ]}) tt))
           "600000"%string {[ mkSubscriber 0 ["600000"%string] None ]}).
  - now apply elem_of_singleton.
  - vm_compute. reflexivity.
  - now apply elem_of_singleton.
Defined.

(** X14.  A subscriber registered under two ids loses its broadcasts with
    the first removal: after any sequence of registration calls, if the
    same subscriber is registered under two different ids and one of them
    is removed, [notify] on the other id still reaches it, but no
    [notifyAll] does. *)
Theorem double_registration_loses_broadcast {Data : Type}
    (cs : list StockDataPublisher.call) (i j : Z) (s : Subscriber) :
  i <> j ->
  StockDataPublisher.subscribers
    (StockDataPublisher.run cs StockDataPublisher.init).1 !! i = Some s ->
  StockDataPublisher.subscribers
    (StockDataPublisher.run cs StockDataPublisher.init).1 !! j = Some s ->
  exists self',
    StockDataPublisher.removeSubscriber i
      (StockDataPublisher.run cs StockDataPublisher.init).1
    = (Ok tt [], self')
    /\ (forall data : Data,
          StockDataPublisher.notify j data self' = Ok (s, data) [])
    /\ (forall (index : Data -> gset string) (data d : Data),
          (s, d) ∉ StockDataPublisher.notifyAll index data self').
Proof.
  intros Hij Hi Hj.
  pose proof (publisher_consistent_run cs _ publisher_consistent_init)
    as Hcons.
  destruct (proj2 (publisher_consistent_remove i _ Hcons) s Hi)
    as (index' & Hrun & Hlook).
  destruct Hcons as (_ & Hsets & _).
  eexists. split; [exact Hrun|]. split.
  - intros data. unfold StockDataPublisher.notify. cbn.
    now rewrite lookup_delete_ne, Hj.
  - intros index data d Hin.
    apply elem_of_notifyAll in Hin as (_ & topic & subs & _ & Hsubs & Hs).
    cbn in Hsubs. rewrite Hlook in Hsubs.
    destruct (decide (topic ∈ getSubscribedTopics s)) as [Ht|Ht].
    + destruct (StockDataPublisher.topicsToSubscribers _ !! topic)
        as [subs0|]; [|discriminate].
      injection Hsubs as <-. set_solver.
    + destruct (Hsets _ _ _ Hsubs Hs) as [Ht' _]. contradiction.
Qed.

Lemma double_registration_loses_broadcast_witness :
  exists self',
    StockDataPublisher.removeSubscriber 1
      (StockDataPublisher.run
         [StockDataPublisher.AddSubscriber
            (Some (mkSubscriber 0 ["600000"%string] None));
          StockDataPublisher.AddSubscriber
            (Some (mkSubscriber 0 ["600000"%string] None))]
         StockDataPublisher.init).1
    = (Ok tt [], self')
    /\ StockDataPublisher.notify 2 tt self'
       = Ok (mkSubscriber 0 ["600000"%string] None, tt) []
    /\ StockDataPublisher.notifyAll (fun _ : unit => {[ "600000"%string ]})
         tt self' = [].
Proof.
  destruct (double_registration_loses_broadcast (Data := unit)
              [StockDataPublisher.AddSubscriber
                 (Some (mkSubscriber 0 ["600000"%string] None));
               StockDataPublisher.AddSubscriber
                 (Some (mkSubscriber 0 ["600000"%string] None))]
              1 2 (mkSubscriber 0 ["600000"%string] None)
              ltac:(lia) ltac:(vm_compute; reflexivity)
              ltac:(vm_compute; reflexivity))
    as (self' & Hrun & Hnotify & _).
  exists self'. split; [exact Hrun|]. split; [apply Hnotify|].
  vm_compute in Hrun. injection Hrun as <-. vm_compute. reflexivity.
Defined.

(** ** The field union, and the portfolio's routing *)

Lemma foldl_updateFields_None (subscribers : list Subscriber) :
  foldl updateFields None subscribers = None.
Proof.
  induction subscribers as [|s rest IH]; [reflexivity|]. cbn.
  unfold updateFields at 2. destruct (getSubscribedDataFields s); exact IH.
Qed.

Lemma foldl_updateFields (subscribers : list Subscriber)
    (fields : gset string) :
  (foldl updateFields (Some fields) subscribers = None
   <-> exists s, s ∈ subscribers /\ getSubscribedDataFields s = None)
  /\ (forall all, foldl updateFields (Some fields) subscribers = Some all ->
        forall x, x ∈ all <->
          x ∈ fields
          \/ exists s f, s ∈ subscribers
                         /\ getSubscribedDataFields s = Some f /\ x ∈ f).
Proof.
  revert fields. induction subscribers as [|s rest IH]; intros fields; cbn.
  - split.
    + split; [discriminate|]. intros (s & H & _). now apply elem_of_nil in H.
    + intros all [= <-] x. split; [now left|].
      intros [H|(s & f & H & _)]; [exact H|now apply elem_of_nil in H].
  - unfold updateFields at 2 4.
    destruct (getSubscribedDataFields s) as [f|] eqn:Hf.
    + destruct (IH (fields ∪ list_to_set f)) as [IHn IHs]. split.
      * rewrite IHn. split.
        -- intros (s' & Hin & Hs'). exists s'. split; [now right|exact Hs'].
        -- intros (s' & Hin & Hs'). apply elem_of_cons in Hin as [->|Hin];
             [congruence|eauto].
      * intros all Hall x. rewrite (IHs all Hall x), elem_of_union,
          elem_of_list_to_set. split.
        -- intros [[H|H]|(s' & f' & Hin & Hs' & Hx)].
           ++ now left.
           ++ right. exists s, f. split; [left|auto].
           ++ right. exists s', f'. split; [now right|auto].
        -- intros [H|(s' & f' & Hin & Hs' & Hx)]; [now left; left|].
           apply elem_of_cons in Hin as [->|Hin].
           ++ left. right. congruence.
           ++ right. eauto.
    + rewrite foldl_updateFields_None. split.
      * split; [|reflexivity]. intros _. exists s. split; [left|exact Hf].
      * discriminate.
Qed.

(** X15.  The field-union loop of [connect] and [onRtnRspLogin] ends with
    "all fields" exactly when some subscriber asks for all fields, whatever
    the others ask for; otherwise it ends with the union of the fields the
    subscribers ask for. *)
Theorem subscribedFields_policy (subscribers : list Subscriber) :
  (subscribedFields subscribers = None
   <-> exists s, s ∈ subscribers /\ getSubscribedDataFields s = None)
  /\ (forall all, subscribedFields subscribers = Some all ->
        forall x, x ∈ all <->
          exists s f, s ∈ subscribers
                      /\ getSubscribedDataFields s = Some f /\ x ∈ f).
Proof.
  destruct (foldl_updateFields subscribers ∅) as [Hn Hs].
  split; [exact Hn|]. intros all Hall x. rewrite (Hs all Hall x).
  split; [intros [H|H]; [now apply elem_of_empty in H|exact H]|now right].
Qed.

Lemma subscribedFields_policy_witness :
  subscribedFields [mkSubscriber 0 [] (Some ["PRICE"%string]);
                    mkSubscriber 1 [] None;
                    mkSubscriber 2 [] (Some ["VOLUME"%string])] = None.
Proof.
  apply (proj1 (subscribedFields_policy _)).
  exists (mkSubscriber 1 [] None). split; [|reflexivity].
  apply list_elem_of_further, list_elem_of_here.
Defined.



Lemma portfolioOf_snoc (strategies : list Subscriber) (s : Subscriber) :
  portfolioOf (strategies ++ [s])
  = Portfolio.addStrategy s (portfolioOf strategies).
Proof. unfold portfolioOf. now rewrite foldl_app. Qed.

Lemma portfolioOf_index (strategies : list Subscriber) (topic : string)
    (s : Subscriber) :
  s ∈ default ∅ (Portfolio.topicsToSubscribers (portfolioOf strategies)
                   !! topic)
  <-> s ∈ strategies /\ topic ∈ getSubscribedTopics s.
Proof.
  induction strategies as [|s' rest IH] using rev_ind.
  - cbn. rewrite lookup_empty. cbn. split.
    + intros H. now apply elem_of_empty in H.
    + intros [H _]. now apply elem_of_nil in H.
  - rewrite portfolioOf_snoc. cbn. rewrite lookup_addTopics.
    rewrite elem_of_app, list_elem_of_singleton.
    destruct (decide (topic ∈ getSubscribedTopics s')) as [Ht|Ht]; cbn.
    + rewrite elem_of_union, elem_of_singleton, IH. split.
      * intros [[? ?]| ->]; auto.
      * intros [[?| ->] ?]; auto.
    + rewrite IH. split.
      * intros [? ?]; auto.
      * intros [[?| ->] ?]; [auto|contradiction].
Qed.

(** X17.  Topic routing in the portfolio: for the portfolio built by
    adding a list of strategies, the subscribers on a list of topics are
    exactly the added strategies that subscribe to one of these topics,
    and the strategy list is the list added, in order. *)
Theorem portfolio_routes_by_topic (strategies : list Subscriber)
    (topics : list string) (s : Subscriber) :
  (s ∈ Portfolio.getSubscribersOnTopics topics (portfolioOf strategies)
   <-> s ∈ strategies
       /\ exists topic, topic ∈ topics /\ topic ∈ getSubscribedTopics s)
  /\ Portfolio.strategies (portfolioOf strategies) = strategies.
Proof.
  split.
  - unfold Portfolio.getSubscribersOnTopics.
    assert (Hfold : forall (acc : gset Subscriber),
              s ∈ foldl (fun subscribers topic =>
                           subscribers
                           ∪ default ∅
                               (Portfolio.topicsToSubscribers
                                  (portfolioOf strategies) !! topic))
                    acc topics
              <-> s ∈ acc
                  \/ (s ∈ strategies
                      /\ exists topic,
                           topic ∈ topics /\ topic ∈ getSubscribedTopics s)).
    { induction topics as [|t rest IH]; intros acc; cbn.
      - split; [now left|]. intros [H|(_ & t & H & _)]; [exact H|].
        now apply elem_of_nil in H.
      - rewrite IH, elem_of_union, portfolioOf_index. split.
        + intros [[H|[H1 H2]]|(H1 & t' & H2 & H3)].
          * now left.
          * right. split; [exact H1|]. exists t. split; [left|exact H2].
          * right. split; [exact H1|]. exists t'. split; [now right|exact H3].
        + intros [H|(H1 & t' & H2 & H3)]; [now left; left|].
          apply elem_of_cons in H2 as [->|H2].
          * left. right. auto.
          * right. split; [exact H1|]. exists t'. auto. }
    rewrite Hfold. split; [intros [H|H]; [now apply elem_of_empty in H|exact H]
                          |now right].
  - induction strategies as [|s' rest IH] using rev_ind; [reflexivity|].
    rewrite portfolioOf_snoc. cbn. now rewrite IH.
Qed.

(** ** datafeed/backtestEngine.py: who receives the replay *)

Lemma elem_of_perform {Date Time Payload : Type}
    (self : BacktestDataPublisher.t)
    (c : @BacktestDataPublisher.Call Date Time Payload)
    (e : @BacktestDataPublisher.Event Date Time Payload) :
  e ∈ BacktestDataPublisher.perform self c ->
  BacktestDataPublisher.subscribers self !! BacktestDataPublisher.subId e
  = Some (BacktestDataPublisher.subscriber e).
Proof.
  destruct c as [d|b]; cbn; [|unfold BacktestDataPublisher.notifyAll;
                               destruct (decide _);
                               [|intros H; now apply elem_of_nil in H]];
    unfold BacktestDataPublisher.openMarket;
    rewrite list_elem_of_fmap; intros ([id s] & -> & Hin); cbn;
    now apply elem_of_map_to_list.
Qed.

(** X18.  A replay reaches registered subscribers only: every subscriber
    call made by [connect] goes to the subscriber stored under an id of
    the id map; once [removeSubscriber( id )] has returned that
    subscriber, a later [connect] makes no call for the id and [notify] on
    the id raises. *)
Theorem replay_reaches_registered_only {Date Time Payload : Type}
    `{!EqDecision Date, !EqDecision Time}
    (dle : relation Date) `{!RelDecision dle}
    (tle : relation Time) `{!RelDecision tle}
    (datafeed : gset string -> Date -> Date
                -> list (@BacktestDataPublisher.Row Date Time Payload))
    (startDate endDate : Date) (self : BacktestDataPublisher.t) :
  (forall e,
     e ∈ BacktestDataPublisher.connect dle tle datafeed startDate endDate self
     -> BacktestDataPublisher.subscribers self
          !! BacktestDataPublisher.subId e
        = Some (BacktestDataPublisher.subscriber e))
  /\ (forall subscriberId s log self',
        BacktestSubscribers.removeSubscriber subscriberId self
          = (Ok s log, self') ->
        BacktestDataPublisher.subscribers self !! subscriberId = Some s
        /\ (forall e,
              e ∈ BacktestDataPublisher.connect dle tle datafeed startDate
                    endDate self' ->
              BacktestDataPublisher.subId e <> subscriberId)
        /\ forall (Data : Type) (data : Data),
             BacktestSubscribers.notify subscriberId data self'
             = Raise (SubscriberDoesNotExist subscriberId)).
Proof.
  assert (Hall : forall p e,
            e ∈ BacktestDataPublisher.connect dle tle datafeed startDate
                  endDate p ->
            BacktestDataPublisher.subscribers p
              !! BacktestDataPublisher.subId e
            = Some (BacktestDataPublisher.subscriber e)).
  { intros p e He. unfold BacktestDataPublisher.connect in He.
    apply list_elem_of_bind in He as (c & He & _).
    now apply elem_of_perform in He. }
  split; [apply Hall|].
  intros subscriberId s log self' Hrm.
  unfold BacktestSubscribers.removeSubscriber in Hrm.
  destruct (BacktestDataPublisher.subscribers self !! subscriberId)
    as [s'|] eqn:Hs; [|discriminate].
  injection Hrm as -> _ <-. split; [reflexivity|]. split.
  - intros e He Heq. apply Hall in He. cbn in He.
    rewrite Heq, lookup_delete_eq in He. discriminate.
  - intros Data data. unfold BacktestSubscribers.notify. cbn.
    now rewrite lookup_delete_eq.
Qed.

Lemma replay_reaches_registered_only_witness :
  BacktestSubscribers.notify 1 tt
    (BacktestSubscribers.removeSubscriber 1
       (BacktestDataPublisher.addSubscriber (mkSubscriber 0 [] None)
          BacktestDataPublisher.init).2).2
  = Raise (SubscriberDoesNotExist 1).
Proof.
  exact (proj2 (proj2 (proj2 (replay_reaches_registered_only Z.le Z.le
                                (fun _ _ _ => sampleRows) 0 0
                                (BacktestDataPublisher.addSubscriber
                                   (mkSubscriber 0 [] None)
                                   BacktestDataPublisher.init).2)
                         1 (mkSubscriber 0 [] None) [] _ eq_refl))
           unit tt).
Defined.

(** ** util/calendar.py: the trading calendar *)

Lemma filter_lookup_Some {A} (P : A -> Prop) `{!forall x, Decision (P x)}
    (l : list A) (i : nat) (x : A) :
  filter P l !! i = Some x
  <-> exists before after,
        l = before ++ x :: after /\ P x /\ length (filter P before) = i.
Proof.
  revert i. induction l as [|y l IH]; intros i.
  - split; [intros E0; discriminate E0|].
    intros (b & a & E0 & _). destruct b; discriminate E0.
  - destruct (decide (P y)) as [Hy|Hy].
    + rewrite filter_cons_True by done. destruct i as [|i]; cbn.
      * split.
        -- intros [= ->]. exists [], l. auto.
        -- intros (b & a & E0 & Hx & Hlen).
           destruct b as [|z b]; cbn in E0; injection E0 as -> ->;
             [reflexivity|].
           rewrite filter_cons_True in Hlen by done. discriminate Hlen.
      * rewrite IH. split.
        -- intros (b & a & -> & Hx & Hlen). exists (y :: b), a.
           rewrite filter_cons_True by done. cbn. auto.
        -- intros (b & a & E0 & Hx & Hlen).
           destruct b as [|z b]; cbn in E0; injection E0 as -> ->;
             [discriminate Hlen|].
           rewrite filter_cons_True in Hlen by done. cbn in Hlen.
           exists b, a. auto.
    + rewrite filter_cons_False by done. rewrite IH. split.
      * intros (b & a & -> & Hx & Hlen). exists (y :: b), a.
        rewrite filter_cons_False by done. auto.
      * intros (b & a & E0 & Hx & Hlen).
        destruct b as [|z b]; cbn in E0; injection E0 as -> ->;
          [contradiction|].
        rewrite filter_cons_False in Hlen by done. eauto.
Qed.

Lemma filter_nil_iff {A} (P : A -> Prop) `{!forall x, Decision (P x)}
    (l : list A) :
  length (filter P l) = 0%nat <-> forall x, x ∈ l -> ~ P x.
Proof.
  rewrite length_zero_iff_nil. split.
  - intros E0 x Hx HP.
    assert (Hin : x ∈ filter P l) by now apply list_elem_of_filter.
    rewrite E0 in Hin. now apply elem_of_nil in Hin.
  - intros E0. destruct (filter P l) as [|x rest] eqn:E; [reflexivity|].
    assert (Hin : x ∈ filter P l) by (rewrite E; left).
    apply list_elem_of_filter in Hin as [HP Hin]. now apply E0 in Hin.
Qed.

(** X19.  [prevTradingDate( asOfDate, n )] for a positive [n]: it raises
    the "too early" error exactly when the calendar has no date before
    [asOfDate]; it returns [prevDate] exactly when [prevDate] is an entry
    of the calendar before [asOfDate] that is followed by [n - 1] entries
    before [asOfDate]; and with some, but fewer than [n], earlier dates the
    positional access fails with an index error instead. *)
Theorem prevTradingDate_counts_back (tradingDates : list string)
    (asOfDate : string) (n : Z) (Hn : 1 <= n) :
  (AShareTradingCalendar.prevTradingDate tradingDates asOfDate n
     = Raise (DateTooEarly asOfDate)
   <-> forall d, d ∈ tradingDates -> String.ltb d asOfDate = false)
  /\ (forall prevDate,
        AShareTradingCalendar.prevTradingDate tradingDates asOfDate n
          = Ok prevDate []
        <-> exists before after,
              tradingDates = before ++ prevDate :: after
              /\ String.ltb prevDate asOfDate = true
              /\ Z.of_nat (length (filter (fun d => String.ltb d asOfDate)
                                     after)) = n - 1)
  /\ (AShareTradingCalendar.prevTradingDate tradingDates asOfDate n
        = Raise IndexError
      <-> (exists d, d ∈ tradingDates /\ String.ltb d asOfDate = true)
          /\ Z.of_nat (length (filter (fun d => String.ltb d asOfDate)
                                 tradingDates)) < n).
Proof.
  unfold AShareTradingCalendar.prevTradingDate, AShareTradingCalendar.iloc.
  set (P := fun d : string => Is_true (String.ltb d asOfDate)).
  change (filter (fun d => String.ltb d asOfDate)) with (filter P).
  assert (Hempty : length (filter P tradingDates) = 0%nat
                   <-> forall d, d ∈ tradingDates
                                 -> String.ltb d asOfDate = false).
  { rewrite filter_nil_iff. unfold P. split; intros H d Hd.
    - specialize (H d Hd).
      destruct (String.ltb d asOfDate); [exfalso; apply H; exact I|reflexivity].
    - rewrite (H d Hd). exact id. }
  assert (Hsome : (0 < length (filter P tradingDates))%nat
                  <-> exists d, d ∈ tradingDates
                                /\ String.ltb d asOfDate = true).
  { split.
    - intros H. destruct (filter P tradingDates) as [|d rest] eqn:E;
        [cbn in H; lia|].
      assert (Hin : d ∈ filter P tradingDates) by (rewrite E; left).
      apply list_elem_of_filter in Hin as [HP Hin].
      exists d. split; [exact Hin|]. now apply Is_true_true.
    - intros (d & Hd & Hlt).
      destruct (Nat.eq_dec (length (filter P tradingDates)) 0%nat) as [E|E];
        [|lia].
      rewrite (proj1 Hempty E d Hd) in Hlt. discriminate. }
  assert (Hsplit : forall prevDate (i : nat),
            filter P tradingDates !! i = Some prevDate
            <-> exists before after,
                  tradingDates = before ++ prevDate :: after
                  /\ String.ltb prevDate asOfDate = true
                  /\ (length (filter P tradingDates)
                      = i + 1 + length (filter P after))%nat).
  { intros prevDate i. rewrite filter_lookup_Some. split.
    - intros (b & a & -> & HP & Hlen). exists b, a.
      split; [reflexivity|]. split; [now apply Is_true_true|].
      rewrite filter_app, filter_cons_True by exact HP.
      rewrite length_app. cbn. lia.
    - intros (b & a & -> & HP & Hlen). exists b, a.
      apply Is_true_true in HP.
      split; [reflexivity|]. split; [exact HP|].
      rewrite filter_app, filter_cons_True in Hlen by exact HP.
      rewrite length_app in Hlen. cbn in Hlen. lia. }
  destruct (decide (0 < length (filter P tradingDates))%nat) as [Hlen|Hlen].
  - assert (Hneg : (- n <? 0) = true) by (apply Z.ltb_lt; lia).
    rewrite Hneg.
    destruct (Z.ltb_spec (Z.of_nat (length (filter P tradingDates)) + - n) 0)
      as [Hshort|Hlong].
    + split; [|split].
      * split; [discriminate|]. intros H. apply (proj2 Hempty) in H. lia.
      * intros prevDate. split; [discriminate|].
        intros (b & a & -> & HP & Hcnt). exfalso.
        apply Is_true_true in HP.
        rewrite filter_app, filter_cons_True, length_app in Hshort
          by exact HP.
        cbn in Hshort. lia.
      * split; [|reflexivity]. intros _. split; [now apply Hsome|lia].
    + destruct (filter P tradingDates
                  !! Z.to_nat (Z.of_nat (length (filter P tradingDates))
                               + - n)) as [d|] eqn:Hd.
      * split; [|split].
        -- split; [discriminate|]. intros H. apply (proj2 Hempty) in H. lia.
        -- intros prevDate. unfold ret. split.
           ++ intros [= <-]. apply Hsplit in Hd as (b & a & E & HP & Hcnt).
              exists b, a. split; [exact E|]. split; [exact HP|]. lia.
           ++ intros (b & a & E & HP & Hcnt).
              assert (Hd' : filter P tradingDates
                              !! Z.to_nat
                                   (Z.of_nat
                                      (length (filter P tradingDates)) + - n)
                            = Some prevDate).
              { apply Hsplit. exists b, a. split; [exact E|].
                split; [exact HP|].
                subst tradingDates. apply Is_true_true in HP.
                rewrite filter_app, filter_cons_True, length_app in *
                  by exact HP.
                cbn in *. lia. }
              congruence.
        -- split; [discriminate|]. intros [_ H]. lia.
      * apply lookup_ge_None in Hd. lia.
  - split; [|split].
    + split; [|reflexivity]. intros _. apply Hempty. lia.
    + intros prevDate. split; [discriminate|].
      intros (b & a & -> & HP & _). exfalso. apply Hlen, Hsome.
      exists prevDate. split; [|exact HP].
      apply elem_of_app. right. left.
    + split; [discriminate|]. intros [H _]. now apply Hsome in H.
Qed.

Lemma prevTradingDate_counts_back_witness :
  AShareTradingCalendar.prevTradingDate
    ["20200102"; "20200103"; "20200106"]%string "20200106" 3
  = Raise IndexError.
Proof.
  apply (proj2 (proj2 (prevTradingDate_counts_back _ _ 3 ltac:(lia)))).
  split; [|vm_compute; reflexivity].
  exists "20200102"%string. split; [left|reflexivity].
Defined.

Lemma string_ltb_leb (a b : string) :
  String.ltb a b = true ->
  String.leb a b = true /\ String.leb b a = false /\ String.ltb b a = false.
Proof.
  unfold String.ltb, String.leb. rewrite (String.compare_antisym a b).
  destruct (String.compare b a); cbn; intros H; try discriminate H; auto.
Qed.

Lemma string_compare_refl (a : string) : String.compare a a = Eq.
Proof.
  pose proof (String.compare_antisym a a) as H.
  destruct (String.compare a a); [reflexivity|discriminate H|discriminate H].
Qed.

Lemma string_ltb_irrefl (a : string) : String.ltb a a = false.
Proof.
  unfold String.ltb. now rewrite string_compare_refl.
Qed.

Lemma string_leb_refl (a : string) : String.leb a a = true.
Proof.
  unfold String.leb. now rewrite string_compare_refl.
Qed.

Lemma filter_app_split {A} (P : A -> Prop) `{!forall x, Decision (P x)}
    (l1 l2 : list A) :
  (forall x, x ∈ l1 -> ~ P x) -> (forall x, x ∈ l2 -> P x) ->
  filter P (l1 ++ l2) = l2.
Proof.
  intros E1 E2. rewrite filter_app.
  assert (Hl1 : filter P l1 = []).
  { apply length_zero_iff_nil, filter_nil_iff, E1. }
  rewrite Hl1. cbn. clear E1 Hl1.
  induction l2 as [|x l2 IH]; [reflexivity|].
  rewrite filter_cons_True by (apply E2; left).
  f_equal. apply IH. intros y Hy. apply E2. now right.
Qed.

Lemma filter_split_app {A} (P : A -> Prop) `{!forall x, Decision (P x)}
    (l1 l2 : list A) :
  (forall x, x ∈ l1 -> P x) -> (forall x, x ∈ l2 -> ~ P x) ->
  filter P (l1 ++ l2) = l1.
Proof.
  intros E1 E2. rewrite filter_app.
  assert (Hl2 : filter P l2 = []).
  { apply length_zero_iff_nil, filter_nil_iff, E2. }
  rewrite Hl2, app_nil_r. clear E2 Hl2.
  induction l1 as [|x l1 IH]; [reflexivity|].
  rewrite filter_cons_True by (apply E1; left).
  f_equal. apply IH. intros y Hy. apply E1. now right.
Qed.

Lemma nextTradingDate_split (before later : list string)
    (sinceDate : string) (n : Z) :
  (forall d, d ∈ before -> String.ltb d sinceDate = true) ->
  (forall d, d ∈ later -> String.leb sinceDate d = true) ->
  AShareTradingCalendar.nextTradingDate (before ++ later) sinceDate n
  = if decide (1 < length later)%nat then
      AShareTradingCalendar.iloc later n
    else Raise (DateTooEarly sinceDate).
Proof.
  intros Hb Hl. unfold AShareTradingCalendar.nextTradingDate.
  rewrite (filter_app_split
             (fun d : string => Is_true (String.leb sinceDate d)));
    [reflexivity| |].
  - intros d Hd. apply Hb, string_ltb_leb in Hd as (_ & -> & _). exact id.
  - intros d Hd. rewrite (Hl d Hd). exact I.
Qed.

Lemma prevTradingDate_split (prevDate asOfDate : string)
    (earlier later : list string) :
  (forall d, d ∈ earlier -> String.ltb d asOfDate = true) ->
  String.ltb prevDate asOfDate = true ->
  (forall d, d ∈ later -> String.ltb d asOfDate = false) ->
  AShareTradingCalendar.prevTradingDate (earlier ++ prevDate :: later)
    asOfDate 1
  = Ok prevDate [].
Proof.
  intros He Hp Hl. unfold AShareTradingCalendar.prevTradingDate.
  replace (earlier ++ prevDate :: later)
    with ((earlier ++ [prevDate]) ++ later) by now rewrite <- app_assoc.
  rewrite (filter_split_app
             (fun d : string => Is_true (String.ltb d asOfDate))).
  - rewrite decide_True by (rewrite length_app; cbn; lia).
    unfold AShareTradingCalendar.iloc. rewrite length_app. cbn.
    change (- (1) <? 0) with true. cbv iota.
    replace (Z.of_nat (length earlier + 1) + - (1))
      with (Z.of_nat (length earlier)) by lia.
    destruct (Z.ltb_spec (Z.of_nat (length earlier)) 0) as [H|_]; [lia|].
    rewrite Nat2Z.id, lookup_app_r by lia.
    now rewrite Nat.sub_diag.
  - intros d Hd. apply elem_of_app in Hd as [Hd|Hd].
    + rewrite (He d Hd). exact I.
    + apply list_elem_of_singleton in Hd as ->. rewrite Hp. exact I.
  - intros d Hd. rewrite (Hl d Hd). exact id.
Qed.

Lemma prevTradingDate_last (earlier later : list string)
    (asOfDate prevDate : string) :
  (forall d, d ∈ earlier -> String.ltb d asOfDate = true) ->
  (forall d, d ∈ later -> String.ltb d asOfDate = false) ->
  AShareTradingCalendar.prevTradingDate (earlier ++ later) asOfDate 1
    = Ok prevDate [] ->
  exists earlier', earlier = earlier' ++ [prevDate].
Proof.
  intros He Hl Hprev.
  destruct earlier as [|x earlier' _] using rev_ind.
  - exfalso. unfold AShareTradingCalendar.prevTradingDate in Hprev.
    cbn in Hprev.
    assert (E : filter (fun d : string => Is_true (String.ltb d asOfDate))
                  later = []).
    { apply length_zero_iff_nil, filter_nil_iff. intros d Hd.
      rewrite (Hl d Hd). exact id. }
    rewrite E in Hprev. discriminate Hprev.
  - exists earlier'. rewrite <- app_assoc in Hprev. cbn in Hprev.
    rewrite prevTradingDate_split in Hprev.
    + now injection Hprev as ->.
    + intros d Hd. apply He, elem_of_app. now left.
    + apply He, elem_of_app. right. left.
    + exact Hl.
Qed.

(** X20.  When the calendar lists the dates before [sinceDate] first and
    the dates on or after it next, [nextTradingDate( sinceDate )] returns
    the second of the dates on or after [sinceDate]: the trading date that
    follows [sinceDate] when [sinceDate] is a trading date, but the one
    after the first later trading date when it is not; with fewer than two
    such dates, so also on the calendar's last date, it raises. *)
Theorem nextTradingDate_second_on_or_after (before later : list string)
    (sinceDate : string)
    (Hbefore : forall d, d ∈ before -> String.ltb d sinceDate = true)
    (Hlater : forall d, d ∈ later -> String.leb sinceDate d = true) :
  AShareTradingCalendar.nextTradingDate (before ++ later) sinceDate 1
  = match later with
    | _ :: nextDate :: _ => Ok nextDate []
    | _ => Raise (DateTooEarly sinceDate)
    end.
Proof.
  rewrite (nextTradingDate_split before later sinceDate 1 Hbefore Hlater).
  destruct later as [|d0 [|d1 rest]].
  - reflexivity.
  - reflexivity.
  - rewrite decide_True by (cbn; lia). reflexivity.
Qed.

Lemma nextTradingDate_second_on_or_after_witness :
  AShareTradingCalendar.nextTradingDate
    (["20200102"; "20200103"]%string ++ ["20200106"; "20200107"]%string)
    "20200104" 1
  = Ok "20200107"%string [].
Proof.
  apply (nextTradingDate_second_on_or_after
           ["20200102"; "20200103"]%string ["20200106"; "20200107"]%string
           "20200104").
  - intros d Hd. repeat (apply elem_of_cons in Hd as [->|Hd];
                         [reflexivity|]).
    now apply elem_of_nil in Hd.
  - intros d Hd. repeat (apply elem_of_cons in Hd as [->|Hd];
                         [reflexivity|]).
    now apply elem_of_nil in Hd.
Defined.

(** X21.  On a calendar in strictly increasing order, looking one trading
    date forward and then one back is the identity on trading dates: if
    [nextTradingDate( sinceDate )] returns [nextDate] for a trading date
    [sinceDate], then [prevTradingDate( nextDate )] returns [sinceDate];
    and if [prevTradingDate( asOfDate )] returns [prevDate] for a trading
    date [asOfDate], then [nextTradingDate( prevDate )] returns
    [asOfDate]. *)
Theorem next_then_prev_trading_date (tradingDates : list string)
    (Hsorted : increasing tradingDates) :
  (forall sinceDate nextDate,
     sinceDate ∈ tradingDates ->
     AShareTradingCalendar.nextTradingDate tradingDates sinceDate 1
       = Ok nextDate [] ->
     AShareTradingCalendar.prevTradingDate tradingDates nextDate 1
       = Ok sinceDate [])
  /\ (forall asOfDate prevDate,
        asOfDate ∈ tradingDates ->
        AShareTradingCalendar.prevTradingDate tradingDates asOfDate 1
          = Ok prevDate [] ->
        AShareTradingCalendar.nextTradingDate tradingDates prevDate 1
          = Ok asOfDate []).
Proof.
  unfold increasing in Hsorted. split.
  - intros sinceDate nextDate Hin Hnext.
    apply list_elem_of_split in Hin as (b & a & ->).
    apply StronglySorted_app in Hsorted as (Hba & _ & Ha).
    apply StronglySorted_cons in Ha as [Hsa Ha].
    rewrite Forall_forall in Hsa.
    rewrite (nextTradingDate_split b (sinceDate :: a)) in Hnext.
    + destruct a as [|d a']; [discriminate Hnext|].
      rewrite decide_True in Hnext by (cbn; lia).
      injection Hnext as ->.
      apply StronglySorted_cons in Ha as [Hda _].
      rewrite Forall_forall in Hda.
      apply prevTradingDate_split.
      * intros d Hd. apply Hba; [exact Hd|]. right. left.
      * apply Hsa. left.
      * intros d Hd. apply elem_of_cons in Hd as [->|Hd].
        -- apply string_ltb_irrefl.
        -- now apply Hda, string_ltb_leb in Hd.
    + intros d Hd. apply Hba; [exact Hd|left].
    + intros d Hd. apply elem_of_cons in Hd as [->|Hd].
      * apply string_leb_refl.
      * now apply Hsa, string_ltb_leb in Hd.
  - intros asOfDate prevDate Hin Hprev.
    apply list_elem_of_split in Hin as (b & a & ->).
    pose proof Hsorted as Hs.
    apply StronglySorted_app in Hs as (Hba & Hb & Ha).
    apply StronglySorted_cons in Ha as [Haa Ha].
    rewrite Forall_forall in Haa.
    destruct (prevTradingDate_last b (asOfDate :: a) asOfDate prevDate)
      as (b' & ->); auto.
    { intros d Hd. apply Hba; [exact Hd|left]. }
    { intros d Hd. apply elem_of_cons in Hd as [->|Hd].
      - apply string_ltb_irrefl.
      - now apply Haa, string_ltb_leb in Hd. }
    rewrite <- app_assoc in Hsorted |- *. cbn in Hsorted |- *.
    apply StronglySorted_app in Hsorted as (Hb'r & _ & Hr).
    apply StronglySorted_cons in Hr as [Hpr _].
    rewrite Forall_forall in Hpr.
    rewrite (nextTradingDate_split b' (prevDate :: asOfDate :: a));
      [now rewrite decide_True by (cbn; lia)| |].
    + intros d Hd. apply Hb'r; [exact Hd|left].
    + intros d Hd. apply elem_of_cons in Hd as [->|Hd].
      * apply string_leb_refl.
      * now apply Hpr, string_ltb_leb in Hd.
Qed.

Lemma next_then_prev_trading_date_witness :
  AShareTradingCalendar.prevTradingDate
    ["20200102"; "20200103"; "20200106"]%string "20200106" 1
  = Ok "20200103"%string [].
Proof.
  apply (proj1 (next_then_prev_trading_date
                  ["20200102"; "20200103"; "20200106"]%string
                  ltac:(repeat constructor))).
  - right. left.
  - reflexivity.
Defined.

(** ** strats/stockStrategy.py: the market-open hook *)

Lemma int_mul_0_r (x : Q) : int (x * 0) = 0.
Proof. unfold int. cbn. now rewrite Z.mul_0_r. Qed.

Lemma int_mul_0_l (x : Q) : int (0 * x) = 0.
Proof. unfold int. reflexivity. Qed.

Lemma stock_adjustPrice_zero (position : Z) (cash : Q) :
  (stockUtil.adjustPrice position cash 0 0 0 0).1 = position
  /\ ((stockUtil.adjustPrice position cash 0 0 0 0).2 == cash)%Q.
Proof.
  unfold stockUtil.adjustPrice. rewrite int_mul_0_r, int_mul_0_l.
  destruct (Qlt_bool _ _); cbn [fst snd]; split; try lia; ring.
Qed.

Lemma book_adjustPrice_zero (secId : string) (self : PortfolioPosition.t) :
  exists self' log,
    PortfolioPosition.adjustPrice secId 0 0 0 0 self = Ok self' log
    /\ PortfolioPosition.book self' = PortfolioPosition.book self
    /\ (PortfolioPosition.cash self' == PortfolioPosition.cash self)%Q.
Proof.
  unfold PortfolioPosition.adjustPrice, PortfolioPosition.getPositions.
  destruct (PortfolioPosition.book self !! secId) as [row|] eqn:Hrow.
  - rewrite (ix_Some _ _ _ Hrow).
    destruct (stock_adjustPrice_zero (Volume row)
                (PortfolioPosition.cash self)) as [Hv Hc].
    destruct (stockUtil.adjustPrice _ _ _ _ _ _) as [v c].
    cbn [fst snd] in Hv, Hc. subst v.
    eexists. eexists. split; [reflexivity|]. cbn. split; [|exact Hc].
    apply insert_id. rewrite Hrow. now destruct row.
  - rewrite (ix_None _ _ Hrow). eexists. eexists.
    split; [reflexivity|]. split; reflexivity.
Qed.


Lemma get_group_filter {R} (column : R -> string) (frame : list R)
    (key : string) (group : list R) :
  StockStrategyHooks.get_group column frame key = Some group ->
  group = filter (fun r => column r = key) frame.
Proof.
  unfold StockStrategyHooks.get_group.
  destruct (filter _ frame); [discriminate|]. now intros [= <-].
Qed.

Lemma getDividend_not_single (dividendInfo : list DividendRecord)
    (asOfDate secId : string) :
  Fill.dividendRecords dividendInfo asOfDate secId <> 1%nat ->
  (StockStrategyHooks.getDividend
     (StockStrategyHooks.get_group EX_DT dividendInfo asOfDate) secId).1
  = (0, 0)%Q.
Proof.
  unfold Fill.dividendRecords, StockStrategyHooks.getDividend. intros Hn.
  destruct (StockStrategyHooks.get_group _ _ _) as [g|] eqn:Hg;
    [|reflexivity].
  apply get_group_filter in Hg as ->.
  destruct (filter (fun r => dividendCode r = secId) _) as [|r [|r' rest]];
    [reflexivity|now destruct Hn|reflexivity].
Qed.

Lemma getRightIssue_not_single (rightIssueInfo : list RightIssueRecord)
    (asOfDate secId : string) :
  Fill.rightIssueRecords rightIssueInfo asOfDate secId <> 1%nat ->
  (StockStrategyHooks.getRightIssue
     (StockStrategyHooks.get_group S_RIGHTSISSUE_EXDIVIDENDDATE
        rightIssueInfo asOfDate) secId).1
  = (0, 0)%Q.
Proof.
  unfold Fill.rightIssueRecords, StockStrategyHooks.getRightIssue.
  intros Hn.
  destruct (StockStrategyHooks.get_group _ _ _) as [g|] eqn:Hg;
    [|reflexivity].
  apply get_group_filter in Hg as ->.
  destruct (filter (fun r => rightIssueCode r = secId) _)
    as [|r [|r' rest]];
    [reflexivity|now destruct Hn|reflexivity].
Qed.

Lemma adjustAll_zero (dividendInfo : option (list DividendRecord))
    (rightIssueInfo : option (list RightIssueRecord))
    (stocks : list string) :
  (forall s, s ∈ stocks ->
     (StockStrategyHooks.getDividend dividendInfo s).1 = (0, 0)%Q
     /\ (StockStrategyHooks.getRightIssue rightIssueInfo s).1 = (0, 0)%Q) ->
  forall position log,
  exists position' log',
    StockStrategyHooks.adjustAll dividendInfo rightIssueInfo stocks position
      log = Returned position' log'
    /\ PortfolioPosition.book position' = PortfolioPosition.book position
    /\ (PortfolioPosition.cash position'
        == PortfolioPosition.cash position)%Q.
Proof.
  induction stocks as [|s rest IH]; intros Hz position log; cbn.
  - exists position, log. split; [reflexivity|]. split; reflexivity.
  - destruct (Hz s) as [Hd Hr]; [left|].
    destruct (StockStrategyHooks.getDividend dividendInfo s) as [[d r] l1].
    destruct (StockStrategyHooks.getRightIssue rightIssueInfo s)
      as [[ri rp] l2].
    cbn in Hd, Hr. injection Hd as -> ->. injection Hr as -> ->.
    destruct (book_adjustPrice_zero s position) as (p1 & l3 & -> & Hb & Hc).
    destruct (IH (fun s' Hs' => Hz s' (list_elem_of_further _ _ _ Hs'))
                p1 (log ++ l1 ++ l2 ++ (Book <$> l3)))
      as (p' & log' & -> & Hb' & Hc').
    exists p', log'. split; [reflexivity|]. split; [congruence|].
    now rewrite Hc'.
Qed.


(** X22.  [openMarket] changes nothing for instruments without a single
    record of the date: when no listed instrument has exactly one dividend
    record or exactly one rights-issue record on [asOfDate] (none at all,
    or several, which are only warned about), the hook returns with the
    book as it was and the same cash. *)
Theorem openMarket_needs_a_single_record
    (dividendInfo : list DividendRecord)
    (rightIssueInfo : list RightIssueRecord) (index : list string)
    (asOfDate : string) (position : PortfolioPosition.t)
    (Hdividend : forall s, s ∈ index ->
       Fill.dividendRecords dividendInfo asOfDate s <> 1%nat)
    (Hrights : forall s, s ∈ index ->
       Fill.rightIssueRecords rightIssueInfo asOfDate s <> 1%nat) :
  exists position' log,
    StockStrategyHooks.openMarket dividendInfo rightIssueInfo index asOfDate
      position = Returned position' log
    /\ PortfolioPosition.book position' = PortfolioPosition.book position
    /\ (PortfolioPosition.cash position'
        == PortfolioPosition.cash position)%Q.
Proof.
  unfold StockStrategyHooks.openMarket. apply adjustAll_zero.
  intros s Hs. split.
  - now apply getDividend_not_single, Hdividend.
  - now apply getRightIssue_not_single, Hrights.
Qed.

Lemma openMarket_needs_a_single_record_witness :
  exists position' log,
    StockStrategyHooks.openMarket
      [mkDividendRecord "20170104" "A" 1 1;
       mkDividendRecord "20170104" "A" 2 2]%string []
      ["A"%string] "20170104"
      {| PortfolioPosition.book := {[ "A"%string := mkPosition 10 1000 ]};
         PortfolioPosition.cash := 5 |}
    = Returned position' log
    /\ PortfolioPosition.book position' = {[ "A"%string := mkPosition 10 1000 ]}
    /\ (PortfolioPosition.cash position' == 5)%Q.
Proof.
  refine (openMarket_needs_a_single_record
            [mkDividendRecord "20170104" "A" 1 1;
             mkDividendRecord "20170104" "A" 2 2]%string []
            ["A"%string] "20170104"
            {| PortfolioPosition.book :=
                 {[ "A"%string := mkPosition 10 1000 ]};
               PortfolioPosition.cash := 5 |} _ _).
  - intros s Hs. apply list_elem_of_singleton in Hs as ->. vm_compute. lia.
  - intros s Hs. apply list_elem_of_singleton in Hs as ->. vm_compute. lia.
Defined.


(** ** strats/stockStrategy.py: fills of the stock engine *)

Lemma placeAndFill_status (o : Order.t)
    (engine : StockBacktestExecutionEngine.t) :
  (StockBacktestExecutionEngine.placeOrder o engine).1
  = Ok (StockBacktestExecutionEngine.nextId engine,
        {| SimpleOrderStatus.orderStatus := Some SimpleOrderStatus.EXECUTED;
           SimpleOrderStatus.secId := Some (Order.secId o);
           SimpleOrderStatus.executedPrice := Some (Fill.price o engine);
           SimpleOrderStatus.commision := Some (Fill.commision o engine);
           SimpleOrderStatus.orderDirection := Some (Fill.direction o);
           SimpleOrderStatus.orderSize := Some (Order.volume o) |}) [].
Proof.
  unfold StockBacktestExecutionEngine.placeOrder,
    StockBacktestExecutionEngine.queryOrder. cbn.
  now rewrite lookup_insert_eq.
Qed.

Lemma placeAndFill_booked (o : Order.t)
    (engine : StockBacktestExecutionEngine.t)
    (position : PortfolioPosition.t) :
  (StockStrategyHooks.placeAndFill o engine position).1
  = Some
      match
        lift (if decide (Order.side o = Order.BUY) then
                PortfolioPosition.addPosition (Order.secId o)
                  (Fill.price o engine) (Order.volume o)
                  (Fill.commision o engine) position
              else
                PortfolioPosition.deletePosition (Order.secId o)
                  (Fill.price o engine) (Order.volume o)
                  (Fill.commision o engine) position)
      with
      | Returned position' log =>
          Returned (StockBacktestExecutionEngine.nextId engine, position')
            log
      | Raised e => Raised e
      end.
Proof.
  unfold StockStrategyHooks.placeAndFill.
  pose proof (placeAndFill_status o engine) as Hst.
  destruct (StockBacktestExecutionEngine.placeOrder o engine)
    as [placed engine'].
  cbn [fst] in Hst |- *. subst placed.
  unfold StockStrategyHooks.onOrderFilled. cbn.
  unfold Fill.direction.
  destruct (decide (Order.side o = Order.BUY)) as [Hb|Hb].
  - rewrite decide_True by reflexivity.
    now destruct (lift _).
  - rewrite decide_False by discriminate.
    rewrite decide_True by reflexivity.
    now destruct (lift _).
Qed.

(** X24.  An order placed with the stock engine is always booked, as a
    purchase or as a sale: a [BUY] order is added to the book, an order of
    any other side ([SELL], but also [UNKNOWN]) is deleted from it, at the
    fill price and commission of the engine; the strategy's "unknown
    direction" branch is never taken. *)
Theorem stock_fill_is_purchase_or_sale (o : Order.t)
    (engine : StockBacktestExecutionEngine.t)
    (position : PortfolioPosition.t) :
  (StockStrategyHooks.placeAndFill o engine position).1
  = Some
      match
        lift (if decide (Order.side o = Order.BUY) then
                PortfolioPosition.addPosition (Order.secId o)
                  (Fill.price o engine) (Order.volume o)
                  (Fill.commision o engine) position
              else
                PortfolioPosition.deletePosition (Order.secId o)
                  (Fill.price o engine) (Order.volume o)
                  (Fill.commision o engine) position)
      with
      | Returned position' log =>
          Returned (StockBacktestExecutionEngine.nextId engine, position')
            log
      | Raised e => Raised e
      end
  /\ forall r,
       (StockStrategyHooks.placeAndFill o engine position).1
         = Some (Returned r.1 r.2) ->
       UnknownDirection (Order.secId o) ∉ r.2.
Proof.
  split; [apply placeAndFill_booked|].
  intros [[oid p] log]. rewrite placeAndFill_booked. cbn [fst snd].
  destruct (if decide (Order.side o = Order.BUY) then _ else _)
    as [p' l|e]; cbn; [|discriminate].
  intros [= _ _ <-] Hin.
  apply list_elem_of_fmap in Hin as (r & Hr & _). discriminate Hr.
Qed.

(** X25.  A sale of more than is held, filled by the stock engine: the
    whole holding is sold at the fill price and the instrument leaves the
    book, but the commission is the one of the ordered volume, so the cash
    grows by [price * ( held - ordered * commisionRate )]; the book's
    warning is passed on. *)
Theorem oversold_fill_pays_full_commission (o : Order.t)
    (engine : StockBacktestExecutionEngine.t)
    (position : PortfolioPosition.t) (avg : Q) (held : Z)
    (Hside : Order.side o <> Order.BUY)
    (Hheld : PortfolioPosition.book position !! Order.secId o
             = Some (mkPosition avg held))
    (Hover : held < Order.volume o) :
  exists position',
    (StockStrategyHooks.placeAndFill o engine position).1
    = Some (Returned (StockBacktestExecutionEngine.nextId engine, position')
              [Book (WarnNotEnoughHoldings (Order.secId o) (Order.volume o)
                       (Fill.price o engine) held)])
    /\ PortfolioPosition.book position'
       = delete (Order.secId o) (PortfolioPosition.book position)
    /\ (PortfolioPosition.cash position'
        == PortfolioPosition.cash position
           + Fill.price o engine
             * (inject_Z held
                - inject_Z (Order.volume o)
                  * StockBacktestExecutionEngine.commisionRate engine))%Q.
Proof.
  rewrite placeAndFill_booked, decide_False by exact Hside.
  rewrite (deletePosition_held _ _ _ _ _ _ _ Hheld).
  rewrite Z.min_r by lia. rewrite Z.sub_diag. cbn [Z.ltb Z.compare lift].
  destruct (Z.ltb_spec held (Order.volume o)) as [_|Hge]; [|lia].
  eexists. split; [reflexivity|]. cbn. split; [reflexivity|].
  unfold Fill.commision. ring.
Qed.

Lemma oversold_fill_pays_full_commission_witness :
  exists position',
    (StockStrategyHooks.placeAndFill
       (Order.new "A" Order.SELL 1500 10)
       (StockBacktestExecutionEngine.init (1 # 1000) 0)
       {| PortfolioPosition.book := {[ "A"%string := mkPosition 10 1000 ]};
          PortfolioPosition.cash := 0 |}).1
    = Some (Returned (1, position')
              [Book (WarnNotEnoughHoldings "A" 1500
                       (Fill.price (Order.new "A" Order.SELL 1500 10)
                          (StockBacktestExecutionEngine.init (1 # 1000) 0))
                       1000)])
    /\ PortfolioPosition.book position' = delete "A"%string {[ "A"%string := mkPosition 10 1000 ]}
    /\ (PortfolioPosition.cash position'
        == 0 + Fill.price (Order.new "A" Order.SELL 1500 10)
                 (StockBacktestExecutionEngine.init (1 # 1000) 0)
               * (inject_Z 1000 - inject_Z 1500 * (1 # 1000)))%Q.
Proof.
  refine (oversold_fill_pays_full_commission
            (Order.new "A" Order.SELL 1500 10)
            (StockBacktestExecutionEngine.init (1 # 1000) 0)
            {| PortfolioPosition.book :=
                 {[ "A"%string := mkPosition 10 1000 ]};
               PortfolioPosition.cash := 0 |} 10 1000 _ _ _).
  - discriminate.
  - reflexivity.
  - reflexivity.
Defined.

(** ** strats/stockStrategy.py: more on [adjustPosition] *)

(** X26.  In the sell-all-before-buy mode, whenever the classification of
    [adjustPosition] is reached, with [nextDate] the next trading date it
    looked up: the sell bucket holds every held instrument that is not
    suspended and not at the down limit, targeted or not and leaving the
    market or not; the buy bucket holds every targeted instrument that is
    not suspended, not leaving the market and not at the up limit, held or
    not; and nothing is updated. *)
Theorem adjustPosition_sab_partition (self : StockStrategy.t)
    (asOfDate : string) (weights : gmap string float64) (refPrices : Frame)
    (o : StockStrategy.options) (p : StockStrategy.plan)
    (log : list LogRecord) :
  StockStrategy.enableSab o = true ->
  StockStrategy.classify self asOfDate weights refPrices o = Ok p log ->
  exists nextDate l,
    StockStrategy.nextTradingDate self asOfDate (StockStrategy.freq self)
      = Ok nextDate l
    /\ StockStrategy.stocksToUpdate p = ∅
    /\ forall s : string,
         (s ∈ StockStrategy.stocksToSell p <->
            Partition.held self s
            /\ ~ Partition.suspended self asOfDate s
            /\ ~ Partition.atDownLimit refPrices s)
         /\ (s ∈ StockStrategy.stocksToBuy p <->
               Partition.targeted weights s
               /\ ~ Partition.suspended self asOfDate s
               /\ ~ Partition.delisting self nextDate s
               /\ ~ Partition.atUpLimit refPrices s).
Proof.
  intros Hsab H. unfold StockStrategy.classify in H.
  bind_inv H as prevDate Hprev. bind_inv H as nextDate Hnext.
  rewrite Hsab in H. cbn in H. injection H as <- _.
  exists nextDate. eexists. split; [exact Hnext|].
  split; [reflexivity|].
  intros s. cbn.
  pose proof (elem_of_stocksToHold (StockStrategy.normalizeWeights o)
                weights s) as Hhold.
  pose proof (elem_of_getSuspendingStocks self asOfDate s) as Hsusp.
  pose proof (elem_of_stocksToDelist (StockStrategy.delistedStocks self)
                nextDate s) as Hdel.
  pose proof (elem_of_getUpLimitStocks refPrices s) as Hup.
  pose proof (elem_of_getDownLimitStocks refPrices s) as Hdown.
  assert (Hheld : s ∈ PortfolioPosition.getStocksInBook
                        (StockStrategy.position self)
                  <-> Partition.held self s)
    by apply elem_of_dom.
  fold (Partition.delisting self nextDate s) in Hdel.
  rewrite !elem_of_difference.
  rewrite Hhold, Hsusp, Hdel, Hup, Hdown, Hheld.
  tauto.
Qed.

Lemma adjustPosition_sab_partition_witness :
  exists p,
    StockStrategy.classify Scenario.strategy "20170104" Scenario.weights
      Scenario.refPrices sabOptions = Ok p []
    /\ StockStrategy.stocksToUpdate p = ∅.
Proof.
  eexists. split; [vm_compute; reflexivity|].
  destruct (adjustPosition_sab_partition Scenario.strategy "20170104"%string
              Scenario.weights Scenario.refPrices sabOptions _ []
              eq_refl ltac:(vm_compute; reflexivity))
    as (nextDate & l & _ & Hupd & _).
  exact Hupd.
Defined.

Lemma cleanWeights_unusable (weights : gmap string float64) (s : string)
    (w : float64) :
  unusable w ->
  StockStrategy.cleanWeights (<[s := w]> weights)
  = StockStrategy.cleanWeights (delete s weights).
Proof.
  intros Hw. unfold StockStrategy.cleanWeights.
  rewrite omap_delete. apply omap_insert_None.
  destruct w as [q| | |]; try reflexivity. cbn in Hw.
  destruct (Qle_bool 0 q) eqn:Hq; [|reflexivity].
  apply Qle_bool_iff in Hq. exfalso. now apply (Qlt_not_le _ _ Hw).
Qed.

(** X27.  A negative, infinite or [nan] weight is the same as no weight:
    [adjustPosition] returns the same orders, warnings or error with such
    a weight for an instrument as with no entry for it, so a negative
    weight never asks for a short position. *)
Theorem unusable_weight_is_no_weight (self : StockStrategy.t)
    (asOfDate : string) (weights : gmap string float64) (refPrices : Frame)
    (o : StockStrategy.options) (s : string) (w : float64)
    (Hw : unusable w) :
  StockStrategy.adjustPosition self asOfDate (<[s := w]> weights) refPrices o
  = StockStrategy.adjustPosition self asOfDate (delete s weights) refPrices
      o.
Proof.
  unfold StockStrategy.adjustPosition, StockStrategy.classify.
  now rewrite (cleanWeights_unusable weights s w Hw).
Qed.

Lemma unusable_weight_is_no_weight_witness :
  StockStrategy.adjustPosition Scenario.strategy "20170104"
    (<["A"%string := Finite (-1)]> Scenario.weights) Scenario.refPrices
    StockStrategy.defaults
  = StockStrategy.adjustPosition Scenario.strategy "20170104"
      (delete "A"%string Scenario.weights) Scenario.refPrices
      StockStrategy.defaults.
Proof.
  apply (unusable_weight_is_no_weight Scenario.strategy "20170104"
           Scenario.weights Scenario.refPrices StockStrategy.defaults
           "A" (Finite (-1))).
  reflexivity.
Defined.

Lemma forEach_sublist (body : string -> outcome (list Order.t))
    (stocks : list string) (os : list Order.t) (l : list LogRecord) :
  (forall stock os l, body stock = Ok os l ->
     Order.secId <$> os = [stock] \/ os = []) ->
  StockStrategy.forEach body stocks = Ok os l ->
  (Order.secId <$> os) `sublist_of` stocks.
Proof.
  intros Hbody. revert os l.
  induction stocks as [|stock rest IH]; cbn; intros os l H.
  - injection H as <- <-. constructor.
  - bind_inv H as os1 H1. bind_inv H as os2 H2. injection H as <- _.
    rewrite fmap_app. apply IH in H2.
    destruct (Hbody _ _ _ H1) as [-> | ->]; cbn.
    + now apply sublist_skip.
    + now apply sublist_cons.
Qed.

Lemma buckets_disjoint (stocksInBook stocksToHold suspendingStocks
    stocksToDelist stocksCannotBuy stocksCannotSell : gset string) :
  let '(toSell, toBuy, toUpdate) :=
    StockStrategy.buckets false stocksInBook stocksToHold suspendingStocks
      stocksToDelist stocksCannotBuy stocksCannotSell in
  toSell ## toBuy /\ toSell ## toUpdate /\ toBuy ## toUpdate.
Proof. cbn. set_solver. Qed.

(** X28.  In the ordinary mode [adjustPosition] asks for at most one
    order per instrument: the instruments of the returned orders are
    pairwise different. *)
Theorem adjustPosition_one_order_per_instrument (self : StockStrategy.t)
    (asOfDate : string) (weights : gmap string float64) (refPrices : Frame)
    (o : StockStrategy.options) (orders : list Order.t)
    (log : list LogRecord)
    (Hsab : StockStrategy.enableSab o = false)
    (Hok : StockStrategy.adjustPosition self asOfDate weights refPrices o
           = Ok orders log) :
  NoDup (Order.secId <$> orders).
Proof.
  unfold StockStrategy.adjustPosition in Hok.
  bind_inv Hok as p Hp. bind_inv Hok as sellRef Hs.
  bind_inv Hok as buyRef Hb. bind_inv Hok as updRef Hu.
  bind_inv Hok as sells Hsells. bind_inv Hok as buys Hbuys.
  bind_inv Hok as updates Hupdates. injection Hok as <- _.
  rewrite (sorted_Permutation Z.le Order.side).
  assert (Hdisj : StockStrategy.stocksToSell p ## StockStrategy.stocksToBuy p
                  /\ StockStrategy.stocksToSell p
                     ## StockStrategy.stocksToUpdate p
                  /\ StockStrategy.stocksToBuy p
                     ## StockStrategy.stocksToUpdate p).
  { unfold StockStrategy.classify in Hp.
    bind_inv Hp as prevDate Hprev. bind_inv Hp as nextDate Hnext.
    rewrite Hsab in Hp.
    match type of Hp with
    | context [StockStrategy.buckets false ?a ?b ?c ?d ?e ?f] =>
        pose proof (buckets_disjoint a b c d e f) as Hd;
        destruct (StockStrategy.buckets false a b c d e f)
          as [[toSell toBuy] toUpdate]
    end.
    injection Hp as <- _. exact Hd. }
  destruct Hdisj as (Hsb & Hsu & Hbu).
  apply forEach_sublist in Hsells.
  2: { intros stock os l Hbody. bind_inv Hbody as held Hheld.
       bind_inv Hbody as ref Href. injection Hbody as <- _. now left. }
  apply forEach_sublist in Hbuys.
  2: { intros stock os l Hbody. bind_inv Hbody as mv Hmv.
       bind_inv Hbody as vwap Hvwap. bind_inv Hbody as vol Hvol.
       injection Hbody as <- _. now left. }
  apply forEach_sublist in Hupdates.
  2: { intros stock os l Hbody. bind_inv Hbody as mv Hmv.
       bind_inv Hbody as vwap Hvwap. bind_inv Hbody as vol Hvol.
       bind_inv Hbody as held Hheld.
       destruct (decide (vol - held ≠ 0));
         [|injection Hbody as <- _; now right].
       destruct (decide (0 < vol - held)); injection Hbody as <- _;
         now left. }
  rewrite !fmap_app.
  assert (Hin : forall (ids : list string) (X : gset string) id,
            ids `sublist_of` elements X -> id ∈ ids -> id ∈ X).
  { intros ids X id Hl Hx. apply elem_of_elements.
    eapply elem_of_sublist; eassumption. }
  apply NoDup_app. split; [|split].
  - apply (sublist_NoDup _ _ (NoDup_elements _) Hsells).
  - intros id Hx Hx'. apply (Hin _ _ _ Hsells) in Hx.
    apply elem_of_app in Hx' as [Hx'|Hx'].
    + apply (Hin _ _ _ Hbuys) in Hx'. set_solver.
    + apply (Hin _ _ _ Hupdates) in Hx'. set_solver.
  - apply NoDup_app. split; [|split].
    + apply (sublist_NoDup _ _ (NoDup_elements _) Hbuys).
    + intros id Hx Hx'. apply (Hin _ _ _ Hbuys) in Hx.
      apply (Hin _ _ _ Hupdates) in Hx'. set_solver.
    + apply (sublist_NoDup _ _ (NoDup_elements _) Hupdates).
Qed.

Lemma adjustPosition_one_order_per_instrument_witness :
  exists orders,
    StockStrategy.adjustPosition Scenario.strategy "20170104"
      Scenario.weights Scenario.refPrices StockStrategy.defaults
    = Ok orders []
    /\ NoDup (Order.secId <$> orders).
Proof.
  eexists. split; [vm_compute; reflexivity|].
  apply (adjustPosition_one_order_per_instrument Scenario.strategy
           "20170104" Scenario.weights Scenario.refPrices
           StockStrategy.defaults _ [] eq_refl).
  vm_compute. reflexivity.
Defined.

(** ** strats/stockStrategy.py: normalised weights *)






Lemma normalize_zero (weights : gmap string Q) (s : string) (w : float64) :
  (series_sum weights == 0)%Q ->
  StockStrategy.normalize true weights !! s = Some w -> nonFinite w.
Proof.
  intros Hs. unfold StockStrategy.normalize.
  destruct (decide (0 < size weights)%nat) as [_|Hsize].
  - rewrite lookup_fmap. destruct (weights !! s) as [q|]; [|discriminate].
    cbn. apply Qeq_bool_iff in Hs. rewrite Hs. intros [= <-].
    destruct (Qeq_bool q 0); [exact I|]. now destruct (Qlt_bool 0 q).
  - assert (weights = ∅) as -> by (apply map_size_empty_iff; lia).
    rewrite fmap_empty, lookup_empty. discriminate.
Qed.

Lemma roundVolume64_nonFinite (a : Q) (w : float64) (vwap : Q) (b : bool) :
  nonFinite w ->
  raises (roundVolume64 (fdiv (if b then w else fmul a w) vwap)).
Proof.
  destruct w as [q| | |]; [contradiction| | |]; intros _;
    destruct b; cbn;
    repeat match goal with
           | |- context [if ?c then _ else _] => destruct c; cbn
           end; exact I.
Qed.

Lemma forEach_each (body : string -> outcome (list Order.t))
    (stocks : list string) (os : list Order.t) (l : list LogRecord)
    (stock : string) :
  StockStrategy.forEach body stocks = Ok os l -> stock ∈ stocks ->
  ~ raises (body stock).
Proof.
  revert os l. induction stocks as [|s rest IH]; cbn; intros os l H Hin.
  - now apply elem_of_nil in Hin.
  - bind_inv H as os1 H1. bind_inv H as os2 H2.
    apply elem_of_cons in Hin as [->|Hin].
    + rewrite H1. exact id.
    + eapply IH; eassumption.
Qed.

(** X30.  With normalisation on and usable weights of total zero,
    [adjustPosition] cannot buy or update anything: whenever its
    classification puts an instrument into the buy or the update bucket,
    the call raises instead of returning orders. *)
Theorem zero_total_weight_raises (self : StockStrategy.t)
    (asOfDate : string) (weights : gmap string float64) (refPrices : Frame)
    (o : StockStrategy.options) (p : StockStrategy.plan)
    (log : list LogRecord) (s : string)
    (Hnorm : StockStrategy.normalizeWeights o = true)
    (Htotal : (series_sum (StockStrategy.cleanWeights weights) == 0)%Q)
    (Hp : StockStrategy.classify self asOfDate weights refPrices o
          = Ok p log)
    (Hs : s ∈ StockStrategy.stocksToBuy p ∪ StockStrategy.stocksToUpdate p) :
  raises (StockStrategy.adjustPosition self asOfDate weights refPrices o).
Proof.
  destruct (StockStrategy.adjustPosition self asOfDate weights refPrices o)
    as [orders log'|e] eqn:Hok; [exfalso|exact I].
  assert (Hw : forall s w, StockStrategy.planWeights p !! s = Some w ->
                           nonFinite w).
  { unfold StockStrategy.classify in Hp.
    bind_inv Hp as prevDate Hprev. bind_inv Hp as nextDate Hnext.
    destruct (StockStrategy.buckets _ _ _ _ _ _ _) as [[? ?] ?].
    injection Hp as <- _. cbn. rewrite Hnorm. intros s' w.
    now apply normalize_zero. }
  assert (Hmv : forall stock vwap,
            raises (do mv <- StockStrategy.monetaryVolume o p stock;
                    roundVolume64 (fdiv mv vwap))).
  { intros stock vwap. unfold StockStrategy.monetaryVolume,
      StockStrategy.ix.
    destruct (StockStrategy.planWeights p !! stock) as [w|] eqn:E;
      [|exact I].
    cbn.
    pose proof (roundVolume64_nonFinite (StockStrategy.totalAsset p) w vwap
                  (StockStrategy.useWeightCapital o) (Hw _ _ E)) as Hr.
    destruct (roundVolume64 _); [contradiction|exact I]. }
  unfold StockStrategy.adjustPosition in Hok. rewrite Hp in Hok.
  bind_inv Hok as p' Hp'. injection Hp' as <- _.
  bind_inv Hok as sellRef Hsr. bind_inv Hok as buyRef Hbr.
  bind_inv Hok as updRef Hur. bind_inv Hok as sells Hsells.
  bind_inv Hok as buys Hbuys. bind_inv Hok as updates Hupdates.
  apply elem_of_union in Hs as [Hs|Hs]; apply elem_of_elements in Hs.
  - apply (forEach_each _ _ _ _ s Hbuys Hs).
    destruct (StockStrategy.monetaryVolume o p s) as [mv lm|e] eqn:Em;
      [|exact I].
    cbn. destruct (StockStrategy.ix buyRef s) as [vwap lv|e] eqn:Ev;
      [|exact I].
    cbn. specialize (Hmv s vwap). rewrite Em in Hmv. cbn in Hmv.
    destruct (roundVolume64 (fdiv mv vwap)); [contradiction|exact I].
  - apply (forEach_each _ _ _ _ s Hupdates Hs).
    destruct (StockStrategy.monetaryVolume o p s) as [mv lm|e] eqn:Em;
      [|exact I].
    cbn. destruct (StockStrategy.ix updRef s) as [vwap lv|e] eqn:Ev;
      [|exact I].
    cbn. specialize (Hmv s vwap). rewrite Em in Hmv. cbn in Hmv.
    destruct (roundVolume64 (fdiv mv vwap)); [contradiction|exact I].
Qed.

Lemma zero_total_weight_raises_witness :
  raises (StockStrategy.adjustPosition Scenario.strategy "20170104"
            {[ "B"%string := Finite 0 ]} Scenario.refPrices
            StockStrategy.defaults).
Proof.
  refine (zero_total_weight_raises Scenario.strategy "20170104"
            {[ "B"%string := Finite 0 ]} Scenario.refPrices
            StockStrategy.defaults _ [] "B" eq_refl _ _ _).
  - vm_compute. reflexivity.
  - vm_compute. reflexivity.
  - vm_compute. reflexivity.
Defined.
